(** * InvestiSmartBot: feature windows, indicators and the rolling cache

  A shallow embedding of [src/Stock-Bot-Predicter-AI/models.py] and of the
  older [src/Models.py], together with the part of pandas and numpy the two
  files call.

  Numbers.  The program computes with IEEE doubles.  Here a double is an
  exact rational or one of the three special values, so that the
  arithmetic identities of the indicators can be stated with [=]; rounding
  is not modelled, division by zero and NaN propagation are.

  Dates.  A date string ["YYYY-MM-DD"] is represented by its day ordinal;
  [datetime.strptime] and [strftime] are the two directions of that
  bijection. *)

From stdpp Require Import base option list gmap strings numbers.
From Stdlib Require Import QArith Qcanon ZArith Lia.

Local Open Scope Qc_scope.

(* ================================================================== *)
(** * Numbers *)
(* ================================================================== *)

Module Num.

Inductive num : Type :=
| Finite (q : Qc)
| PosInf
| NegInf
| NaN.

#[global] Instance num_eq_dec : EqDecision num.
Proof. solve_decision. Defined.

Definition of_Z (z : Z) : num := Finite (Qc_of_Z z).
Definition of_nat (n : nat) : Qc := Qc_of_Z (Z.of_nat n).

(** The infinity that a nonzero finite value produces when it is divided
    by zero or multiplied by an infinity; [0 * inf] and [0 / 0] are NaN.
    (There is one zero: the sign of a floating-point zero is not kept.) *)
Definition inf_of_sign (c : comparison) : num :=
  match c with Gt => PosInf | Lt => NegInf | Eq => NaN end.

Definition opp (a : num) : num :=
  match a with
  | Finite x => Finite (- x)
  | PosInf => NegInf
  | NegInf => PosInf
  | NaN => NaN
  end.

Definition add (a b : num) : num :=
  match a, b with
  | NaN, _ | _, NaN => NaN
  | Finite x, Finite y => Finite (x + y)
  | PosInf, NegInf | NegInf, PosInf => NaN
  | PosInf, _ | _, PosInf => PosInf
  | NegInf, _ | _, NegInf => NegInf
  end.

Definition sub (a b : num) : num :=
  match a, b with
  | NaN, _ | _, NaN => NaN
  | Finite x, Finite y => Finite (x - y)
  | PosInf, PosInf | NegInf, NegInf => NaN
  | PosInf, _ | _, NegInf => PosInf
  | NegInf, _ | _, PosInf => NegInf
  end.

Definition mul (a b : num) : num :=
  match a, b with
  | NaN, _ | _, NaN => NaN
  | Finite x, Finite y => Finite (x * y)
  | Finite x, PosInf | PosInf, Finite x => inf_of_sign (x ?= 0)
  | Finite x, NegInf | NegInf, Finite x => inf_of_sign (0 ?= x)
  | PosInf, PosInf | NegInf, NegInf => PosInf
  | PosInf, NegInf | NegInf, PosInf => NegInf
  end.

Definition div (a b : num) : num :=
  match a, b with
  | NaN, _ | _, NaN => NaN
  | Finite x, Finite y =>
      if decide (y = 0) then inf_of_sign (x ?= 0) else Finite (x / y)
  | Finite _, (PosInf | NegInf) => Finite 0
  | (PosInf | NegInf), (PosInf | NegInf) => NaN
  | PosInf, Finite y => if decide (y < 0) then NegInf else PosInf
  | NegInf, Finite y => if decide (y < 0) then PosInf else NegInf
  end.

Definition abs (a : num) : num :=
  match a with
  | Finite x => Finite (if decide (x < 0) then - x else x)
  | PosInf | NegInf => PosInf
  | NaN => NaN
  end.

(** [x > 0] and [x < 0]; every comparison with NaN is false. *)
Definition gt0 (a : num) : bool :=
  match a with
  | Finite x => bool_decide (0 < x)
  | PosInf => true
  | NegInf | NaN => false
  end.

Definition lt0 (a : num) : bool :=
  match a with
  | Finite x => bool_decide (x < 0)
  | NegInf => true
  | PosInf | NaN => false
  end.

Definition is_nan (a : num) : bool :=
  match a with NaN => true | _ => false end.

End Num.

Export Num.

Declare Scope num_scope.
Delimit Scope num_scope with num.
Infix "+" := Num.add : num_scope.
Infix "-" := Num.sub : num_scope.
Infix "*" := Num.mul : num_scope.
Infix "/" := Num.div : num_scope.

(* ================================================================== *)
(** * The part of pandas the program uses *)
(* ================================================================== *)

Module Pandas.

(** A Series taken from a frame: its values and the position, in the
    frame, of its first value.  The frame's index (trading dates, strictly
    increasing) is represented by positions, so two series of one frame
    align label by label exactly when they align position by position. *)
Record Series : Type := mkSeries { sstart : nat; svals : list num }.

#[global] Instance Series_eq_dec : EqDecision Series.
Proof. solve_decision. Defined.

Definition slen (s : Series) : nat := length (svals s).
Definition sstop (s : Series) : nat := (sstart s + slen s)%nat.

(** [pd.Series(l)]: a fresh series with the default range index. *)
Definition of_list (l : list num) : Series := mkSeries 0 l.

(** [s.iloc[-n:]] and [s[-n:]].  Python's [-0] is [0]: with [n = 0] the
    slice is the whole series. *)
Definition iloc_tail (n : nat) (s : Series) : Series :=
  match n with
  | O => s
  | S _ => let k := (slen s - n)%nat in
           mkSeries (sstart s + k) (drop k (svals s))
  end.

(** The labels a series has a value for. *)
Definition covers (s : Series) (t : nat) : Prop :=
  (sstart s ≤ t < sstop s)%nat.

(** The first position [s.iloc[-n:]] keeps of a series of [len] values. *)
Definition tail_offset (n len : nat) : nat :=
  match n with O => O | S _ => (len - n)%nat end.

Definition smap (f : num → num) (s : Series) : Series :=
  mkSeries (sstart s) (f <$> svals s).

(** The value under a label, NaN where the series has none. *)
Definition at_label (s : Series) (l : nat) : num :=
  if (l <? sstart s)%nat then NaN
  else default NaN (svals s !! (l - sstart s)%nat).

(** [a op b] on two series: pandas aligns on the union of the labels and
    fills the side that lacks a label with NaN.  Every series of this
    program is a suffix of one frame's column, so the union of two label
    ranges is the longer range; an empty operand contributes no label. *)
Definition binop (f : num → num → num) (a b : Series) : Series :=
  let lo := match svals a, svals b with
            | [], _ => sstart b
            | _, [] => sstart a
            | _, _ => Nat.min (sstart a) (sstart b)
            end in
  let hi := match svals a, svals b with
            | [], _ => sstop b
            | _, [] => sstop a
            | _, _ => Nat.max (sstop a) (sstop b)
            end in
  mkSeries lo ((λ l, f (at_label a l) (at_label b l)) <$> seq lo (hi - lo)).

(** [s.diff()]: NaN first, then [x[t] - x[t-1]]. *)
Definition diff_list (l : list num) : list num :=
  match l with
  | [] => []
  | _ :: r => NaN :: zip_with Num.sub r l
  end.

Definition diff (s : Series) : Series :=
  mkSeries (sstart s) (diff_list (svals s)).

(** [close.ewm(span=s, adjust=False).mean()] on finite prices: the
    recursive form of the pandas documentation,
    [y0 = x0], [yt = (1 - alpha) * y(t-1) + alpha * xt]. *)
Definition alpha (span : Z) : Qc := 2 / (Qc_of_Z span + 1).

Fixpoint ewm_from (a prev : Qc) (xs : list Qc) : list Qc :=
  match xs with
  | [] => []
  | x :: r => let y := a * x + (1 - a) * prev in y :: ewm_from a y r
  end.

Definition ewm_mean (span : Z) (xs : list Qc) : list Qc :=
  match xs with
  | [] => []
  | x0 :: r => x0 :: ewm_from (alpha span) x0 r
  end.

(** The trailing window of [w] positions that ends at position [t]. *)
Definition window_at {A} (w t : nat) (l : list A) : list A :=
  drop (t + 1 - w) (take (t + 1) l).

(** Rolling aggregations count the observations of the window: the values
    that are neither NaN nor infinite. *)
Definition observations (l : list num) : list Qc :=
  omap (λ v, match v with Finite q => Some q | _ => None end) l.

Definition qsum (l : list Qc) : Qc := foldr Qcplus 0 l.

Definition enough (min_periods : nat) (obs : list Qc) : bool :=
  negb (length obs <? Nat.max 1 min_periods)%nat.

Definition mean_of (min_periods : nat) (win : list num) : num :=
  let obs := observations win in
  if enough min_periods obs then Finite (qsum obs / Num.of_nat (length obs))
  else NaN.

Definition sum_of (min_periods : nat) (win : list num) : num :=
  let obs := observations win in
  if enough min_periods obs then Finite (qsum obs) else NaN.

Definition rolling (agg : list num → num) (w : nat) (s : Series) : Series :=
  mkSeries (sstart s)
           ((λ t, agg (window_at w t (svals s))) <$> seq 0 (slen s)).

(** [s.rolling(window=w, min_periods=m).mean()]; without [min_periods]
    pandas takes [m = w]. *)
Definition rolling_mean (w : nat) (min_periods : option nat) (s : Series) : Series :=
  rolling (mean_of (default w min_periods)) w s.

Definition rolling_sum (w : nat) (min_periods : option nat) (s : Series) : Series :=
  rolling (sum_of (default w min_periods)) w s.

End Pandas.

Export Pandas.

(* ================================================================== *)
(** * Python: exceptions, lists, methods with state *)
(* ================================================================== *)

Module Py.

Inductive exn : Type :=
| ValueError | KeyError | IndexError | TypeError | RuntimeError
| ConnectionError | LookupError | NameError | AttributeError
| ZeroDivisionError | FileNotFoundError.

#[global] Instance exn_eq_dec : EqDecision exn.
Proof. solve_decision. Defined.

Inductive result (A : Type) : Type :=
| Ok (a : A)
| Raise (e : exn).
Arguments Ok {A} a.
Arguments Raise {A} e.

#[global] Instance result_eq_dec {A} `{EqDecision A} : EqDecision (result A).
Proof. solve_decision. Defined.

Definition rbind {A B} (r : result A) (k : A → result B) : result B :=
  match r with Ok a => k a | Raise e => Raise e end.

(** [x in l], [l.index(x)], [l[i]] and [d[k]]. *)
Definition py_in {A} `{EqDecision A} (x : A) (l : list A) : bool :=
  bool_decide (x ∈ l).

Fixpoint index_from {A} `{EqDecision A} (x : A) (l : list A) (i : nat) : result nat :=
  match l with
  | [] => Raise ValueError
  | y :: r => if decide (x = y) then Ok i else index_from x r (S i)
  end.

Definition py_index {A} `{EqDecision A} (x : A) (l : list A) : result nat :=
  index_from x l 0.

Definition py_getitem {A} (l : list A) (i : nat) : result A :=
  match l !! i with Some a => Ok a | None => Raise IndexError end.

Definition py_dict_get {A} (d : gmap string A) (k : string) : result A :=
  match d !! k with Some a => Ok a | None => Raise KeyError end.

(** [l[a:b]]: a negative bound counts from the end, and both bounds are
    clamped to the list. *)
Definition slice_bound (len i : Z) : Z :=
  if (i <? 0)%Z then Z.max 0 (len + i) else Z.min i len.

Definition py_slice {A} (l : list A) (a b : Z) : list A :=
  let len := Z.of_nat (length l) in
  let lo := slice_bound len a in
  let hi := slice_bound len b in
  take (Z.to_nat (hi - lo)) (drop (Z.to_nat lo) l).

(** [min(l)] and [max(l)] of a list of floats; the empty list raises. *)
Definition qmin (a b : Qc) : Qc := if decide (b < a) then b else a.
Definition qmax (a b : Qc) : Qc := if decide (a < b) then b else a.

Definition py_min (l : list Qc) : result Qc :=
  match l with [] => Raise ValueError | x :: r => Ok (foldl qmin x r) end.

Definition py_max (l : list Qc) : result Qc :=
  match l with [] => Raise ValueError | x :: r => Ok (foldl qmax x r) end.

(** Scalar division of two Python floats raises on a zero divisor;
    the same division on a Series or an array ([Num.div]) does not. *)
Definition py_truediv (a b : num) : result num :=
  if decide (b = Finite 0) then Raise ZeroDivisionError else Ok (a / b)%num.

#[global] Instance result_ret : MRet result := @Ok.
#[global] Instance result_bind : MBind result := λ A B k r, rbind r k.

End Py.

Export Py.

(* ================================================================== *)
(** * The part of numpy the program uses *)
(* ================================================================== *)

Module Numpy.

(** Arrays of one and two axes, and the three-axis arrays of shape
    [(1, nrows, ncols)] that [np.reshape] makes, kept in row-major order.
    [Arr2 c rows] keeps the length [c] of the second axis, which an array
    has even when it has no row. *)
Inductive ndarray : Type :=
| Arr1 (l : list num)
| Arr2 (ncols : nat) (rows : list (list num))
| Arr3 (nrows ncols : nat) (flat : list num).

#[global] Instance ndarray_eq_dec : EqDecision ndarray.
Proof. solve_decision. Defined.

(** [len(a)]. *)
Definition np_len (a : ndarray) : nat :=
  match a with
  | Arr1 l => length l
  | Arr2 _ rows => length rows
  | Arr3 _ _ _ => 1
  end.

Definition same_lengths (n : nat) (cols : list (list num)) : bool :=
  forallb (λ c, length c =? n)%nat cols.

(** [np.transpose(cols)] of a Python list of columns: no column gives the
    empty one-axis array; columns of one length [n] give the [n] rows;
    columns of different lengths are not an array. *)
Definition np_transpose (cols : list (list num)) : result ndarray :=
  match cols with
  | [] => Ok (Arr1 [])
  | c0 :: _ =>
      let n := length c0 in
      if same_lengths n cols
      then Ok (Arr2 (length cols)
                    ((λ i, (λ c, default NaN (c !! i)) <$> cols) <$> seq 0 n))
      else Raise ValueError
  end.

(** [np.concatenate((a[1:], [row]))]: both operands need two axes and the
    same second axis. *)
Definition np_drop_first_append (a : ndarray) (row : list num) : result ndarray :=
  match a with
  | Arr2 c rows =>
      if decide (c = length row) then Ok (Arr2 c (tail rows ++ [row]))
      else Raise ValueError
  | Arr1 _ | Arr3 _ _ _ => Raise ValueError
  end.

(** [np.reshape(a, (1, 60, a.shape[1]))]: [a] needs a second axis, and as
    many elements as the new shape. *)
Definition np_reshape_1_60 (a : ndarray) : result ndarray :=
  match a with
  | Arr1 _ => Raise IndexError
  | Arr2 c rows =>
      if decide (length rows * c = 60 * c)%nat then Ok (Arr3 60 c (concat rows))
      else Raise ValueError
  | Arr3 r c flat =>
      if decide (r * c = 60 * r)%nat then Ok (Arr3 60 r flat)
      else Raise ValueError
  end.

(** The elements of an array, in row-major order. *)
Definition np_flat (a : ndarray) : list num :=
  match a with
  | Arr1 l => l
  | Arr2 _ rows => concat rows
  | Arr3 _ _ flat => flat
  end.

(** [bool(x)] of a float: zero is false; NaN and the infinities are true. *)
Definition float_bool (x : num) : bool := negb (bool_decide (x = Finite 0)).

(** [bool(a)], which [not a] and [if a:] evaluate.  An array of one
    element has the truth of that element; an array of two or more has
    none: [ValueError].  The array without elements is [False] (with a
    DeprecationWarning) up to numpy 2.1 and a [ValueError] from numpy 2.2:
    [empty_truth] is what the installed numpy answers. *)
Definition np_bool (empty_truth : result bool) (a : ndarray) : result bool :=
  match np_flat a with
  | [] => empty_truth
  | [x] => Ok (float_bool x)
  | _ :: _ :: _ => Raise ValueError
  end.

End Numpy.

Export Numpy.

(* ================================================================== *)
(** * Data shared by the two model files *)
(* ================================================================== *)

Module Data.

(** A date as Python holds it: the string ["YYYY-MM-DD"] or the
    [datetime] object, each given by its day ordinal.  A string never
    equals a [datetime]. *)
Inductive pydate : Type :=
| DateStr (d : Z)
| DateTime (d : Z).

#[global] Instance pydate_eq_dec : EqDecision pydate.
Proof. solve_decision. Defined.

(** One row of the frame [yf.Ticker(...).history(...)] returns. *)
Record bar : Type := mkBar { bar_date : Z; bar_close : Qc; bar_volume : Qc }.

Definition DataFrame : Type := list bar.

Definition col_close (df : DataFrame) : list Qc := bar_close <$> df.

(** [frame['Close']] and [frame['Volume']]. *)
Definition close_series (df : DataFrame) : Series :=
  of_list (Finite <$> col_close df).

Definition volume_series (df : DataFrame) : Series :=
  of_list (Finite <$> (bar_volume <$> df)).

(** [frame['Close'].ewm(span=s, adjust=False).mean()]. *)
Definition ewm_series (span : Z) (df : DataFrame) : Series :=
  of_list (Finite <$> ewm_mean span (col_close df)).

(** A value of the [stock_data] dictionary: a Series or a Python list. *)
Inductive colval : Type :=
| ColSeries (s : Series)
| ColList (l : list num).

#[global] Instance colval_eq_dec : EqDecision colval.
Proof. solve_decision. Defined.

Definition col_values (c : colval) : list num :=
  match c with ColSeries s => svals s | ColList l => l end.

(** Scalar operations on a Series. *)
Definition series_sub_scalar (s : Series) (c : num) : Series :=
  smap (λ v, v - c)%num s.
Definition series_div_scalar (s : Series) (c : num) : Series :=
  smap (λ v, v / c)%num s.
Definition series_mul_scalar (s : Series) (c : num) : Series :=
  smap (λ v, v * c)%num s.

(** [(column_values - low) / diff]: the scaling both files apply. *)
Definition scale_value (low diff v : num) : num := ((v - low) / diff)%num.

Definition scale_series (low diff : num) (s : Series) : Series :=
  series_div_scalar (series_sub_scalar s low) diff.

(** [change.apply(lambda x: x if x > 0 else 0)] and
    [change.apply(lambda x: abs(x) if x < 0 else 0)]. *)
Definition gain_of (x : num) : num := if Num.gt0 x then x else Finite 0.
Definition loss_of (x : num) : num := if Num.lt0 x then Num.abs x else Finite 0.

(** [100 - (100 / (1 + rs))]. *)
Definition rsi_of (rs : num) : num :=
  (Num.of_Z 100 - Num.of_Z 100 / (Num.of_Z 1 + rs))%num.

Definition has_key (k : string) (keys : list string) : bool :=
  bool_decide (k ∈ keys).

End Data.

Export Data.

(* ================================================================== *)
(** * src/Stock-Bot-Predicter-AI/models.py *)
(* ================================================================== *)

Module StockBot.

(** An entry of [min_max_data.json]: [{'min': ..., 'diff': ...}]. *)
Record scaler_entry : Type := mkScaler { s_min : num; s_diff : num }.

(** The content of [info.json]: the ['Dates'] list and, under every
    other key, one list of values, position for position.  ('Dates' is
    never an information key, as the source notes.) *)
Record snapshot : Type := mkSnapshot {
  Dates : list Z;
  columns : gmap string (list num)
}.

(** [self.cached_info]: [None], a DataFrame online, a dict offline. *)
Inductive cached_info_t : Type :=
| NoInfo
| Frame (df : DataFrame)
| Offline (d : snapshot).

(** The attributes of a [BaseModel] the embedded methods read or write;
    a loaded network is represented by its [predict]. *)
Record BaseModel : Type := mkBaseModel {
  start_date : Z;
  end_date : Z;
  stock_symbol : string;
  information_keys : list string;
  num_days : nat;
  model : option (ndarray → ndarray);
  scaler_data : gmap string scaler_entry;
  cached : option ndarray;
  cached_info : cached_info_t
}.

Definition set_cached (c : option ndarray) (s : BaseModel) : BaseModel :=
  mkBaseModel (start_date s) (end_date s) (stock_symbol s) (information_keys s)
              (num_days s) (model s) (scaler_data s) c (cached_info s).

Definition set_cached_info (ci : cached_info_t) (s : BaseModel) : BaseModel :=
  mkBaseModel (start_date s) (end_date s) (stock_symbol s) (information_keys s)
              (num_days s) (model s) (scaler_data s) (cached s) ci.

Definition set_scaler_data (sc : gmap string scaler_entry) (s : BaseModel) : BaseModel :=
  mkBaseModel (start_date s) (end_date s) (stock_symbol s) (information_keys s)
              (num_days s) (model s) sc (cached s) (cached_info s).

Definition set_dates (sd ed : Z) (s : BaseModel) : BaseModel :=
  mkBaseModel sd ed (stock_symbol s) (information_keys s)
              (num_days s) (model s) (scaler_data s) (cached s) (cached_info s).

(** What a method can observe and change: the instance and the warnings
    issued so far. *)
Record world : Type := mkWorld { self : BaseModel; warnings : list string }.

Definition M (A : Type) : Type := world → result A * world.

Definition ret {A} (a : A) : M A := λ w, (Ok a, w).

Definition bind {A B} (m : M A) (k : A → M B) : M B :=
  λ w, match m w with
       | (Ok a, w') => k a w'
       | (Raise e, w') => (Raise e, w')
       end.

Definition raise {A} (e : exn) : M A := λ w, (Raise e, w).

Definition lift {A} (r : result A) : M A := λ w, (r, w).

Definition get_self : M BaseModel := λ w, (Ok (self w), w).

Definition modify_self (f : BaseModel → BaseModel) : M unit :=
  λ w, (Ok tt, mkWorld (f (self w)) (warnings w)).

Definition warn (msg : string) : M unit :=
  λ w, (Ok tt, mkWorld (self w) (warnings w ++ [msg])).

(** [try: body except cls: handler]. *)
Definition try_except {A} (body : M A) (cls : exn) (handler : M A) : M A :=
  λ w, match body w with
       | (Raise e, w') => if decide (e = cls) then handler w' else (Raise e, w')
       | r => r
       end.

(** Calling a bound method: the positional arguments must match the
    parameters that follow [self] in the [def], or the call is a
    [TypeError] and the body does not run. *)
Definition call_method {A} (params args : nat) (body : M A) : M A :=
  if decide (params = args) then body else raise TypeError.

Notation "x <- m ;; k" := (bind m (λ x, k))
  (at level 100, m at next level, right associativity).

Section Collaborators.

(** Names imported from [trading_funcs] and [get_info], and the services
    behind [yfinance], [pandas_market_calendars] and the file system. *)
Variable excluded_values : list string.
Variable is_floats : colval → bool.
Variable process_flips : Series → Series → list num.
Variable get_liquidity_spikes : Series → option bool → option num → Series.
Variable calculate_momentum_oscillator : Series → Series.
Variable get_earnings_history : string → list pydate * list num.
Variable yf_history : string → Z → Z → DataFrame.
Variable nyse_schedule : Z → Z → list Z.
Variable info_json : string → option snapshot.

(** ** indicators_past_num_days *)

(** The series the method derives from [cached_info['Close']]. *)
Definition macd_series (df : DataFrame) : Series :=
  binop Num.sub (ewm_series 12 df) (ewm_series 26 df).

Definition signal_line_series (num_days : nat) (df : DataFrame) : Series :=
  iloc_tail num_days (rolling_mean 9 (Some 1%nat) (macd_series df)).

Definition histogram_series (num_days : nat) (df : DataFrame) : Series :=
  iloc_tail num_days (binop Num.sub (macd_series df) (signal_line_series num_days df)).

Definition change_series (num_days : nat) (df : DataFrame) : Series :=
  iloc_tail num_days (diff (close_series df)).

Definition momentum_series (num_days : nat) (df : DataFrame) : Series :=
  iloc_tail num_days (rolling_sum 10 (Some 1%nat) (change_series num_days df)).

Definition avg_gain_series (num_days : nat) (df : DataFrame) : Series :=
  iloc_tail num_days (rolling_mean 14 None (smap gain_of (change_series num_days df))).

Definition avg_loss_series (num_days : nat) (df : DataFrame) : Series :=
  iloc_tail num_days (rolling_mean 14 None (smap loss_of (change_series num_days df))).

Definition rsi_series (num_days : nat) (df : DataFrame) : Series :=
  smap rsi_of (binop Num.div (avg_gain_series num_days df) (avg_loss_series num_days df)).

Definition volatility_series (num_days : nat) (df : DataFrame) : Series :=
  iloc_tail num_days (smap Num.abs (diff (close_series df))).

Definition trama_series (num_days : nat) (df : DataFrame) : Series :=
  binop Num.add
        (iloc_tail num_days (rolling_mean 14 None (close_series df)))
        (series_mul_scalar (volatility_series num_days df) (Finite (Q2Qc 0.1))).

(** One pass of the earnings loop: the membership test is on [end_date]
    (a string), the lookup on [date], the [datetime] that lies [num_days]
    before it; neither depends on the loop counter. *)
Definition earning_diff_step (end_date : Z) (num_days : nat)
    (earnings_dates : list pydate) (earnings_diff : list num)
    (low diff : num) : result num :=
  if negb (py_in (DateStr end_date) earnings_dates) then Ok (Finite 0)
  else
    i ← py_index (DateTime (end_date - Z.of_nat num_days)) earnings_dates;
    d ← py_getitem earnings_diff i;
    py_truediv (d - low)%num diff.

Fixpoint earning_diffs_loop (n : nat) (step : result num) (acc : list num)
    : result (list num) :=
  match n with
  | O => Ok acc
  | S n' => v ← step; earning_diffs_loop n' step (acc ++ [v])
  end.

Definition earning_diffs (stock_symbol : string) (end_date : Z) (num_days : nat)
    (scaler_data : gmap string scaler_entry) : result (list num) :=
  let '(earnings_dates, earnings_diff) := get_earnings_history stock_symbol in
  e ← py_dict_get scaler_data "earning diffs";
  earning_diffs_loop num_days
    (earning_diff_step end_date num_days earnings_dates earnings_diff (s_min e) (s_diff e))
    [].

(** The body of the scaling loop for one column. *)
Definition scale_column (scaler_data : gmap string scaler_entry)
    (stock_data : gmap string colval) (column : string)
    : result (gmap string colval) :=
  if has_key column excluded_values then Ok stock_data
  else
    e ← py_dict_get scaler_data column;
    column_values ← py_dict_get stock_data column;
    match column_values with
    | ColSeries s =>
        Ok (<[column := ColSeries (scale_series (s_min e) (s_diff e) s)]> stock_data)
    | ColList _ => Raise TypeError
    end.

Definition scale_columns (scaler_data : gmap string scaler_entry)
    (information_keys : list string) (stock_data : gmap string colval)
    : result (gmap string colval) :=
  foldl (λ acc column, sd ← acc; scale_column scaler_data sd column)
        (Ok stock_data) information_keys.

(** [if key in information_keys: stock_data[key] = value]. *)
Definition put_if (keys : list string) (key : string) (value : colval)
    (stock_data : gmap string colval) : gmap string colval :=
  if has_key key keys then <[key := value]> stock_data else stock_data.

(** The dictionary before the earnings block and the scaling loop. *)
Definition unscaled_indicators (information_keys : list string)
    (cached_info : DataFrame) (num_days : nat) : gmap string colval :=
  let close := close_series cached_info in
  let ema12 := ewm_series 12 cached_info in
  let ema26 := ewm_series 26 cached_info in
  let macd := macd_series cached_info in
  let signal_line := signal_line_series num_days cached_info in
  let put := put_if information_keys in
  let sd := <["Close" := ColSeries (iloc_tail num_days close)]> ∅ in
  let sd := put "12-day EMA" (ColSeries (iloc_tail num_days ema12)) sd in
  let sd := put "26-day EMA" (ColSeries (iloc_tail num_days ema26)) sd in
  let sd := put "MACD" (ColSeries (iloc_tail num_days macd)) sd in
  let sd := put "Signal Line" (ColSeries signal_line) sd in
  let sd := put "Histogram" (ColSeries (histogram_series num_days cached_info)) sd in
  let sd := put "200-day EMA" (ColSeries (iloc_tail num_days (ewm_series 200 cached_info))) sd in
  let sd := put "Change" (ColSeries (iloc_tail num_days (change_series num_days cached_info))) sd in
  let sd := put "Momentum" (ColSeries (momentum_series num_days cached_info)) sd in
  let sd := put "RSI" (ColSeries (rsi_series num_days cached_info)) sd in
  let sd := put "TRAMA" (ColSeries (trama_series num_days cached_info)) sd in
  let sd := put "gradual-liquidity spike"
              (ColSeries (iloc_tail num_days
                 (get_liquidity_spikes (volume_series cached_info) (Some true) None))) sd in
  let sd := put "3-liquidity spike"
              (ColSeries (iloc_tail num_days
                 (get_liquidity_spikes (volume_series cached_info) None (Some (Num.of_Z 4))))) sd in
  let sd := put "momentum_oscillator"
              (ColSeries (iloc_tail num_days (calculate_momentum_oscillator close))) sd in
  let sd := put "ema_flips"
              (ColSeries (of_list (process_flips (iloc_tail num_days ema12)
                                                 (iloc_tail num_days ema26)))) sd in
  let sd := put "signal_flips"
              (ColSeries (of_list (process_flips (iloc_tail num_days macd)
                                                 (iloc_tail num_days signal_line)))) sd in
  sd.

Definition indicators_past_num_days (stock_symbol : string) (end_date : Z)
    (information_keys : list string) (scaler_data : gmap string scaler_entry)
    (cached_info : DataFrame) (num_days : nat) : result (gmap string colval) :=
  let sd := unscaled_indicators information_keys cached_info num_days in
  sd ← (if has_key "earning diffs" information_keys
        then l ← earning_diffs stock_symbol end_date num_days scaler_data;
             Ok (<["earning diffs" := ColList l]> (<["earnings dates" := ColList []]> sd))
        else Ok sd);
  scale_columns scaler_data information_keys sd.

(** ** update_cached_info_online *)

(** [frame.drop(frame.index[0])]: the rows under the first label go. *)
Definition drop_first_label (df : DataFrame) : result DataFrame :=
  match df with
  | [] => Raise IndexError
  | b0 :: _ => Ok (filter (λ b, bar_date b ≠ bar_date b0) df)
  end.

Definition update_cached_info_online : M cached_info_t :=
  s <- get_self ;;
  match cached_info s with
  | NoInfo =>
      let fetched := yf_history (stock_symbol s) (end_date s - 280) (end_date s) in
      if decide (length fetched = 0%nat) then raise ConnectionError
      else ret (Frame fetched)
  | Frame df =>
      let day_info := yf_history (stock_symbol s) (end_date s - 1) (end_date s) in
      if decide (length day_info = 0%nat) then raise ConnectionError
      else
        rest <- lift (drop_first_label df) ;;
        ret (Frame (rest ++ day_info))
  | Offline _ =>
      let day_info := yf_history (stock_symbol s) (end_date s - 1) (end_date s) in
      if decide (length day_info = 0%nat) then raise ConnectionError
      else raise AttributeError
  end.

(** ** update_cached_online *)

(** [[cached[key] for key in information_keys if is_floats(cached[key])]]. *)
Fixpoint float_columns (stock_data : gmap string colval) (keys : list string)
    : result (list (list num)) :=
  match keys with
  | [] => Ok []
  | key :: rest =>
      c ← py_dict_get stock_data key;
      cols ← float_columns stock_data rest;
      Ok (if is_floats c then col_values c :: cols else cols)
  end.

Definition update_cached_online : M unit :=
  s <- get_self ;;
  match cached_info s with
  | NoInfo => raise TypeError
  | Offline d =>
      match columns d !! "Close" with
      | Some _ => raise AttributeError
      | None => raise KeyError
      end
  | Frame df =>
      stock_data <- lift (indicators_past_num_days
                            (stock_symbol s) (end_date s) (information_keys s)
                            (scaler_data s) df (num_days s)) ;;
      cols <- lift (float_columns stock_data (information_keys s)) ;;
      arr <- lift (np_transpose cols) ;;
      modify_self (set_cached (Some arr))
  end.

(** ** update_cached_offline *)

(** [not self.cached_info]: a DataFrame has no truth value. *)
Definition not_cached_info (ci : cached_info_t) : result bool :=
  match ci with
  | NoInfo => Ok true
  | Offline _ => Ok false
  | Frame _ => Raise ValueError
  end.

(** [cached_info[key][end_index-num_days:end_index]] for the keys that are
    not excluded. *)
Fixpoint snapshot_window (d : snapshot) (keys : list string) (end_index : nat)
    (num_days : nat) : result (list (list num)) :=
  match keys with
  | [] => Ok []
  | key :: rest =>
      if has_key key excluded_values then snapshot_window d rest end_index num_days
      else
        col ← py_dict_get (columns d) key;
        cols ← snapshot_window d rest end_index num_days;
        Ok (py_slice col (Z.of_nat end_index - Z.of_nat num_days) (Z.of_nat end_index) :: cols)
  end.

(** [[cached_info[key][i_end] for key in information_keys]]. *)
Fixpoint snapshot_row (d : snapshot) (keys : list string) (i_end : nat)
    : result (list num) :=
  match keys with
  | [] => Ok []
  | key :: rest =>
      col ← py_dict_get (columns d) key;
      v ← py_getitem col i_end;
      row ← snapshot_row d rest i_end;
      Ok (v :: row)
  end.

(** The block under [if not self.cached_info:]. *)
Definition populate_offline : M unit :=
  s <- get_self ;;
  match info_json (stock_symbol s) with
  | None => raise FileNotFoundError
  | Some d =>
      if negb (py_in (start_date s) (Dates d)) then raise ValueError
      else if negb (py_in (end_date s) (Dates d)) then raise ValueError
      else
        end_index <- lift (py_index (end_date s) (Dates d)) ;;
        cols <- lift (snapshot_window d (information_keys s) end_index (num_days s)) ;;
        arr <- lift (np_transpose cols) ;;
        _ <- modify_self (set_cached (Some arr)) ;;
        _ <- modify_self (set_cached_info (Offline d)) ;;
        if decide (np_len arr = 0%nat) then raise RuntimeError else ret tt
  end.

(** The block under [if len(self.cached) != 0:]. *)
Definition advance_offline (end_date : Z) : M unit :=
  s <- get_self ;;
  match cached s with
  | None => raise TypeError
  | Some arr =>
      if decide (np_len arr = 0%nat) then ret tt
      else
        match cached_info s with
        | Offline d =>
            i_end <- lift (py_index end_date (Dates d)) ;;
            day_data <- lift (snapshot_row d (information_keys s) i_end) ;;
            arr' <- lift (np_drop_first_append arr day_data) ;;
            modify_self (set_cached (Some arr'))
        | NoInfo | Frame _ => raise TypeError
        end
  end.

Definition update_cached_offline : M unit :=
  _ <- warn "For Testing" ;;
  s <- get_self ;;
  let end_date := end_date s in
  unpopulated <- lift (not_cached_info (cached_info s)) ;;
  _ <- (if unpopulated then populate_offline else ret tt) ;;
  advance_offline end_date.

(** ** get_info_today *)

(** [type(x) is Dict] with [Dict] imported from [typing]: the alias is the
    class of no object, so the test is false for every [x]. *)
Definition type_is_typing_Dict (ci : cached_info_t) : bool := false.

Definition type_is_DataFrame (ci : cached_info_t) : bool :=
  match ci with Frame _ => true | _ => false end.

(** The [try] block.  [update_cached_info_online] is declared with [self]
    alone and is called here with one argument. *)
Definition online_attempt : M unit :=
  s <- get_self ;;
  if type_is_typing_Dict (cached_info s) then raise ConnectionError
  else
    ci <- call_method 0 1 update_cached_info_online ;;
    _ <- modify_self (set_cached_info ci) ;;
    call_method 0 0 update_cached_online.

(** The [except ConnectionError] block. *)
Definition offline_fallback : M unit :=
  _ <- warn "Stock data failed to download. Check your internet" ;;
  s <- get_self ;;
  _ <- (if type_is_DataFrame (cached_info s)
        then modify_self (set_cached_info NoInfo) else ret tt) ;;
  try_except (call_method 0 0 update_cached_offline)
             ValueError
             (raise RuntimeError).

Definition get_info_today : M (option ndarray) :=
  _ <- warn "It is better to do this in your own code so online and offline are split" ;;
  s <- get_self ;;
  let schedule := nyse_schedule (end_date s - 1) (end_date s + 2) in
  if negb (py_in (end_date s) schedule) then ret None
  else
    _ <- try_except online_attempt ConnectionError offline_fallback ;;
    s <- get_self ;;
    match cached s with
    | None => raise RuntimeError
    | Some arr =>
        _ <- modify_self (set_dates (start_date s + 1) (end_date s + 1)) ;;
        reshaped <- lift (np_reshape_1_60 arr) ;;
        _ <- modify_self (set_cached (Some reshaped)) ;;
        ret (Some reshaped)
    end.

(** ** predict *)

Definition predict (info : option ndarray) : M ndarray :=
  info <- (match info with
           | None => call_method 0 0 get_info_today
           | Some _ => ret info
           end) ;;
  match info with
  | None => raise RuntimeError
  | Some x =>
      s <- get_self ;;
      match model s with
      | Some net => ret (net x)
      | None => raise LookupError
      end
  end.

End Collaborators.

End StockBot.

(* ================================================================== *)
(** * src/Models.py *)
(* ================================================================== *)

Module ModelsPy.

(** What a caller hands to [predict] as [info], [None] apart: a Python
    list of rows (the annotation, and what [getInfoToday] returns) or a
    numpy array (what [Loop_Implementation.py] passes). *)
Inductive pyinfo : Type :=
| InfoList (rows : list (list num))
| InfoArray (a : ndarray).

#[global] Instance pyinfo_eq_dec : EqDecision pyinfo.
Proof. solve_decision. Defined.

(** The attributes of the older [BaseModel]; [data] holds the training
    columns that [load] reads from [data.json]; a loaded network is
    represented by its [predict]. *)
Record BaseModel : Type := mkBaseModel {
  start_date : Z;
  end_date : Z;
  stock_symbol : string;
  information_keys : list string;
  num_days : nat;
  cached : option DataFrame;
  model : option (pyinfo → list num);
  data : option (gmap string (list Qc))
}.

(** No method embedded here assigns an attribute: a method is a function
    of the instance that returns or raises. *)
Definition M (A : Type) : Type := BaseModel → result A.

Section Collaborators.

(** Names imported from [Tradingfuncs] and [getInfo].  [yf] stands for the
    module-level names [yf], [datetime] and [timedelta] that [getInfoToday]
    uses: [None] when the module does not bind them (the file has no
    import for them), the data source otherwise. *)
Variable process_flips : Series → Series → list num.
Variable get_liquidity_spikes : Series → option bool → option num → Series.
Variable calculate_momentum_oscillator : Series → Series.
Variable get_earnings_history : string → list pydate * list num.
Variable yf : option (string → Z → Z → DataFrame).

(** ** getInfoToday: the derived series *)

Definition ema12_series (df : DataFrame) : Series := iloc_tail 60 (ewm_series 12 df).
Definition ema26_series (df : DataFrame) : Series := iloc_tail 60 (ewm_series 26 df).

Definition macd_series (df : DataFrame) : Series :=
  binop Num.sub (ema12_series df) (ema26_series df).

Definition signal_line_series (df : DataFrame) : Series :=
  iloc_tail 60 (rolling_mean 9 None (macd_series df)).

Definition histogram_series (df : DataFrame) : Series :=
  binop Num.sub (macd_series df) (signal_line_series df).

Definition change_series (df : DataFrame) : Series :=
  iloc_tail 60 (diff (close_series df)).

Definition momentum_series (df : DataFrame) : Series :=
  iloc_tail 60 (rolling_sum 10 (Some 1%nat) (change_series df)).

Definition avg_gain_series (df : DataFrame) : Series :=
  iloc_tail 60 (rolling_mean 14 (Some 1%nat) (smap gain_of (change_series df))).

Definition avg_loss_series (df : DataFrame) : Series :=
  iloc_tail 60 (rolling_mean 14 (Some 1%nat) (smap loss_of (change_series df))).

Definition rs_series (df : DataFrame) : Series :=
  binop Num.div (avg_gain_series df) (avg_loss_series df).

Definition rsi_series (df : DataFrame) : Series := smap rsi_of (rs_series df).

Definition volatility_series (df : DataFrame) : Series :=
  iloc_tail 60 (smap Num.abs (diff (close_series df))).

Definition trama_series (period : nat) (df : DataFrame) : Series :=
  binop Num.add
        (iloc_tail 60 (rolling_mean period None (close_series df)))
        (series_mul_scalar (volatility_series df) (Finite (Q2Qc 0.1))).

(** The three dates before [end_date], as strings, latest first. *)
Definition all_dates (end_date : Z) : list pydate :=
  (λ i, DateStr (end_date - (Z.of_nat i + 1))) <$> seq 0 3.

(** The earnings loop: the membership test is on [end_date], which is a
    [datetime] by then, the lookup on the loop's [date]. *)
Fixpoint earnings_diff_loop (end_date : Z) (earnings_dates : list pydate)
    (earnings_diff : list num) (dates : list pydate) (acc : list num)
    : result (list num) :=
  match dates with
  | [] => Ok acc
  | date :: rest =>
      if negb (py_in (DateTime end_date) earnings_dates)
      then earnings_diff_loop end_date earnings_dates earnings_diff rest (acc ++ [Finite 0])
      else
        i ← py_index date earnings_dates;
        d ← py_getitem earnings_diff i;
        earnings_diff_loop end_date earnings_dates earnings_diff rest (acc ++ [d])
  end.

Definition earnings_diff_column (stock_symbol : string) (end_date : Z)
    : result (list num) :=
  let '(earnings_dates, earnings_diff) := get_earnings_history stock_symbol in
  earnings_diff_loop end_date earnings_dates earnings_diff (all_dates end_date) [].

Definition excluded_values : list string :=
  ["Date"; "earnings diff"; "earnings dates"].

(** The dictionary before the earnings loop and the scaling loop. *)
Definition unscaled_indicators (num_days period : nat) (cached_data : DataFrame)
    : gmap string colval :=
  let sd : gmap string colval := <["Close" := ColSeries (close_series cached_data)]> ∅ in
  let sd := <["12-day EMA" := ColSeries (ema12_series cached_data)]> sd in
  let sd := <["26-day EMA" := ColSeries (ema26_series cached_data)]> sd in
  let sd := <["MACD" := ColSeries (macd_series cached_data)]> sd in
  let sd := <["Signal Line" := ColSeries (signal_line_series cached_data)]> sd in
  let sd := <["Histogram" := ColSeries (histogram_series cached_data)]> sd in
  let sd := <["200-day EMA" := ColSeries (iloc_tail 60 (ewm_series 200 cached_data))]> sd in
  let sd := <["Change" := ColSeries (change_series cached_data)]> sd in
  let sd := <["Momentum" := ColSeries (momentum_series cached_data)]> sd in
  let sd := <["Gain" := ColSeries (smap gain_of (change_series cached_data))]> sd in
  let sd := <["Loss" := ColSeries (smap loss_of (change_series cached_data))]> sd in
  let sd := <["Avg Gain" := ColSeries (avg_gain_series cached_data)]> sd in
  let sd := <["Avg Loss" := ColSeries (avg_loss_series cached_data)]> sd in
  let sd := <["RS" := ColSeries (rs_series cached_data)]> sd in
  let sd := <["RSI" := ColSeries (rsi_series cached_data)]> sd in
  let sd := <["TRAMA" := ColSeries (trama_series period cached_data)]> sd in
  let sd := <["gradual-liquidity spike" :=
                ColSeries (iloc_tail 60
                  (get_liquidity_spikes (volume_series cached_data) (Some true) None))]> sd in
  let sd := <["3-liquidity spike" :=
                ColSeries (iloc_tail 60
                  (get_liquidity_spikes (volume_series cached_data) None (Some (Num.of_Z 4))))]> sd in
  let sd := <["momentum_oscillator" :=
                ColSeries (iloc_tail 60
                  (calculate_momentum_oscillator (close_series cached_data)))]> sd in
  let sd := <["flips" :=
                ColList (process_flips (iloc_tail num_days (ewm_series 12 cached_data))
                                       (iloc_tail num_days (ewm_series 26 cached_data)))]> sd in
  sd.

(** The body of the scaling loop for one column: the parameters are the
    minimum and the maximum of the training column [self.data[column]]. *)
Definition scale_column (data : option (gmap string (list Qc)))
    (stock_data : gmap string colval) (column : string)
    : result (gmap string colval) :=
  if has_key column excluded_values then Ok stock_data
  else
    match data with
    | None => Raise TypeError
    | Some d =>
        training ← py_dict_get d column;
        low ← py_min training;
        high ← py_max training;
        column_values ← py_dict_get stock_data column;
        match column_values with
        | ColSeries s =>
            Ok (<[column := ColSeries (scale_series (Finite low) (Finite (high - low)) s)]>
                  stock_data)
        | ColList _ => Raise TypeError
        end
    end.

Definition scale_columns (data : option (gmap string (list Qc)))
    (information_keys : list string) (stock_data : gmap string colval)
    : result (gmap string colval) :=
  foldl (λ acc column, sd ← acc; scale_column data sd column)
        (Ok stock_data) information_keys.

(** [[stock_data[key].values.tolist() for key in information_keys]]. *)
Fixpoint values_tolist (stock_data : gmap string colval) (keys : list string)
    : result (list (list num)) :=
  match keys with
  | [] => Ok []
  | key :: rest =>
      c ← py_dict_get stock_data key;
      match c with
      | ColList _ => Raise AttributeError
      | ColSeries s => cols ← values_tolist stock_data rest; Ok (svals s :: cols)
      end
  end.

(** Everything [getInfoToday] does once [cached_data] is in hand. *)
Definition getInfoToday_body (period : nat) (cached_data : DataFrame)
    (s : BaseModel) : result (list (list num)) :=
  let sd := unscaled_indicators (num_days s) period cached_data in
  earnings ← earnings_diff_column (stock_symbol s) (end_date s);
  let sd := <["earnings diff" := ColList earnings]> sd in
  sd ← scale_columns (data s) (information_keys s) sd;
  values_tolist sd (information_keys s).

Definition getInfoToday (period : nat) : M (list (list num)) :=
  λ s,
    match yf with
    | None => Raise NameError
    | Some history =>
        match cached s with
        | Some _ => Raise ValueError
        | None =>
            let cached_data := history (stock_symbol s) (end_date s - 260)%Z (end_date s) in
            getInfoToday_body period cached_data s
        end
    end.

(** ** predict *)

(** What numpy answers for the truth value of an array without elements
    (see [np_bool]). *)
Variable np_empty_truth : result bool.

(** [not info] for an [info] that is not [None]: a list is tested for
    emptiness, an array for its truth value, which it may not have. *)
Definition not_info (info : pyinfo) : result bool :=
  match info with
  | InfoList rows => Ok (bool_decide (rows = []))
  | InfoArray a => rbind (np_bool np_empty_truth a) (λ truth : bool, Ok (negb truth))
  end.

(** [if not info: info = self.getInfoToday()], then the model test. *)
Definition predict (info : option pyinfo) : M (list num) :=
  λ s,
    let today : result pyinfo :=
      rbind (getInfoToday 14 s) (λ rows : list (list num), Ok (InfoList rows)) in
    let info : result pyinfo :=
      match info with
      | None => today
      | Some given =>
          rbind (not_info given) (λ missing : bool, if missing then today else Ok given)
      end in
    rbind info (λ info : pyinfo,
      match model s with
      | Some net => Ok (net info)
      | None => Raise LookupError
      end).

End Collaborators.

End ModelsPy.

(* ================================================================== *)
(** * The specification's wording, for comparison with the code *)
(* ================================================================== *)

Module Spec.

(** TRAMA as the specification words it: the 14-period rolling mean of
    Close plus 0.1 times the absolute first difference aggregated over the
    same 14-period window.  The aggregation is a parameter: the rolling
    mean and the rolling sum are the two readings. *)
Definition trama_rolling_volatility
    (aggregate : nat → option nat → Series → Series)
    (num_days : nat) (df : DataFrame) : Series :=
  binop Num.add
        (iloc_tail num_days (rolling_mean 14 None (close_series df)))
        (series_mul_scalar
           (iloc_tail num_days (aggregate 14%nat None (smap Num.abs (diff (close_series df)))))
           (Finite (Q2Qc 0.1))).

(** Earnings-diff as the specification words it: for each date of the
    window, the surprise recorded for that date when it is an announcement
    date, and 0 otherwise. *)
Definition surprise_on (earnings_dates : list Z) (earnings_diff : list num)
    (date : Z) : num :=
  match py_index date earnings_dates with
  | Ok i => default (Finite 0) (earnings_diff !! i)
  | Raise _ => Finite 0
  end.

Definition earnings_diff_by_date (earnings_dates : list Z)
    (earnings_diff : list num) (window : list Z) : list num :=
  surprise_on earnings_dates earnings_diff <$> window.

(** Modelled from the spec: [info.json] is written by [get_info.py], which
    is not under src/.  Section 6 describes it as a mapping from a date
    to the unscaled indicator values plus the raw Close; this is the Close
    part of the snapshot of a frame. *)
Definition close_snapshot (df : DataFrame) : StockBot.snapshot :=
  StockBot.mkSnapshot (bar_date <$> df)
                      (<["Close" := Finite <$> col_close df]> ∅).

End Spec.

(* ================================================================== *)
(** * Inputs used by the examples *)
(* ================================================================== *)

Module Examples.

Definition frame_of (closes : list Z) : DataFrame :=
  imap (λ i c, mkBar (Z.of_nat i) (Qc_of_Z c) (Qc_of_Z 0)) closes.

(** The Close series of section 8 of the specification. *)
Definition six_days : DataFrame := frame_of [10; 11; 9; 12; 12; 13]%Z.

(** Thirteen flat days, then two rising ones. *)
Definition fifteen_days : DataFrame :=
  frame_of (replicate 13 0 ++ [1; 3])%Z.

(** Three days at one price. *)
Definition flat_days : DataFrame := frame_of [15; 15; 15]%Z.

(** Ten and sixteen days with rises and falls. *)
Definition ten_days : DataFrame :=
  frame_of [10; 11; 9; 12; 12; 13; 14; 13; 15; 16]%Z.

Definition sixteen_days : DataFrame :=
  frame_of [10; 11; 9; 12; 12; 13; 14; 13; 15; 16; 15; 17; 18; 17; 19; 20]%Z.

Definition no_flips (a b : Series) : list num := [].
Definition no_spikes (v : Series) (gradual : option bool) (z : option num) : Series := v.
Definition no_oscillator (c : Series) : Series := c.
Definition no_earnings (symbol : string) : list pydate * list num := ([], []).

(** One announcement, on day 99, with surprise 5. *)
Definition one_earning (symbol : string) : list pydate * list num :=
  ([DateStr 99], [Num.of_Z 5]).

Definition all_floats (c : colval) : bool := true.
Definition every_day (a b : Z) : list Z := (λ i, a + Z.of_nat i)%Z <$> seq 0 (Z.to_nat (b - a + 1)).
Definition no_history (symbol : string) (a b : Z) : DataFrame := [].

Definition close_scaler : gmap string StockBot.scaler_entry :=
  <["Close" := StockBot.mkScaler (Num.of_Z 10) (Num.of_Z 10)]> ∅.

Definition unit_scaler : gmap string StockBot.scaler_entry :=
  <["Close" := StockBot.mkScaler (Num.of_Z 0) (Num.of_Z 1)]> ∅.

(** A Close column of three prices, and training data for it whose
    minimum is 10 and whose maximum is 20. *)
Definition three_prices : gmap string colval :=
  <["Close" := ColSeries (of_list [Num.of_Z 15; Num.of_Z 10; Num.of_Z 20])]> ∅.

Definition close_training : gmap string (list Qc) :=
  <["Close" := [Qc_of_Z 10; Qc_of_Z 15; Qc_of_Z 20]]> ∅.

(** A model on ['Close'] alone whose frame holds [flat_days]. *)
Definition online_model : StockBot.BaseModel :=
  StockBot.mkBaseModel 0 2 "AAPL" ["Close"] 2 None close_scaler None
                       (StockBot.Frame flat_days).

(** The same model before any acquisition, and the snapshot of the same
    three days. *)
Definition fresh_model : StockBot.BaseModel :=
  StockBot.mkBaseModel 0 2 "AAPL" ["Close"] 2 None close_scaler None StockBot.NoInfo.

Definition flat_snapshot (symbol : string) : option StockBot.snapshot :=
  Some (Spec.close_snapshot flat_days).

(** A populated offline window over the first two of the three days. *)
Definition populated_model : StockBot.BaseModel :=
  StockBot.mkBaseModel 0 2 "AAPL" ["Close"] 2 None close_scaler
                       (Some (Arr2 1 [[Num.of_Z 15]; [Num.of_Z 15]]))
                       (StockBot.Offline (Spec.close_snapshot flat_days)).

Definition world_of (s : StockBot.BaseModel) : StockBot.world :=
  StockBot.mkWorld s [].

(** [BaseModel()] of [src/Models.py] as [__init__] leaves it. *)
Definition legacy_fresh : ModelsPy.BaseModel :=
  ModelsPy.mkBaseModel 0 100 "AAPL" ["Close"] 60 None None None.

End Examples.

(* ================================================================== *)
(** * Comparison of doubles *)
(* ================================================================== *)

Module Order.

(** [a < b] on doubles: false when either side is NaN. *)
Definition lt (a b : num) : bool :=
  match a, b with
  | NaN, _ | _, NaN => false
  | Finite x, Finite y => bool_decide (x < y)
  | _, NegInf => false
  | PosInf, _ => false
  | NegInf, (Finite _ | PosInf) => true
  | Finite _, PosInf => true
  end.

(** [a > b]. *)
Definition gt (a b : num) : bool := lt b a.

End Order.

(* ================================================================== *)
(** * models.py: the movement score printed by [test] *)
(* ================================================================== *)

Module Metrics.

(** [x and y] and [x or y] evaluate [y] only when [x] does not decide. *)
Definition py_and (a b : result bool) : result bool :=
  match a with
  | Ok true => b
  | Ok false => Ok false
  | Raise e => Raise e
  end.

Definition py_or (a b : result bool) : result bool :=
  match a with
  | Ok true => Ok true
  | Ok false => b
  | Raise e => Raise e
  end.

(** [a[i] > b[j]] and [a[i] < b[j]] on arrays. *)
Definition gt_at (a : list num) (i : nat) (b : list num) (j : nat) : result bool :=
  x ← py_getitem a i; y ← py_getitem b j; Ok (Order.gt x y).

Definition lt_at (a : list num) (i : nat) (b : list num) (j : nat) : result bool :=
  x ← py_getitem a i; y ← py_getitem b j; Ok (Order.lt x y).

(** The two tests of the loop body at index [i] (which is at least 1). *)
Definition same_direction (list1 list2 : list num) (i : nat) : result bool :=
  py_or (py_and (gt_at list1 i list1 (i - 1)) (gt_at list2 i list2 (i - 1)))
        (py_and (lt_at list1 i list1 (i - 1)) (lt_at list2 i list2 (i - 1))).

Definition same_space (list1 list2 : list num) (i : nat) : result bool :=
  py_or (py_and (gt_at list1 i list1 (i - 1)) (gt_at list2 i list1 (i - 1)))
        (py_and (lt_at list1 i list1 (i - 1)) (lt_at list2 i list1 (i - 1))).

(** [for i in range(1, total)]: the two counters. *)
Fixpoint count_moves (list1 list2 : list num) (indices : list nat)
    (count_same_direction count_same_space : nat) : result (nat * nat) :=
  match indices with
  | [] => Ok (count_same_direction, count_same_space)
  | i :: rest =>
      rbind (same_direction list1 list2 i) (λ d : bool,
      rbind (same_space list1 list2 i) (λ s : bool,
      count_moves list1 list2 rest
        (if d then S count_same_direction else count_same_direction)
        (if s then S count_same_space else count_same_space)))
  end.

(** [(count / (total - 1)) * 100] on Python integers. *)
Definition percentage_of (count : nat) (total : nat) : result Qc :=
  let divisor := (Z.of_nat total - 1)%Z in
  if decide (divisor = 0%Z) then Raise ZeroDivisionError
  else Ok (Qc_of_Z (Z.of_nat count) / Qc_of_Z divisor * Qc_of_Z 100).

Definition calculate_percentage_movement_together (list1 list2 : list num)
    : result (Qc * Qc) :=
  let total := length list1 in
  rbind (count_moves list1 list2 (seq 1 (total - 1)) 0 0) (λ counts : nat * nat,
  rbind (percentage_of counts.1 total) (λ percentage : Qc,
  rbind (percentage_of counts.2 total) (λ percentage2 : Qc,
  Ok (percentage, percentage2)))).

End Metrics.

(* ================================================================== *)
(** * models.py: CustomLoss and CustomLoss2 *)
(* ================================================================== *)

Module Losses.

(** A batch of targets or of predictions is the list of its values, one
    per sample; Keras hands [call] two tensors of one shape. *)

(** [tf.sign] and [abs]. *)
Definition sign (x : Qc) : Qc :=
  if decide (x < 0) then - 1 else if decide (0 < x) then 1 else 0.

Definition qabs (x : Qc) : Qc := if decide (x < 0) then - x else x.

(** [a[1:] - b[:-1]]. *)
Definition steps (a b : list Qc) : list Qc :=
  zip_with Qcminus (drop 1 a) (take (length b - 1) b).

(** [reduce_mean]: the mean of no value is NaN. *)
Definition reduce_mean (l : list Qc) : num :=
  match l with
  | [] => NaN
  | _ :: _ => Finite (qsum l / Num.of_nat (length l))
  end.

(** [reduce_mean(abs(sign(y_true[1:] - y_true[:-1]) - sign(y_pred[1:] - y_pred[:-1])))]. *)
Definition direction_penalty (y_true y_pred : list Qc) : num :=
  reduce_mean (qabs <$> zip_with Qcminus (sign <$> steps y_true y_true)
                                         (sign <$> steps y_pred y_pred)).

(** [reduce_mean(abs(sign(y_true[1:] - y_true[:-1]) - sign(y_pred[1:] - y_true[:-1])))]. *)
Definition space_penalty (y_true y_pred : list Qc) : num :=
  reduce_mean (qabs <$> zip_with Qcminus (sign <$> steps y_true y_true)
                                         (sign <$> steps y_pred y_true)).

(** The two [call] methods; [huber_loss] and [mse_loss] are the Keras
    objects the constructors store. *)
Definition CustomLoss_call (huber_loss mse_loss : list Qc → list Qc → num)
    (y_true y_pred : list Qc) : num :=
  let huber := huber_loss y_true y_pred in
  (direction_penalty y_true y_pred * Finite (Q2Qc 0.2) + huber)%num.

Definition CustomLoss2_call (huber_loss mse_loss : list Qc → list Qc → num)
    (y_true y_pred : list Qc) : num :=
  let huber := huber_loss y_true y_pred in
  let mse := mse_loss y_true y_pred in
  (direction_penalty y_true y_pred * Finite (Q2Qc 0.1)
   + huber * Finite (Q2Qc 0.5)
   + mse * Finite (Q2Qc 0.5)
   + space_penalty y_true y_pred * Finite (Q2Qc 0.1))%num.

End Losses.

(* ================================================================== *)
(** * models.py: the keys of the subclasses and of the indicator table *)
(* ================================================================== *)

Module Classes.

(** The classes of [models.py] that can be instantiated
    ([SuperTrendsModel.__init__] raises before it sets anything). *)
Inductive model_class : Type :=
| BaseModel | DayTradeModel | MACDModel | ImpulseMACDModel | ReversalModel
| EarningsModel | RSIModel | BreakoutModel.

(** [self.__class__.__name__]. *)
Definition class_name (c : model_class) : string :=
  match c with
  | BaseModel => "BaseModel"
  | DayTradeModel => "DayTradeModel"
  | MACDModel => "MACDModel"
  | ImpulseMACDModel => "ImpulseMACDModel"
  | ReversalModel => "ReversalModel"
  | EarningsModel => "EarningsModel"
  | RSIModel => "RSIModel"
  | BreakoutModel => "BreakoutModel"
  end.

(** The [information_keys] each constructor passes on ([BaseModel]: the
    default of the parameter). *)
Definition class_information_keys (c : model_class) : list string :=
  match c with
  | BaseModel => ["Close"]
  | DayTradeModel => ["Close"]
  | MACDModel => ["Close"; "MACD"; "Histogram"; "ema_flips"; "200-day EMA"]
  | ImpulseMACDModel =>
      ["Close"; "Histogram"; "Momentum"; "Change"; "ema_flips"; "signal_flips";
       "200-day EMA"]
  | ReversalModel =>
      ["Close"; "gradual-liquidity spike"; "3-liquidity spike"; "momentum_oscillator"]
  | EarningsModel => ["Close"; "earnings dates"; "earning diffs"; "Momentum"]
  | RSIModel => ["Close"; "RSI"; "TRAMA"]
  | BreakoutModel =>
      ["Close"; "RSI"; "TRAMA"; "Bollinger Middle"; "Above Bollinger";
       "Bellow Bollinger"; "Momentum"]
  end.

(** The keys [indicators_past_num_days] can assign in [stock_data]. *)
Definition assigned_keys : list string :=
  ["Close"; "12-day EMA"; "26-day EMA"; "MACD"; "Signal Line"; "Histogram";
   "200-day EMA"; "Change"; "Momentum"; "RSI"; "TRAMA";
   "gradual-liquidity spike"; "3-liquidity spike"; "momentum_oscillator";
   "ema_flips"; "signal_flips"; "earnings dates"; "earning diffs"].

End Classes.

(* ================================================================== *)
(** * models.py: save and load *)
(* ================================================================== *)

Module Storage.

(** A value of [data.json]: a column of numbers or the list of dates. *)
Inductive jval : Type :=
| JNums (l : list num)
| JDates (l : list Z).

Definition network : Type := ndarray → ndarray.

(** The files under [Stocks/], by path: saved networks, the data files
    (a dictionary or the JSON [null] that [json.dump(None)] writes) and
    the scaler files. *)
Record files : Type := mkFiles {
  saved_models : gmap string network;
  data_files : gmap string (option (gmap string jval));
  scaler_files : gmap string (gmap string StockBot.scaler_entry)
}.

(** An instance with the attributes [save] and [load] use on top of the
    ones of [StockBot.BaseModel]: its class and [self.data]. *)
Record instance : Type := mkInstance {
  attributes : StockBot.BaseModel;
  class_of : Classes.model_class;
  data : option (gmap string jval)
}.

Record world : Type := mkWorld { self : instance; disk : files }.

Definition M (A : Type) : Type := world → result A * world.

Definition ret {A} (a : A) : M A := λ w, (Ok a, w).

Definition bind {A B} (m : M A) (k : A → M B) : M B :=
  λ w, match m w with
       | (Ok a, w') => k a w'
       | (Raise e, w') => (Raise e, w')
       end.

Definition raise {A} (e : exn) : M A := λ w, (Raise e, w).

Definition get_self : M instance := λ w, (Ok (self w), w).
Definition get_disk : M files := λ w, (Ok (disk w), w).

Definition modify_self (f : instance → instance) : M unit :=
  λ w, (Ok tt, mkWorld (f (self w)) (disk w)).

Definition modify_disk (f : files → files) : M unit :=
  λ w, (Ok tt, mkWorld (self w) (f (disk w))).

Notation "x <- m ;; k" := (bind m (λ x, k))
  (at level 100, m at next level, right associativity).

Definition set_model (m : option network) (s : instance) : instance :=
  let b := attributes s in
  mkInstance
    (StockBot.mkBaseModel (StockBot.start_date b) (StockBot.end_date b)
       (StockBot.stock_symbol b) (StockBot.information_keys b) (StockBot.num_days b)
       m (StockBot.scaler_data b) (StockBot.cached b) (StockBot.cached_info b))
    (class_of s) (data s).

Definition set_data (d : option (gmap string jval)) (s : instance) : instance :=
  mkInstance (attributes s) (class_of s) d.

Definition set_scaler_data (sc : gmap string StockBot.scaler_entry) (s : instance)
    : instance :=
  mkInstance (StockBot.set_scaler_data sc (attributes s)) (class_of s) (data s).

Definition write_model (path : string) (net : network) (fs : files) : files :=
  mkFiles (<[path := net]> (saved_models fs)) (data_files fs) (scaler_files fs).

Definition write_data (path : string) (d : option (gmap string jval)) (fs : files)
    : files :=
  mkFiles (saved_models fs) (<[path := d]> (data_files fs)) (scaler_files fs).

Definition write_scaler (path : string) (sc : gmap string StockBot.scaler_entry)
    (fs : files) : files :=
  mkFiles (saved_models fs) (data_files fs) (<[path := sc]> (scaler_files fs)).

(** The four paths. *)
Definition model_path (symbol name : string) : string :=
  "Stocks/" +:+ symbol +:+ "/" +:+ name +:+ "_model".

Definition data_path (symbol : string) : string :=
  "Stocks/" +:+ symbol +:+ "/data.json".

Definition scaler_path (symbol : string) : string :=
  "Stocks/" +:+ symbol +:+ "/min_max_data.json".

Definition class_data_path (symbol name : string) : string :=
  "Stocks/" +:+ symbol +:+ "/" +:+ name +:+ "_data.json".

(** [{key: value for key, value in temp.items() if key not in d}] and
    [a.update(b)]. *)
Definition items_not_in {A B} (temp : gmap string A) (d : gmap string B)
    : gmap string A :=
  filter (λ kv, d !! kv.1 = None) temp.

Definition dict_update {A} (a b : gmap string A) : gmap string A := b ∪ a.

(** The block under [if os.path.exists('.../data.json')]: [self.data] and
    the loaded value must both be dictionaries. *)
Definition merge_data (temp : option (gmap string jval)) : M unit :=
  s <- get_self ;;
  match data s, temp with
  | Some d, Some t => modify_self (set_data (Some (dict_update d (items_not_in t d))))
  | _, _ => raise AttributeError
  end.

(** The block under [if os.path.exists('.../min_max_data.json')]: the
    filter is on the keys of [self.data]; with [self.data] still [None]
    the test [key not in self.data] raises as soon as there is a key. *)
Definition merge_scaler (temp : gmap string StockBot.scaler_entry) : M unit :=
  s <- get_self ;;
  match data s with
  | Some d =>
      modify_self (set_scaler_data
        (dict_update (StockBot.scaler_data (attributes s)) (items_not_in temp d)))
  | None =>
      if decide (size temp = 0%nat) then ret tt else raise TypeError
  end.

Definition save : M unit :=
  s <- get_self ;;
  match StockBot.model (attributes s) with
  | None => raise LookupError
  | Some net =>
      let symbol := StockBot.stock_symbol (attributes s) in
      let name := Classes.class_name (class_of s) in
      _ <- modify_disk (write_model (model_path symbol name) net) ;;
      fs <- get_disk ;;
      _ <- (match data_files fs !! data_path symbol with
            | Some temp => merge_data temp
            | None => ret tt
            end) ;;
      s <- get_self ;;
      _ <- modify_disk (write_data (data_path symbol) (data s)) ;;
      fs <- get_disk ;;
      _ <- (match scaler_files fs !! scaler_path symbol with
            | Some temp => merge_scaler temp
            | None => ret tt
            end) ;;
      s <- get_self ;;
      modify_disk (write_scaler (scaler_path symbol) (StockBot.scaler_data (attributes s)))
  end.

(** [load]; [missing_model] is the exception [load_model] raises for a
    path that holds no saved network (its class depends on the version
    of Keras). *)
Definition load (missing_model : exn) : M (option network) :=
  s <- get_self ;;
  match StockBot.model (attributes s) with
  | Some _ => ret None
  | None =>
      let symbol := StockBot.stock_symbol (attributes s) in
      let name := Classes.class_name (class_of s) in
      fs <- get_disk ;;
      match saved_models fs !! model_path symbol name with
      | None => raise missing_model
      | Some net =>
          _ <- modify_self (set_model (Some net)) ;;
          match data_files fs !! class_data_path symbol name with
          | None => raise FileNotFoundError
          | Some d =>
              _ <- modify_self (set_data d) ;;
              match scaler_files fs !! scaler_path symbol with
              | None => raise FileNotFoundError
              | Some sc =>
                  _ <- modify_self (set_scaler_data sc) ;;
                  ret (Some net)
              end
          end
      end
  end.

End Storage.

(* ================================================================== *)
(** * Models.py: save and load *)
(* ================================================================== *)

Module LegacyStorage.

Definition network : Type := ModelsPy.pyinfo → list num.

(** The files of the working directory, by path. *)
Record files : Type := mkFiles {
  saved_models : gmap string network;
  data_files : gmap string (option (gmap string (list Qc)))
}.

Record world : Type := mkWorld { self : ModelsPy.BaseModel; disk : files }.

Definition M (A : Type) : Type := world → result A * world.

Definition set_model (m : option network) (s : ModelsPy.BaseModel)
    : ModelsPy.BaseModel :=
  ModelsPy.mkBaseModel (ModelsPy.start_date s) (ModelsPy.end_date s)
    (ModelsPy.stock_symbol s) (ModelsPy.information_keys s) (ModelsPy.num_days s)
    (ModelsPy.cached s) m (ModelsPy.data s).

Definition set_data (d : option (gmap string (list Qc))) (s : ModelsPy.BaseModel)
    : ModelsPy.BaseModel :=
  ModelsPy.mkBaseModel (ModelsPy.start_date s) (ModelsPy.end_date s)
    (ModelsPy.stock_symbol s) (ModelsPy.information_keys s) (ModelsPy.num_days s)
    (ModelsPy.cached s) (ModelsPy.model s) d.

Definition model_path (symbol : string) : string := symbol +:+ "/model".
Definition data_path (symbol : string) : string := symbol +:+ "/data.json".

(** [save]: [self.model.save] on [None] is an [AttributeError]. *)
Definition save : M unit :=
  λ w,
    let s := self w in
    match ModelsPy.model s with
    | None => (Raise AttributeError, w)
    | Some net =>
        let symbol := ModelsPy.stock_symbol s in
        let fs := disk w in
        (Ok tt,
         mkWorld s
           (mkFiles (<[model_path symbol := net]> (saved_models fs))
                    (<[data_path symbol := ModelsPy.data s]> (data_files fs))))
    end.

(** [load]; [missing_model] as in [Storage.load]. *)
Definition load (missing_model : exn) : M (option network) :=
  λ w,
    let s := self w in
    match ModelsPy.model s with
    | Some _ => (Ok None, w)
    | None =>
        let symbol := ModelsPy.stock_symbol s in
        match saved_models (disk w) !! model_path symbol with
        | None => (Raise missing_model, w)
        | Some net =>
            let s1 := set_model (Some net) s in
            match data_files (disk w) !! data_path symbol with
            | None => (Raise FileNotFoundError, mkWorld s1 (disk w))
            | Some d => (Ok (Some net), mkWorld (set_data d s1) (disk w))
            end
        end
    end.

End LegacyStorage.

(* ================================================================== *)
(** * Models.py: the training columns that train keeps *)
(* ================================================================== *)

Module LegacyTraining.

(** [temp = {}] then [for key, val in zip(information_keys, data):
    temp[key] = list(val)], where [data] is the array that
    [get_relavant_values] returns: its first axis is the days (it is cut
    in time with [data[:train_size]]), its second the features
    ([data.shape[1]] is the feature count of the network's input). *)
Definition training_data (information_keys : list string) (data : list (list Qc))
    : gmap string (list Qc) :=
  foldl (λ temp kv, <[kv.1 := kv.2]> temp) ∅ (zip information_keys data).

End LegacyTraining.

(* ================================================================== *)
(** * More inputs for the examples *)
(* ================================================================== *)

Module Scenarios.

(** No [info.json] on the disk. *)
Definition no_file (symbol : string) : option StockBot.snapshot := None.

(** [Examples.fresh_model] with an end date the snapshot does not list. *)
Definition late_model : StockBot.BaseModel :=
  StockBot.mkBaseModel 0 7 "AAPL" ["Close"] 2 None Examples.close_scaler None
                       StockBot.NoInfo.

(** A model without information keys, and one with an excluded key. *)
Definition keyless_model : StockBot.BaseModel :=
  StockBot.mkBaseModel 0 2 "AAPL" [] 2 None ∅ None StockBot.NoInfo.

Definition dated_model : StockBot.BaseModel :=
  StockBot.mkBaseModel 0 2 "AAPL" ["Close"; "earnings dates"] 2 None ∅ None
                       StockBot.NoInfo.

(** The model of [Examples.online_model] one day later, and a data source
    that returns one row for the requested end date. *)
Definition next_day_model : StockBot.BaseModel :=
  StockBot.mkBaseModel 0 3 "AAPL" ["Close"] 2 None Examples.close_scaler None
                       (StockBot.Frame Examples.flat_days).

Definition one_day (symbol : string) (a b : Z) : DataFrame :=
  [mkBar b (Qc_of_Z 16) (Qc_of_Z 0)].

(** A scaler entry with a zero range, and a dictionary with one Close. *)
Definition zero_range_scaler : gmap string StockBot.scaler_entry :=
  <["Close" := StockBot.mkScaler (Num.of_Z 10) (Finite 0)]> ∅.

Definition one_close : gmap string colval :=
  <["Close" := ColSeries (of_list [Num.of_Z 15])]> ∅.

(** [EarningsModel()] of [src/Models.py], and an instance on Close and
    Change with training data, fed a history of 61 days at one price. *)
Definition legacy_earnings_model : ModelsPy.BaseModel :=
  ModelsPy.mkBaseModel 0 100 "AAPL"
    ["Close"; "earnings dates"; "earnings diff"; "Momentum"] 60 None None None.

Definition legacy_trained : ModelsPy.BaseModel :=
  ModelsPy.mkBaseModel 0 100 "AAPL" ["Close"; "Change"] 60 None None
    (Some (<["Close" := [Qc_of_Z 0; Qc_of_Z 60]]>
             (<["Change" := [Qc_of_Z (-1); Qc_of_Z 1]]> ∅))).

Definition long_history (symbol : string) (a b : Z) : DataFrame :=
  Examples.frame_of (replicate 61 15%Z).

(** A trained [DayTradeModel], a disk with older files for its symbol,
    and an instance of the same class before [load]. *)
Definition identity_network : Storage.network := λ x, x.

Definition trained : Storage.instance :=
  Storage.mkInstance
    (StockBot.mkBaseModel 0 2 "AAPL" ["Close"] 2 (Some identity_network)
       (<["MACD" := StockBot.mkScaler (Num.of_Z 0) (Num.of_Z 2)]> Examples.close_scaler)
       None StockBot.NoInfo)
    Classes.DayTradeModel
    (Some (<["Close" := Storage.JNums [Num.of_Z 15]]> ∅)).

Definition older_files : Storage.files :=
  Storage.mkFiles ∅
    (<[Storage.data_path "AAPL" :=
         Some (<["Dates" := Storage.JDates [0; 1]%Z]>
                 (<["Close" := Storage.JNums [Num.of_Z 14]]> ∅))]> ∅)
    (<[Storage.scaler_path "AAPL" :=
         <["MACD" := StockBot.mkScaler (Num.of_Z 0) (Num.of_Z 1)]>
           (<["Close" := StockBot.mkScaler (Num.of_Z 0) (Num.of_Z 1)]> ∅)]> ∅).

Definition untrained : Storage.instance :=
  Storage.mkInstance Examples.fresh_model Classes.DayTradeModel None.

(** The same for [src/Models.py]. *)
Definition legacy_network : LegacyStorage.network := λ info, [].

Definition legacy_saved : ModelsPy.BaseModel :=
  ModelsPy.mkBaseModel 0 100 "AAPL" ["Close"] 60 None (Some legacy_network)
    (Some (<["Close" := [Qc_of_Z 10; Qc_of_Z 20]]> ∅)).

Definition no_files : LegacyStorage.files := LegacyStorage.mkFiles ∅ ∅.

(** [BaseModel()] of [src/Models.py] after [train] on two days of one
    feature, and a data source that returns [Examples.flat_days]. *)
Definition legacy_close_trained : ModelsPy.BaseModel :=
  ModelsPy.mkBaseModel 0 100 "AAPL" ["Close"] 60 None None
    (Some (LegacyTraining.training_data ["Close"] [[Qc_of_Z 15]; [Qc_of_Z 16]])).

Definition short_history (symbol : string) (a b : Z) : DataFrame := Examples.flat_days.

(** Close and the 12-day EMA as information keys with a scaler entry for
    each, and the same for [src/Models.py]: an instance on the 12-day EMA
    with training data, fed the six days of [Examples.six_days]. *)
Definition ema_keys : list string := ["Close"; "12-day EMA"].

Definition ema_scaler : gmap string StockBot.scaler_entry :=
  <["12-day EMA" := StockBot.mkScaler (Num.of_Z 10) (Num.of_Z 10)]> Examples.close_scaler.

Definition legacy_ema_model : ModelsPy.BaseModel :=
  ModelsPy.mkBaseModel 0 100 "AAPL" ["12-day EMA"] 60 None None
    (Some (<["12-day EMA" := [Qc_of_Z 10; Qc_of_Z 20]]> ∅)).

Definition six_day_history (symbol : string) (a b : Z) : DataFrame := Examples.six_days.

End Scenarios.

(* ================================================================== *)
(** * Facts about the Python and pandas models *)
(* ================================================================== *)

(** Closed goals over decidable propositions are settled by evaluation. *)
Ltac by_evaluation := apply (bool_decide_unpack _); vm_compute; exact I.

Section PythonFacts.

Context {A : Type} `{EqDecision A}.

Lemma py_in_true (x : A) (l : list A) : x ∈ l → py_in x l = true.
Proof. intros Hx. unfold py_in. by apply bool_decide_eq_true. Qed.

Lemma py_in_false (x : A) (l : list A) : x ∉ l → py_in x l = false.
Proof. intros Hx. unfold py_in. by apply bool_decide_eq_false. Qed.

Lemma index_from_absent (x : A) (l : list A) (i : nat) :
  x ∉ l → index_from x l i = Raise ValueError.
Proof.
  revert i. induction l as [|y l IH]; intros i Hx; simpl; [done|].
  apply not_elem_of_cons in Hx as [Hne Hx]. rewrite decide_False by done. by apply IH.
Qed.

Lemma py_index_absent (x : A) (l : list A) :
  x ∉ l → py_index x l = Raise ValueError.
Proof. apply index_from_absent. Qed.

Lemma index_from_raises (x : A) (l : list A) (i : nat) (e : exn) :
  index_from x l i = Raise e → e = ValueError.
Proof.
  revert i. induction l as [|y l IH]; intros i; simpl; [by intros [= <-]|].
  case_decide; [done | apply IH].
Qed.

Lemma py_getitem_raises (l : list A) (i : nat) (e : exn) :
  py_getitem l i = Raise e → e = IndexError.
Proof. unfold py_getitem. destruct (l !! i); [done | by intros [= <-]]. Qed.

End PythonFacts.

Section EwmFacts.

Lemma length_ewm_from (a prev : Qc) (xs : list Qc) :
  length (ewm_from a prev xs) = length xs.
Proof.
  revert prev. induction xs as [|x xs IH]; intros prev; simpl; [done|]. by rewrite IH.
Qed.

Lemma length_ewm_mean (span : Z) (xs : list Qc) :
  length (ewm_mean span xs) = length xs.
Proof. destruct xs; simpl; [done|]. by rewrite length_ewm_from. Qed.

(** Each value of the filter blends the price of its day with the value
    of the day before. *)
Lemma ewm_from_step (a : Qc) (xs : list Qc) :
  ∀ (prev : Qc) (t : nat) (x : Qc),
    xs !! S t = Some x →
    ∃ y, ewm_from a prev xs !! t = Some y
         ∧ ewm_from a prev xs !! S t = Some (a * x + (1 - a) * y).
Proof.
  induction xs as [|x0 xs IH]; intros prev t x Hx; [done|].
  destruct t as [|t].
  - destruct xs as [|x1 xs]; [done|]. simpl in Hx. injection Hx as <-.
    eexists. split; reflexivity.
  - simpl in Hx. destruct (IH (a * x0 + (1 - a) * prev) t x Hx) as (y & Hy & Hs).
    exists y. split; assumption.
Qed.

Lemma ewm_mean_step (span : Z) (xs : list Qc) (t : nat) (x : Qc) :
  xs !! S t = Some x →
  ∃ y, ewm_mean span xs !! t = Some y
       ∧ ewm_mean span xs !! S t = Some (alpha span * x + (1 - alpha span) * y).
Proof.
  destruct xs as [|x0 xs]; [done|]. intros Hx. simpl in Hx.
  destruct t as [|t].
  - exists x0. split; [done|]. simpl.
    destruct xs as [|x1 xs]; [done|]. simpl in Hx. by injection Hx as <-.
  - destruct (ewm_from_step (alpha span) xs x0 t x Hx) as (y & Hy & Hs).
    exists y. split; assumption.
Qed.

End EwmFacts.

Section ScalingFacts.

Lemma scale_series_values (low diff : num) (s : Series) :
  svals (scale_series low diff s) = scale_value low diff <$> svals s.
Proof.
  unfold scale_series, series_div_scalar, series_sub_scalar, smap. simpl.
  rewrite <- list_fmap_compose. done.
Qed.

Lemma qmin_le_l (a b : Qc) : qmin a b ≤ a.
Proof. unfold qmin. case_decide; [by apply Qclt_le_weak | apply Qcle_refl]. Qed.

Lemma qmin_le_r (a b : Qc) : qmin a b ≤ b.
Proof. unfold qmin. case_decide; [apply Qcle_refl | by apply Qcnot_lt_le]. Qed.

Lemma qmax_ge_l (a b : Qc) : a ≤ qmax a b.
Proof. unfold qmax. case_decide; [by apply Qclt_le_weak | apply Qcle_refl]. Qed.

Lemma qmax_ge_r (a b : Qc) : b ≤ qmax a b.
Proof. unfold qmax. case_decide; [apply Qcle_refl | by apply Qcnot_lt_le]. Qed.

Lemma foldl_qmin_spec (l : list Qc) :
  ∀ a, foldl qmin a l ∈ a :: l ∧ ∀ x, x ∈ a :: l → foldl qmin a l ≤ x.
Proof.
  induction l as [|b l IH]; intros a; simpl.
  - split; [apply list_elem_of_here|].
    intros x Hx. apply list_elem_of_singleton in Hx as ->. apply Qcle_refl.
  - destruct (IH (qmin a b)) as [Hin Hle]. split.
    + apply elem_of_cons in Hin as [Hin|Hin].
      * rewrite Hin. unfold qmin.
        case_decide; [apply list_elem_of_further|]; apply list_elem_of_here.
      * by do 2 apply list_elem_of_further.
    + intros x Hx.
      assert (Hm : foldl qmin (qmin a b) l ≤ qmin a b) by (apply Hle, list_elem_of_here).
      apply elem_of_cons in Hx as [->|Hx].
      * eapply Qcle_trans; [exact Hm | apply qmin_le_l].
      * apply elem_of_cons in Hx as [->|Hx].
        -- eapply Qcle_trans; [exact Hm | apply qmin_le_r].
        -- by apply Hle, list_elem_of_further.
Qed.

Lemma foldl_qmax_spec (l : list Qc) :
  ∀ a, foldl qmax a l ∈ a :: l ∧ ∀ x, x ∈ a :: l → x ≤ foldl qmax a l.
Proof.
  induction l as [|b l IH]; intros a; simpl.
  - split; [apply list_elem_of_here|].
    intros x Hx. apply list_elem_of_singleton in Hx as ->. apply Qcle_refl.
  - destruct (IH (qmax a b)) as [Hin Hle]. split.
    + apply elem_of_cons in Hin as [Hin|Hin].
      * rewrite Hin. unfold qmax.
        case_decide; [apply list_elem_of_further|]; apply list_elem_of_here.
      * by do 2 apply list_elem_of_further.
    + intros x Hx.
      assert (Hm : qmax a b ≤ foldl qmax (qmax a b) l) by (apply Hle, list_elem_of_here).
      apply elem_of_cons in Hx as [->|Hx].
      * eapply Qcle_trans; [apply qmax_ge_l | exact Hm].
      * apply elem_of_cons in Hx as [->|Hx].
        -- eapply Qcle_trans; [apply qmax_ge_r | exact Hm].
        -- by apply Hle, list_elem_of_further.
Qed.

Lemma py_min_spec (l : list Qc) (lo : Qc) :
  py_min l = Ok lo → lo ∈ l ∧ ∀ x, x ∈ l → lo ≤ x.
Proof.
  destruct l as [|a l]; [done|]. simpl. intros [= <-]. apply foldl_qmin_spec.
Qed.

Lemma py_max_spec (l : list Qc) (hi : Qc) :
  py_max l = Ok hi → hi ∈ l ∧ ∀ x, x ∈ l → x ≤ hi.
Proof.
  destruct l as [|a l]; [done|]. simpl. intros [= <-]. apply foldl_qmax_spec.
Qed.

Lemma scale_value_finite (low diff v : Qc) :
  diff ≠ 0 →
  scale_value (Finite low) (Finite diff) (Finite v) = Finite ((v - low) / diff).
Proof. intros Hd. unfold scale_value. simpl. by rewrite decide_False. Qed.

(** The scaling loop of [indicators_past_num_days] on a Series column:
    every value goes through [scale_value] with the stored pair. *)
Lemma scale_column_series (excluded_values : list string)
    (scaler_data : gmap string StockBot.scaler_entry)
    (stock_data : gmap string colval) (column : string)
    (e : StockBot.scaler_entry) (s : Series) :
  column ∉ excluded_values →
  scaler_data !! column = Some e →
  stock_data !! column = Some (ColSeries s) →
  StockBot.scale_column excluded_values scaler_data stock_data column
  = Ok (<[column := ColSeries (mkSeries (sstart s)
            (scale_value (StockBot.s_min e) (StockBot.s_diff e) <$> svals s))]> stock_data).
Proof.
  intros Hex He Hs. unfold StockBot.scale_column, has_key.
  rewrite bool_decide_eq_false_2 by done.
  unfold py_dict_get. rewrite He, Hs. simpl.
  do 3 f_equal. unfold scale_series, series_div_scalar, series_sub_scalar, smap. simpl.
  f_equal. by rewrite <- list_fmap_compose.
Qed.

(** The scaling loop of [getInfoToday]: the pair is the minimum of the
    training column and its maximum minus its minimum. *)
Lemma legacy_scale_column_series (data : gmap string (list Qc))
    (stock_data : gmap string colval) (column : string)
    (training : list Qc) (lo hi : Qc) (s : Series) :
  column ∉ ModelsPy.excluded_values →
  data !! column = Some training →
  py_min training = Ok lo →
  py_max training = Ok hi →
  stock_data !! column = Some (ColSeries s) →
  ModelsPy.scale_column (Some data) stock_data column
  = Ok (<[column := ColSeries (mkSeries (sstart s)
            (scale_value (Finite lo) (Finite (hi - lo)) <$> svals s))]> stock_data).
Proof.
  intros Hex Hd Hlo Hhi Hs. unfold ModelsPy.scale_column, has_key.
  rewrite bool_decide_eq_false_2 by done.
  unfold py_dict_get. rewrite Hd. simpl. rewrite Hlo. simpl. rewrite Hhi. simpl.
  rewrite Hs. do 3 f_equal.
  unfold scale_series, series_div_scalar, series_sub_scalar, smap. simpl.
  f_equal. by rewrite <- list_fmap_compose.
Qed.

End ScalingFacts.

Section ScalingLoop.

Context (excluded_values : list string)
        (scaler_data : gmap string StockBot.scaler_entry).

Local Abbreviation scale_column := (StockBot.scale_column excluded_values scaler_data).
Local Abbreviation scale_columns := (StockBot.scale_columns excluded_values scaler_data).

Lemma scale_columns_raise (keys : list string) (e : exn) :
  foldl (λ acc column, sd ← acc; scale_column sd column) (Raise e) keys = Raise e.
Proof. induction keys as [|k keys IH]; simpl; [done | exact IH]. Qed.

Lemma scale_columns_cons (k : string) (keys : list string) (sd : gmap string colval) :
  scale_columns (k :: keys) sd
  = match scale_column sd k with
    | Ok sd1 => scale_columns keys sd1
    | Raise e => Raise e
    end.
Proof.
  unfold StockBot.scale_columns. simpl.
  destruct (scale_column sd k) as [sd1|e]; simpl; [done|]. apply scale_columns_raise.
Qed.

(** One pass of the loop touches its own column only. *)
Lemma scale_column_other (sd sd1 : gmap string colval) (k k' : string) :
  scale_column sd k = Ok sd1 → k ≠ k' → sd1 !! k' = sd !! k'.
Proof.
  unfold StockBot.scale_column. intros Hk Hne.
  destruct (has_key k excluded_values); [by injection Hk as <-|].
  destruct (py_dict_get scaler_data k) as [e|]; [|done]. simpl in Hk.
  destruct (py_dict_get sd k) as [[s|l]|]; simpl in Hk; [|done..].
  injection Hk as <-. by rewrite lookup_insert_ne.
Qed.

Lemma scale_column_self (sd sd1 : gmap string colval) (k : string) :
  scale_column sd k = Ok sd1 → k ∉ excluded_values →
  ∃ e s, scaler_data !! k = Some e
         ∧ sd !! k = Some (ColSeries s)
         ∧ sd1 !! k = Some (ColSeries (scale_series (StockBot.s_min e) (StockBot.s_diff e) s)).
Proof.
  unfold StockBot.scale_column, has_key, py_dict_get. intros Hk Hex.
  rewrite bool_decide_eq_false_2 in Hk by done.
  destruct (scaler_data !! k) as [e|]; [|done]. simpl in Hk.
  destruct (sd !! k) as [[s|l]|]; simpl in Hk; [|done..].
  injection Hk as <-. exists e, s. by rewrite lookup_insert_eq.
Qed.

Lemma scale_column_excluded (sd : gmap string colval) (k : string) :
  k ∈ excluded_values → scale_column sd k = Ok sd.
Proof.
  intros Hex. unfold StockBot.scale_column, has_key. by rewrite bool_decide_eq_true_2.
Qed.

(** The scaling loop over distinct keys: a requested column that is not
    excluded ends as the scaled image of what it was, every other entry
    of the dictionary is unchanged. *)
Lemma scale_columns_lookup (keys : list string) :
  ∀ sd0 sd, NoDup keys → scale_columns keys sd0 = Ok sd →
    ∀ k,
      (k ∈ keys → k ∉ excluded_values →
       ∃ e s, scaler_data !! k = Some e
              ∧ sd0 !! k = Some (ColSeries s)
              ∧ sd !! k = Some (ColSeries (scale_series (StockBot.s_min e)
                                                        (StockBot.s_diff e) s)))
      ∧ (k ∉ keys ∨ k ∈ excluded_values → sd !! k = sd0 !! k).
Proof.
  induction keys as [|k0 keys IH]; intros sd0 sd Hnd Hrun k.
  - injection Hrun as <-. split; [by intros Hk%elem_of_nil | done].
  - rewrite scale_columns_cons in Hrun.
    destruct (scale_column sd0 k0) as [sd1|e] eqn:H0; [|done].
    apply list.NoDup_cons in Hnd as [Hk0 Hnd].
    destruct (IH sd1 sd Hnd Hrun k) as [IHin IHout].
    split.
    + intros Hk Hex. apply elem_of_cons in Hk as [->|Hk].
      * destruct (scale_column_self _ _ _ H0 Hex) as (e & s & He & Hs & Hs1).
        exists e, s. split; [done|]. split; [done|].
        rewrite <- Hs1. apply (proj2 (IH sd1 sd Hnd Hrun k0)). by left.
      * destruct (IHin Hk Hex) as (e & s & He & Hs & Hsd).
        exists e, s. split; [done|]. split; [|done].
        rewrite <- Hs. symmetry. eapply scale_column_other; [exact H0|].
        intros ->. done.
    + intros [Hk|Hex].
      * apply not_elem_of_cons in Hk as [Hne Hk].
        rewrite (IHout (or_introl Hk)). by eapply scale_column_other.
      * rewrite (IHout (or_intror Hex)).
        destruct (decide (k0 = k)) as [->|Hne]; [|by eapply scale_column_other].
        rewrite scale_column_excluded in H0 by done. by injection H0 as <-.
Qed.

End ScalingLoop.

Section Outputs.

Context (excluded_values : list string)
        (process_flips : Series → Series → list num)
        (get_liquidity_spikes : Series → option bool → option num → Series)
        (calculate_momentum_oscillator : Series → Series)
        (get_earnings_history : string → list pydate * list num).

Local Abbreviation indicators_past_num_days :=
  (StockBot.indicators_past_num_days excluded_values process_flips get_liquidity_spikes
     calculate_momentum_oscillator get_earnings_history).
Local Abbreviation unscaled_indicators :=
  (StockBot.unscaled_indicators process_flips get_liquidity_spikes
     calculate_momentum_oscillator).

Lemma lookup_put_if_eq (keys : list string) (k : string) (v : colval)
    (sd : gmap string colval) :
  k ∈ keys → StockBot.put_if keys k v sd !! k = Some v.
Proof.
  intros Hk. unfold StockBot.put_if, has_key.
  rewrite bool_decide_eq_true_2 by done. apply lookup_insert_eq.
Qed.

Lemma lookup_put_if_ne (keys : list string) (k k' : string) (v : colval)
    (sd : gmap string colval) :
  k ≠ k' → StockBot.put_if keys k v sd !! k' = sd !! k'.
Proof.
  intros Hne. unfold StockBot.put_if. destruct (has_key k keys); [|done].
  by apply lookup_insert_ne.
Qed.

(** The entries of the dictionary before scaling, for the EMA, MACD, RSI
    and TRAMA keys. *)
Lemma unscaled_indicators_columns (keys : list string) (df : DataFrame) (num_days : nat) :
  let sd := unscaled_indicators keys df num_days in
  ("12-day EMA" ∈ keys →
     sd !! "12-day EMA" = Some (ColSeries (iloc_tail num_days (ewm_series 12 df))))
  ∧ ("26-day EMA" ∈ keys →
     sd !! "26-day EMA" = Some (ColSeries (iloc_tail num_days (ewm_series 26 df))))
  ∧ ("200-day EMA" ∈ keys →
     sd !! "200-day EMA" = Some (ColSeries (iloc_tail num_days (ewm_series 200 df))))
  ∧ ("MACD" ∈ keys →
     sd !! "MACD" = Some (ColSeries (iloc_tail num_days (StockBot.macd_series df))))
  ∧ ("Signal Line" ∈ keys →
     sd !! "Signal Line" = Some (ColSeries (StockBot.signal_line_series num_days df)))
  ∧ ("Histogram" ∈ keys →
     sd !! "Histogram" = Some (ColSeries (StockBot.histogram_series num_days df)))
  ∧ ("RSI" ∈ keys →
     sd !! "RSI" = Some (ColSeries (StockBot.rsi_series num_days df)))
  ∧ ("TRAMA" ∈ keys →
     sd !! "TRAMA" = Some (ColSeries (StockBot.trama_series num_days df))).
Proof.
  intros sd. subst sd. unfold StockBot.unscaled_indicators.
  repeat split; intros Hk;
    repeat (rewrite lookup_put_if_ne by done); by rewrite lookup_put_if_eq.
Qed.

(** What [indicators_past_num_days] returns under a requested key that
    is neither excluded nor an earnings key: the series computed for
    that key, scaled with the stored pair of the key. *)
Lemma indicators_past_num_days_column (symbol : string) (end_date : Z)
    (keys : list string) (scaler_data : gmap string StockBot.scaler_entry)
    (df : DataFrame) (num_days : nat) (sd : gmap string colval) (k : string) :
  NoDup keys →
  indicators_past_num_days symbol end_date keys scaler_data df num_days = Ok sd →
  k ∈ keys → k ∉ excluded_values → k ≠ "earning diffs" → k ≠ "earnings dates" →
  ∃ e s, scaler_data !! k = Some e
         ∧ unscaled_indicators keys df num_days !! k = Some (ColSeries s)
         ∧ sd !! k = Some (ColSeries (scale_series (StockBot.s_min e)
                                                   (StockBot.s_diff e) s)).
Proof.
  intros Hnd Hrun Hk Hex Hne1 Hne2. unfold StockBot.indicators_past_num_days in Hrun.
  destruct (has_key "earning diffs" keys).
  - destruct (StockBot.earning_diffs _ _ _ _ _) as [l|e]; [|done]. simpl in Hrun.
    destruct (scale_columns_lookup _ _ _ _ _ Hnd Hrun k) as [Hin _].
    destruct (Hin Hk Hex) as (e & s & He & Hs & Hsd).
    exists e, s. split; [done|]. split; [|done].
    by rewrite !lookup_insert_ne in Hs.
  - simpl in Hrun.
    destruct (scale_columns_lookup _ _ _ _ _ Hnd Hrun k) as [Hin _].
    destruct (Hin Hk Hex) as (e & s & He & Hs & Hsd). by exists e, s.
Qed.

End Outputs.

Section AlignmentFacts.


Lemma at_label_lookup (s : Series) (t : nat) :
  covers s t → svals s !! (t - sstart s)%nat = Some (at_label s t).
Proof.
  intros [Hlo Hhi]. unfold at_label, sstop, slen in *.
  destruct (Nat.ltb_spec t (sstart s)); [lia|].
  destruct (lookup_lt_is_Some_2 (svals s) (t - sstart s)) as [v Hv]; [lia|].
  by rewrite Hv.
Qed.

Lemma covers_of_list (l : list num) (t : nat) :
  covers (of_list l) t ↔ (t < length l)%nat.
Proof. unfold covers, sstop, slen, of_list. simpl. lia. Qed.

Lemma at_label_of_list (l : list num) (t : nat) :
  at_label (of_list l) t = default NaN (l !! t).
Proof. unfold at_label, of_list. simpl. by rewrite Nat.sub_0_r. Qed.

Lemma covers_smap (f : num → num) (s : Series) (t : nat) :
  covers (smap f s) t ↔ covers s t.
Proof. unfold covers, sstop, slen, smap. simpl. by rewrite length_fmap. Qed.

Lemma at_label_smap (f : num → num) (s : Series) (t : nat) :
  covers s t → at_label (smap f s) t = f (at_label s t).
Proof.
  intros Hc. pose proof (at_label_lookup s t Hc) as Hv.
  unfold at_label at 1. simpl. destruct Hc as [Hlo Hhi].
  destruct (Nat.ltb_spec t (sstart s)); [lia|].
  by rewrite list_lookup_fmap, Hv.
Qed.

Lemma covers_rolling (agg : list num → num) (w : nat) (s : Series) (t : nat) :
  covers (rolling agg w s) t ↔ covers s t.
Proof.
  unfold covers, sstop, slen, rolling. simpl. by rewrite length_fmap, length_seq.
Qed.

Lemma at_label_rolling (agg : list num → num) (w : nat) (s : Series) (t : nat) :
  covers s t →
  at_label (rolling agg w s) t = agg (window_at w (t - sstart s) (svals s)).
Proof.
  intros [Hlo Hhi]. unfold at_label, rolling. simpl. unfold sstop in Hhi.
  destruct (Nat.ltb_spec t (sstart s)); [lia|].
  rewrite list_lookup_fmap, lookup_seq_lt by lia. done.
Qed.


Lemma iloc_tail_unfold (n : nat) (s : Series) :
  iloc_tail n s
  = mkSeries (sstart s + tail_offset n (slen s))
             (drop (tail_offset n (slen s)) (svals s)).
Proof.
  destruct n as [|n]; simpl; [|done].
  destruct s as [st vs]. simpl. by rewrite Nat.add_0_r.
Qed.

Lemma tail_offset_le (n len : nat) : (tail_offset n len ≤ len)%nat.
Proof. destruct n; simpl; lia. Qed.

Lemma covers_iloc_tail (n : nat) (s : Series) (t : nat) :
  covers (iloc_tail n s) t
  ↔ covers s t ∧ (sstart s + tail_offset n (slen s) ≤ t)%nat.
Proof.
  rewrite iloc_tail_unfold. pose proof (tail_offset_le n (slen s)).
  unfold covers, sstop, slen in *. simpl. rewrite length_drop. lia.
Qed.

Lemma at_label_iloc_tail (n : nat) (s : Series) (t : nat) :
  covers (iloc_tail n s) t → at_label (iloc_tail n s) t = at_label s t.
Proof.
  intros Hc. pose proof (proj1 (covers_iloc_tail n s t) Hc) as [Hs Hk].
  rewrite iloc_tail_unfold in *.
  unfold at_label. simpl.
  destruct Hs as [Hlo Hhi].
  destruct (Nat.ltb_spec t (sstart s + tail_offset n (slen s))); [lia|].
  destruct (Nat.ltb_spec t (sstart s)); [lia|].
  rewrite lookup_drop. f_equal. f_equal. lia.
Qed.

Lemma at_label_binop (f : num → num → num) (a b : Series) (t : nat) :
  covers a t → covers b t →
  at_label (binop f a b) t = f (at_label a t) (at_label b t).
Proof.
  intros [Ha1 Ha2] [Hb1 Hb2]. unfold sstop, slen in *.
  unfold at_label at 1, binop. simpl.
  destruct (svals a) as [|va la] eqn:Ea; [simpl in *; lia|].
  destruct (svals b) as [|vb lb] eqn:Eb; [simpl in *; lia|].
  unfold sstop, slen. rewrite Ea, Eb.
  destruct (Nat.ltb_spec t (sstart a `min` sstart b)); [lia|].
  rewrite list_lookup_fmap, lookup_seq_lt by lia. simpl.
  do 2 f_equal; lia.
Qed.

Lemma covers_binop (f : num → num → num) (a b : Series) (t : nat) :
  covers a t → covers b t → covers (binop f a b) t.
Proof.
  intros [Ha1 Ha2] [Hb1 Hb2]. unfold covers, sstop, slen in *.
  unfold binop. simpl.
  destruct (svals a) as [|va la] eqn:Ea; [simpl in *; lia|].
  destruct (svals b) as [|vb lb] eqn:Eb; [simpl in *; lia|].
  unfold sstop, slen. rewrite Ea, Eb. rewrite length_fmap, length_seq. lia.
Qed.

(** Two series over the same labels combine value by value. *)
Lemma binop_same_labels (f : num → num → num) (a b : Series) :
  sstart a = sstart b → slen a = slen b →
  binop f a b = mkSeries (sstart a) (zip_with f (svals a) (svals b)).
Proof.
  destruct a as [sa la], b as [sb lb]. unfold slen. simpl. intros <- Hlen.
  unfold binop, sstop, slen. simpl.
  destruct la as [|va la], lb as [|vb lb]; try discriminate.
  - simpl. by replace (sa + 0 - sa)%nat with 0%nat by lia.
  - rewrite Nat.min_id. rewrite <- Hlen, Nat.max_id. f_equal.
    replace (sa + length (va :: la) - sa)%nat with (length (va :: la)) by lia.
    apply list_eq. intros i.
    rewrite list_lookup_fmap, lookup_zip_with.
    destruct (decide (i < length (va :: la))%nat) as [Hi|Hi].
    + rewrite lookup_seq_lt by done. simpl.
      unfold at_label. simpl.
      destruct (Nat.ltb_spec (sa + i) sa); [lia|].
      replace (sa + i - sa)%nat with i by lia.
      destruct (lookup_lt_is_Some_2 (va :: la) i Hi) as [x Hx].
      destruct (lookup_lt_is_Some_2 (vb :: lb) i) as [y Hy]; [lia|].
      by rewrite Hx, Hy.
    + rewrite lookup_seq_ge by lia. simpl.
      rewrite (lookup_ge_None_2 (va :: la)) by lia. done.
Qed.

Lemma diff_list_lookup (l : list num) (t : nat) :
  (t < length l)%nat →
  diff_list l !! t
  = Some (match t with
          | O => NaN
          | S t' => (default NaN (l !! t) - default NaN (l !! t'))%num
          end).
Proof.
  destruct l as [|x l]; simpl; [lia|]. intros Ht.
  destruct t as [|t]; [done|]. simpl.
  rewrite lookup_zip_with.
  destruct (lookup_lt_is_Some_2 l t) as [y Hy]; [lia|].
  destruct (lookup_lt_is_Some_2 (x :: l) t) as [z Hz]; [simpl; lia|].
  by rewrite Hy, Hz.
Qed.

Lemma length_diff_list (l : list num) : length (diff_list l) = length l.
Proof.
  destruct l as [|x l]; simpl; [done|].
  rewrite length_zip_with. simpl. lia.
Qed.

Lemma covers_binop_same_labels (f : num → num → num) (a b : Series) (t : nat) :
  sstart a = sstart b → slen a = slen b →
  covers (binop f a b) t ↔ covers a t.
Proof.
  intros Hs Hl. rewrite binop_same_labels by done.
  unfold covers, sstop, slen in *. simpl. rewrite length_zip_with. lia.
Qed.

Lemma sstart_iloc_tail (n : nat) (s : Series) :
  sstart (iloc_tail n s) = (sstart s + tail_offset n (slen s))%nat.
Proof. by rewrite iloc_tail_unfold. Qed.

Lemma slen_iloc_tail (n : nat) (s : Series) :
  slen (iloc_tail n s) = (slen s - tail_offset n (slen s))%nat.
Proof. rewrite iloc_tail_unfold. unfold slen. simpl. by rewrite length_drop. Qed.

Lemma slen_rolling (agg : list num → num) (w : nat) (s : Series) :
  slen (rolling agg w s) = slen s.
Proof. unfold slen, rolling. simpl. by rewrite length_fmap, length_seq. Qed.

Lemma slen_smap (f : num → num) (s : Series) : slen (smap f s) = slen s.
Proof. unfold slen, smap. simpl. by rewrite length_fmap. Qed.

Lemma slen_diff (s : Series) : slen (diff s) = slen s.
Proof. unfold slen, diff. simpl. apply length_diff_list. Qed.

Lemma slen_close_series (df : DataFrame) : slen (close_series df) = length df.
Proof. unfold slen, close_series, of_list, col_close. simpl. by rewrite !length_fmap. Qed.

Lemma tail_offset_small (n len : nat) : (len ≤ n)%nat → tail_offset n len = 0%nat.
Proof. destruct n; [done|]. cbn [tail_offset]. lia. Qed.

Lemma iloc_tail_small (n : nat) (s : Series) :
  tail_offset n (slen s) = 0%nat → iloc_tail n s = s.
Proof.
  intros H0. rewrite iloc_tail_unfold, H0. destruct s as [st vs]. simpl.
  by rewrite Nat.add_0_r.
Qed.

Lemma tail_offset_twice (n len : nat) :
  tail_offset n (len - tail_offset n len) = 0%nat.
Proof. destruct n; [done|]. cbn [tail_offset]. lia. Qed.

End AlignmentFacts.

Section RollingFacts.

Lemma observations_finite (m : list Qc) : observations (Finite <$> m) = m.
Proof.
  unfold observations. induction m as [|x m IH]; [done|].
  simpl. f_equal. exact IH.
Qed.

Lemma length_observations (l : list num) : (length (observations l) ≤ length l)%nat.
Proof.
  unfold observations, omap. induction l as [|v l IH]; simpl; [done|].
  destruct v; simpl; lia.
Qed.

Lemma window_at_fmap {A B} (f : A → B) (w t : nat) (l : list A) :
  window_at w t (f <$> l) = f <$> window_at w t l.
Proof. unfold window_at. by rewrite fmap_drop, fmap_take. Qed.

Lemma length_window_at {A} (w t : nat) (l : list A) :
  (t < length l)%nat → length (window_at w t l) = Nat.min w (t + 1).
Proof. intros Ht. unfold window_at. rewrite length_drop, length_take. lia. Qed.

Lemma length_window_at_le {A} (w t : nat) (l : list A) :
  (length (window_at w t l) ≤ t + 1)%nat.
Proof. unfold window_at. rewrite length_drop, length_take. lia. Qed.

Lemma window_at_early {A} (w t : nat) (l : list A) :
  (t < w)%nat → window_at w t l = take (t + 1) l.
Proof. intros Ht. unfold window_at. by replace (t + 1 - w)%nat with 0%nat by lia. Qed.

(** A window with fewer values than [min_periods] has no mean. *)
Lemma mean_of_short (min_periods : nat) (win : list num) :
  (length win < min_periods)%nat → mean_of min_periods win = NaN.
Proof.
  intros Hlen. unfold mean_of, enough.
  pose proof (length_observations win).
  destruct (Nat.ltb_spec (length (observations win)) (Nat.max 1 min_periods)); [done|lia].
Qed.

(** With [min_periods=1] a window of finite values has the mean of the
    values it holds, however few. *)
Lemma mean_of_available (m : list Qc) :
  m ≠ [] →
  mean_of 1 (Finite <$> m) = Finite (qsum m / Num.of_nat (length m)).
Proof.
  intros Hm. unfold mean_of, enough. rewrite observations_finite.
  destruct m as [|x m]; [done|]. done.
Qed.

Lemma zip_with_sub_finite (a b : list Qc) :
  zip_with Num.sub (Finite <$> a) (Finite <$> b) = Finite <$> zip_with Qcminus a b.
Proof.
  revert b. induction a as [|x a IH]; intros [|y b]; simpl; [done..|]. by rewrite IH.
Qed.

End RollingFacts.


(* ================================================================== *)
(** * TRAMA *)
(* ================================================================== *)

Section TramaFacts.

(** The shape shared by the TRAMA of both files: the rolling mean of
    Close over [period] days plus a tenth of the day's own absolute
    change, on the last [n] labels of the frame. *)
Lemma trama_shape (period n : nat) (df : DataFrame) (t : nat) :
  let close := Finite <$> col_close df in
  let trama :=
    binop Num.add
      (iloc_tail n (rolling_mean period None (close_series df)))
      (series_mul_scalar (iloc_tail n (smap Num.abs (diff (close_series df))))
                         (Finite (Q2Qc 0.1))) in
  (covers trama t ↔ (tail_offset n (length df) ≤ t < length df)%nat)
  ∧ (covers trama t →
     at_label trama t
     = (mean_of period (window_at period t close)
        + Num.abs (default NaN (diff_list close !! t)) * Finite (Q2Qc 0.1))%num).
Proof.
  intros close trama. subst trama.
  set (C := close_series df).
  set (A := iloc_tail n (rolling_mean period None C)).
  set (B := series_mul_scalar (iloc_tail n (smap Num.abs (diff C))) (Finite (Q2Qc 0.1))).
  assert (HC : slen C = length df) by apply slen_close_series.
  assert (HsC : sstart C = 0%nat) by done.
  assert (HvC : svals C = close) by done.
  assert (Hstart : sstart A = sstart B).
  { unfold A, B, series_mul_scalar, rolling_mean. simpl.
    rewrite !sstart_iloc_tail. simpl. by rewrite slen_rolling, slen_smap, slen_diff. }
  assert (Hlen : slen A = slen B).
  { unfold A, B, series_mul_scalar, rolling_mean.
    rewrite slen_smap, !slen_iloc_tail. by rewrite slen_rolling, slen_smap, slen_diff. }
  assert (HcovA : covers A t ↔ (tail_offset n (length df) ≤ t < length df)%nat).
  { unfold A, rolling_mean. rewrite covers_iloc_tail, covers_rolling, slen_rolling, HC.
    unfold covers, sstop. simpl. rewrite HC. lia. }
  assert (HcovB : covers B t ↔ covers A t).
  { unfold covers, sstop. rewrite Hstart, Hlen. done. }
  split.
  - by rewrite covers_binop_same_labels.
  - intros Hc. apply covers_binop_same_labels in Hc; [|done..].
    pose proof (proj2 HcovB Hc) as HcB.
    rewrite at_label_binop by done. f_equal.
    + unfold A, rolling_mean in *.
      rewrite at_label_iloc_tail by done.
      apply covers_iloc_tail in Hc as [Hc _]. apply covers_rolling in Hc.
      rewrite at_label_rolling by done. by rewrite HsC, Nat.sub_0_r, HvC.
    + unfold B, series_mul_scalar in *.
      apply covers_smap in HcB.
      rewrite at_label_smap by done. f_equal.
      rewrite at_label_iloc_tail by done.
      apply covers_iloc_tail in HcB as [HcB _]. apply covers_smap in HcB.
      rewrite at_label_smap by done. f_equal.
      unfold at_label, diff. simpl. by rewrite Nat.sub_0_r.
Qed.

End TramaFacts.

(** C7, as stated, fails.  On fifteen days (thirteen flat, then 1 and 3)
    the TRAMA of neither file is the rolling mean of Close plus 0.1 times
    an absolute difference aggregated over the 14-day window, whether the
    aggregate is the rolling mean or the rolling sum. *)
Lemma trama_volatility_is_not_rolled :
  let d := Examples.fifteen_days in
  at_label (StockBot.trama_series 15 d) 14 = Finite (Q2Qc (17 # 35))
  ∧ at_label (ModelsPy.trama_series 14 d) 14 = Finite (Q2Qc (17 # 35))
  ∧ at_label (Spec.trama_rolling_volatility rolling_mean 15 d) 14 = Finite (Q2Qc (43 # 140))
  ∧ at_label (Spec.trama_rolling_volatility rolling_sum 15 d) 14 = Finite (Q2Qc (41 # 70))
  ∧ at_label (StockBot.trama_series 15 d) 14
    ≠ at_label (Spec.trama_rolling_volatility rolling_mean 15 d) 14
  ∧ at_label (StockBot.trama_series 15 d) 14
    ≠ at_label (Spec.trama_rolling_volatility rolling_sum 15 d) 14
  ∧ at_label (ModelsPy.trama_series 14 d) 14
    ≠ at_label (Spec.trama_rolling_volatility rolling_mean 60 d) 14
  ∧ at_label (ModelsPy.trama_series 14 d) 14
    ≠ at_label (Spec.trama_rolling_volatility rolling_sum 60 d) 14.
Proof. intros d. repeat split; by_evaluation. Qed.

(* ================================================================== *)
(** * MACD, Signal Line, Histogram *)
(* ================================================================== *)

Section MacdFacts.

(** MACD in [indicators_past_num_days]: EMA(12) minus EMA(26), day by day
    over the whole frame. *)
Lemma macd_is_ema12_minus_ema26 (df : DataFrame) :
  StockBot.macd_series df
  = of_list (Finite <$> zip_with Qcminus (ewm_mean 12 (col_close df))
                                         (ewm_mean 26 (col_close df))).
Proof.
  unfold StockBot.macd_series, ewm_series.
  rewrite binop_same_labels.
  - simpl. by rewrite zip_with_sub_finite.
  - done.
  - unfold slen, of_list. simpl. by rewrite !length_fmap, !length_ewm_mean.
Qed.
(** The Signal Line of [indicators_past_num_days]: on every day of the
    window, the mean of the MACD values of the last nine days or, before
    the ninth day, of the [t + 1] values there are; it is never NaN. *)
Lemma signal_line_mean_of_available (num_days : nat) (df : DataFrame) (t : nat) :
  (tail_offset num_days (length df) ≤ t < length df)%nat →
  let macd := zip_with Qcminus (ewm_mean 12 (col_close df)) (ewm_mean 26 (col_close df)) in
  at_label (StockBot.signal_line_series num_days df) t
  = Finite (qsum (window_at 9 t macd) / Num.of_nat (Nat.min 9 (t + 1)))
  ∧ ((t < 9)%nat → window_at 9 t macd = take (t + 1) macd
                   ∧ Nat.min 9 (t + 1) = (t + 1)%nat).
Proof.
  intros Ht macd.
  assert (Hlen : length macd = length df).
  { unfold macd, col_close. rewrite length_zip_with, !length_ewm_mean, length_fmap. lia. }
  split.
  - unfold StockBot.signal_line_series, rolling_mean. rewrite macd_is_ema12_minus_ema26.
    fold macd.
    assert (Hc : covers (of_list (Finite <$> macd)) t).
    { apply covers_of_list. rewrite length_fmap. lia. }
    rewrite at_label_iloc_tail.
    + rewrite at_label_rolling by done. simpl. rewrite Nat.sub_0_r.
      rewrite window_at_fmap, mean_of_available.
      * by rewrite length_window_at by lia.
      * intros Hnil. pose proof (length_window_at 9 t macd ltac:(lia)) as Hl.
        rewrite Hnil in Hl. cbn [length] in Hl. lia.
    + apply covers_iloc_tail. split; [by apply covers_rolling|].
      rewrite slen_rolling. unfold slen. simpl. rewrite length_fmap, Hlen. lia.
  - intros H9. split; [by apply window_at_early | lia].
Qed.

(** The Signal Line of [getInfoToday] rolls over the MACD of the last 60
    days with the default [min_periods], nine: the first eight days of the
    window are NaN. *)
Lemma legacy_signal_line_early_nan (df : DataFrame) (t : nat) :
  (tail_offset 60 (length df) ≤ t < length df)%nat →
  (t - tail_offset 60 (length df) < 8)%nat →
  at_label (ModelsPy.signal_line_series df) t = NaN.
Proof.
  intros Ht Hearly.
  unfold ModelsPy.signal_line_series, rolling_mean.
  set (macd := ModelsPy.macd_series df).
  assert (Hs12 : sstart (ModelsPy.ema12_series df) = tail_offset 60 (length df)
                 ∧ slen (ModelsPy.ema12_series df) = (length df - tail_offset 60 (length df))%nat).
  { unfold ModelsPy.ema12_series. rewrite sstart_iloc_tail, slen_iloc_tail.
    unfold slen, ewm_series, col_close. simpl.
    by rewrite !length_fmap, length_ewm_mean, length_fmap. }
  assert (Hs26 : sstart (ModelsPy.ema26_series df) = tail_offset 60 (length df)
                 ∧ slen (ModelsPy.ema26_series df) = (length df - tail_offset 60 (length df))%nat).
  { unfold ModelsPy.ema26_series. rewrite sstart_iloc_tail, slen_iloc_tail.
    unfold slen, ewm_series, col_close. simpl.
    by rewrite !length_fmap, length_ewm_mean, length_fmap. }
  destruct Hs12 as [Hs12 Hl12], Hs26 as [Hs26 Hl26].
  assert (Hmacd : sstart macd = tail_offset 60 (length df)
                  ∧ slen macd = (length df - tail_offset 60 (length df))%nat).
  { unfold macd, ModelsPy.macd_series.
    rewrite binop_same_labels by congruence. split; [done|].
    unfold slen in *. cbn [svals]. rewrite length_zip_with. lia. }
  destruct Hmacd as [Hsm Hlm].
  assert (Hc : covers macd t) by (unfold covers, sstop; lia).
  rewrite at_label_iloc_tail.
  - rewrite at_label_rolling by done. apply (mean_of_short 9).
    pose proof (length_window_at_le 9 (t - sstart macd) (svals macd)). lia.
  - apply covers_iloc_tail. split; [by apply covers_rolling|].
    rewrite slen_rolling. change (sstart (rolling _ _ macd)) with (sstart macd).
    rewrite tail_offset_small; [lia|].
    rewrite Hlm. cbn [tail_offset]. lia.
Qed.

(** Combining a series with one of its own suffixes keeps the labels of
    the longer one. *)
Lemma binop_suffix_labels (f : num → num → num) (a b : Series) :
  (sstart a ≤ sstart b)%nat → sstop b = sstop a → (0 < slen b)%nat →
  sstart (binop f a b) = sstart a ∧ slen (binop f a b) = slen a.
Proof.
  intros Hs He Hb. unfold sstop, slen in *. unfold binop, sstop, slen. simpl.
  destruct (svals a) as [|va la] eqn:Ea; [simpl in *; lia|].
  destruct (svals b) as [|vb lb] eqn:Eb; [simpl in *; lia|].
  rewrite length_fmap, length_seq. simpl in *. lia.
Qed.

Lemma macd_series_labels (df : DataFrame) :
  sstart (StockBot.macd_series df) = 0%nat ∧ slen (StockBot.macd_series df) = length df.
Proof.
  rewrite macd_is_ema12_minus_ema26. unfold slen, of_list, col_close. simpl.
  rewrite length_fmap, length_zip_with, !length_ewm_mean, length_fmap. lia.
Qed.

Lemma signal_line_series_labels (num_days : nat) (df : DataFrame) :
  sstart (StockBot.signal_line_series num_days df) = tail_offset num_days (length df)
  ∧ slen (StockBot.signal_line_series num_days df)
    = (length df - tail_offset num_days (length df))%nat.
Proof.
  destruct (macd_series_labels df) as [Hs Hl].
  unfold StockBot.signal_line_series, rolling_mean.
  rewrite sstart_iloc_tail, slen_iloc_tail, slen_rolling, Hl.
  change (sstart (rolling _ _ (StockBot.macd_series df))) with (sstart (StockBot.macd_series df)).
  rewrite Hs. done.
Qed.

(** The Histogram of [indicators_past_num_days] on a day of the window:
    the MACD of the day minus the Signal Line of the day. *)
Lemma histogram_is_macd_minus_signal_line (num_days : nat) (df : DataFrame) (t : nat) :
  (tail_offset num_days (length df) ≤ t < length df)%nat →
  at_label (StockBot.histogram_series num_days df) t
  = (at_label (StockBot.macd_series df) t
     - at_label (StockBot.signal_line_series num_days df) t)%num.
Proof.
  intros Ht.
  destruct (macd_series_labels df) as [Hms Hml].
  destruct (signal_line_series_labels num_days df) as [Hss Hsl].
  pose proof (tail_offset_le num_days (length df)) as Hk.
  assert (Hcm : covers (StockBot.macd_series df) t) by (unfold covers, sstop; lia).
  assert (Hcs : covers (StockBot.signal_line_series num_days df) t)
    by (unfold covers, sstop; lia).
  destruct (binop_suffix_labels Num.sub (StockBot.macd_series df)
              (StockBot.signal_line_series num_days df)) as [Hbs Hbl];
    [lia | unfold sstop; lia | lia |].
  unfold StockBot.histogram_series.
  rewrite at_label_iloc_tail.
  - by apply at_label_binop.
  - apply covers_iloc_tail. split; [by apply covers_binop|].
    rewrite Hbs, Hbl, Hms, Hml. lia.
Qed.

(** In [getInfoToday] MACD, Signal Line and Histogram share the labels of
    the last 60 days, and the Histogram is their difference day by day. *)
Lemma legacy_histogram_is_macd_minus_signal_line (df : DataFrame) (t : nat) :
  (tail_offset 60 (length df) ≤ t < length df)%nat →
  at_label (ModelsPy.macd_series df) t
  = (at_label (ModelsPy.ema12_series df) t - at_label (ModelsPy.ema26_series df) t)%num
  ∧ at_label (ModelsPy.histogram_series df) t
    = (at_label (ModelsPy.macd_series df) t
       - at_label (ModelsPy.signal_line_series df) t)%num.
Proof.
  intros Ht.
  assert (Hema : ∀ span, sstart (iloc_tail 60 (ewm_series span df)) = tail_offset 60 (length df)
                 ∧ slen (iloc_tail 60 (ewm_series span df))
                   = (length df - tail_offset 60 (length df))%nat).
  { intros span. rewrite sstart_iloc_tail, slen_iloc_tail.
    unfold slen, ewm_series, col_close. simpl.
    by rewrite !length_fmap, length_ewm_mean, length_fmap. }
  destruct (Hema 12%Z) as [Hs12 Hl12]. destruct (Hema 26%Z) as [Hs26 Hl26].
  fold (ModelsPy.ema12_series df) in Hs12, Hl12.
  fold (ModelsPy.ema26_series df) in Hs26, Hl26.
  assert (Hc12 : covers (ModelsPy.ema12_series df) t) by (unfold covers, sstop; lia).
  assert (Hc26 : covers (ModelsPy.ema26_series df) t) by (unfold covers, sstop; lia).
  assert (Hcm : covers (ModelsPy.macd_series df) t) by (by apply covers_binop).
  assert (Hmacd : sstart (ModelsPy.macd_series df) = tail_offset 60 (length df)
                  ∧ slen (ModelsPy.macd_series df)
                    = (length df - tail_offset 60 (length df))%nat).
  { unfold ModelsPy.macd_series. rewrite binop_same_labels by congruence.
    split; [done|]. unfold slen in *. cbn [svals]. rewrite length_zip_with. lia. }
  destruct Hmacd as [Hsm Hlm].
  assert (Hcs : covers (ModelsPy.signal_line_series df) t).
  { unfold ModelsPy.signal_line_series, rolling_mean.
    apply covers_iloc_tail. split; [by apply covers_rolling|].
    rewrite slen_rolling.
    change (sstart (rolling _ _ (ModelsPy.macd_series df)))
      with (sstart (ModelsPy.macd_series df)).
    rewrite tail_offset_small; [lia|]. rewrite Hlm. cbn [tail_offset]. lia. }
  split.
  - by apply at_label_binop.
  - by apply at_label_binop.
Qed.

End MacdFacts.

(** C4.  On ten days of prices, [getInfoToday] leaves the first eight
    days of its Signal Line (and of its Histogram) NaN although the MACD
    of those days is there: it rolls with the default [min_periods].
    [indicators_past_num_days], which passes [min_periods=1], has a value
    on every day, the first being the MACD of that day. *)
Theorem legacy_signal_line_starts_nan :
  let d := Examples.ten_days in
  take 8 (svals (ModelsPy.signal_line_series d)) = replicate 8 NaN
  ∧ take 8 (svals (ModelsPy.histogram_series d)) = replicate 8 NaN
  ∧ Forall (λ v, is_nan v = false) (svals (ModelsPy.macd_series d))
  ∧ length (svals (ModelsPy.signal_line_series d)) = 10%nat
  ∧ Forall (λ v, is_nan v = false) (svals (StockBot.signal_line_series 10 d))
  ∧ svals (StockBot.signal_line_series 10 d) !! 0%nat
    = svals (StockBot.macd_series d) !! 0%nat.
Proof. intros d. repeat split; by_evaluation. Qed.

(* ================================================================== *)
(** * RSI *)
(* ================================================================== *)

Section RsiFacts.

(** Where Avg Loss is zero nothing is special-cased: a positive Avg Gain
    gives an infinite RS, and the RSI formula then yields 100; a zero Avg
    Gain gives NaN. *)
Lemma rsi_of_zero_loss (avg_gain : Qc) :
  0 ≤ avg_gain →
  (Finite avg_gain / Finite 0)%num = (if decide (avg_gain = 0) then NaN else PosInf)
  ∧ rsi_of (Finite avg_gain / Finite 0)%num
    = (if decide (avg_gain = 0) then NaN else Num.of_Z 100).
Proof.
  intros Hg. unfold rsi_of. cbn [Num.div].
  destruct (decide (Q2Qc 0 = Q2Qc 0)) as [_|Hne]; [|done].
  destruct (decide (avg_gain = 0)) as [->|Hz].
  - done.
  - assert (Hpos : (avg_gain ?= 0) = Gt).
    { apply Qcgt_alt. apply Qcle_lt_or_eq in Hg as [Hg|Hg]; [done|]. by symmetry in Hg. }
    rewrite Hpos. split; [done|].
    apply (bool_decide_unpack _). by vm_compute.
Qed.

Lemma rsi_of_nan : rsi_of NaN = NaN.
Proof. reflexivity. Qed.

(** The RSI of [indicators_past_num_days] rolls over the change of the
    window alone, with the default [min_periods], 14: the first thirteen
    days of the window are NaN. *)
Lemma rsi_early_nan (num_days : nat) (df : DataFrame) (t : nat) :
  (tail_offset num_days (length df) ≤ t < length df)%nat →
  (t - tail_offset num_days (length df) < 13)%nat →
  at_label (StockBot.rsi_series num_days df) t = NaN.
Proof.
  intros Ht Hearly.
  set (k := tail_offset num_days (length df)) in *.
  set (change := StockBot.change_series num_days df).
  assert (Hch : sstart change = k ∧ slen change = (length df - k)%nat).
  { unfold change, StockBot.change_series.
    rewrite sstart_iloc_tail, slen_iloc_tail, slen_diff, slen_close_series. done. }
  destruct Hch as [Hsc Hlc].
  assert (Hroll : ∀ f,
    let avg := iloc_tail num_days (rolling_mean 14 None (smap f change)) in
    covers avg t ∧ at_label avg t = NaN).
  { intros f avg. subst avg. unfold rolling_mean.
    rewrite iloc_tail_small.
    - assert (Hc : covers (smap f change) t).
      { apply covers_smap. unfold covers, sstop. lia. }
      split; [by apply covers_rolling|].
      rewrite at_label_rolling by done. apply (mean_of_short 14).
      pose proof (length_window_at_le 14 (t - sstart (smap f change))
                    (svals (smap f change))) as Hw.
      change (sstart (smap f change)) with (sstart change) in *. lia.
    - rewrite slen_rolling, slen_smap, Hlc. apply tail_offset_twice. }
  unfold StockBot.rsi_series, StockBot.avg_gain_series, StockBot.avg_loss_series.
  fold change.
  destruct (Hroll gain_of) as [Hcg Hg]. destruct (Hroll loss_of) as [Hcl Hl].
  rewrite at_label_smap by (by apply covers_binop).
  rewrite at_label_binop by done. by rewrite Hg.
Qed.

(** The RSI of [getInfoToday] on a day of its window: Gain and Loss are
    the positive part and the absolute negative part of the change, their
    averages are means over the last 14 days of the window, or over the
    days there are ([min_periods=1]), and
    [RSI = 100 - 100 / (1 + Avg Gain / Avg Loss)] with nothing
    special-cased. *)
Lemma legacy_rsi_formula (df : DataFrame) (t : nat) :
  (tail_offset 60 (length df) ≤ t < length df)%nat →
  let k := tail_offset 60 (length df) in
  let change := svals (ModelsPy.change_series df) in
  let avg_gain := mean_of 1 (window_at 14 (t - k) (gain_of <$> change)) in
  let avg_loss := mean_of 1 (window_at 14 (t - k) (loss_of <$> change)) in
  at_label (ModelsPy.avg_gain_series df) t = avg_gain
  ∧ at_label (ModelsPy.avg_loss_series df) t = avg_loss
  ∧ at_label (ModelsPy.rsi_series df) t = rsi_of (avg_gain / avg_loss)%num.
Proof.
  intros Ht k change avg_gain avg_loss.
  set (ch := ModelsPy.change_series df).
  assert (Hch : sstart ch = k ∧ slen ch = (length df - k)%nat).
  { unfold ch, ModelsPy.change_series.
    by rewrite sstart_iloc_tail, slen_iloc_tail, slen_diff, slen_close_series. }
  destruct Hch as [Hsc Hlc].
  assert (Hroll : ∀ f,
    let avg := iloc_tail 60 (rolling_mean 14 (Some 1%nat) (smap f ch)) in
    covers avg t ∧ at_label avg t = mean_of 1 (window_at 14 (t - k) (f <$> svals ch))).
  { intros f avg. subst avg. unfold rolling_mean.
    rewrite iloc_tail_small.
    - assert (Hc : covers (smap f ch) t).
      { apply covers_smap. unfold covers, sstop. lia. }
      split; [by apply covers_rolling|].
      rewrite at_label_rolling by done.
      change (sstart (smap f ch)) with (sstart ch). by rewrite Hsc.
    - rewrite slen_rolling, slen_smap, Hlc. apply tail_offset_twice. }
  destruct (Hroll gain_of) as [Hcg Hg]. destruct (Hroll loss_of) as [Hcl Hl].
  split; [exact Hg|]. split; [exact Hl|].
  unfold ModelsPy.rsi_series, ModelsPy.rs_series, ModelsPy.avg_gain_series,
    ModelsPy.avg_loss_series. fold ch.
  rewrite at_label_smap by (by apply covers_binop).
  rewrite at_label_binop by done. by rewrite Hg, Hl.
Qed.

End RsiFacts.

(** C6.  On sixteen days of prices, with a window of sixteen days,
    [indicators_past_num_days] leaves the first thirteen days of the RSI
    NaN: its rolling means of Gain and Loss take the default
    [min_periods].  [getInfoToday], which passes [min_periods=1], has the
    RSI from the second day on; its first two days show the zero Avg Loss
    untouched: NaN where Avg Gain is zero too, and an infinite RS, hence
    100, where it is positive. *)
Theorem rsi_window_is_nan_without_min_periods :
  let d := Examples.sixteen_days in
  take 13 (svals (StockBot.rsi_series 16 d)) = replicate 13 NaN
  ∧ length (svals (StockBot.rsi_series 16 d)) = 16%nat
  ∧ Forall (λ v, is_nan v = false) (drop 1 (svals (ModelsPy.rsi_series d)))
  ∧ take 2 (svals (ModelsPy.avg_loss_series d)) = [Finite 0; Finite 0]
  ∧ take 2 (svals (ModelsPy.rs_series d)) = [NaN; PosInf]
  ∧ take 3 (svals (ModelsPy.rsi_series d))
    = [NaN; Num.of_Z 100; Finite (Qc_of_Z 100 / Qc_of_Z 3)].
Proof. intros d. repeat split; by_evaluation. Qed.

(* ================================================================== *)
(** * Earnings *)
(* ================================================================== *)

Section EarningsFacts.

Lemma earning_diffs_loop_zero (n : nat) (acc : list num) :
  StockBot.earning_diffs_loop n (Ok (Finite 0)) acc = Ok (acc ++ replicate n (Finite 0)).
Proof.
  revert acc. induction n as [|n IH]; intros acc; simpl.
  - by rewrite app_nil_r.
  - rewrite IH. by rewrite <- app_assoc.
Qed.

(** When [end_date] is no announcement date, every day of the window gets
    0, whatever the announcement dates are. *)
Lemma earning_diffs_zero_unless_end_date
    (get_earnings_history : string → list pydate * list num)
    (symbol : string) (end_date : Z) (num_days : nat)
    (scaler_data : gmap string StockBot.scaler_entry) :
  is_Some (scaler_data !! "earning diffs") →
  DateStr end_date ∉ (get_earnings_history symbol).1 →
  StockBot.earning_diffs get_earnings_history symbol end_date num_days scaler_data
  = Ok (replicate num_days (Finite 0)).
Proof.
  intros [e He] Hout. unfold StockBot.earning_diffs.
  destruct (get_earnings_history symbol) as [dates diffs]. simpl in Hout.
  unfold py_dict_get. rewrite He. simpl.
  unfold StockBot.earning_diff_step. rewrite (py_in_false _ _ Hout). simpl.
  apply earning_diffs_loop_zero.
Qed.

Lemma legacy_earnings_diff_loop_zero (end_date : Z) (dates : list pydate)
    (diffs : list num) (window : list pydate) (acc : list num) :
  DateTime end_date ∉ dates →
  ModelsPy.earnings_diff_loop end_date dates diffs window acc
  = Ok (acc ++ replicate (length window) (Finite 0)).
Proof.
  intros Hout. revert acc.
  induction window as [|date window IH]; intros acc; simpl.
  - by rewrite app_nil_r.
  - rewrite (py_in_false _ _ Hout). simpl. rewrite IH. by rewrite <- app_assoc.
Qed.

Lemma earnings_diff_loop_raises (end_date : Z) (dates : list pydate)
    (diffs : list num) (window : list pydate) :
  ∀ acc e,
    ModelsPy.earnings_diff_loop end_date dates diffs window acc = Raise e →
    e = ValueError ∨ e = IndexError.
Proof.
  induction window as [|date window IH]; intros acc e; simpl; [done|].
  destruct (negb _); [apply IH|].
  destruct (py_index date dates) as [i|e'] eqn:Hi; simpl.
  - destruct (py_getitem diffs i) as [d|e''] eqn:Hd; simpl; [apply IH|].
    intros [= <-]. right. by eapply py_getitem_raises.
  - intros [= <-]. left. by eapply index_from_raises.
Qed.

End EarningsFacts.

(** C9.  With one announcement, on day 99 with surprise 5, and the end
    date 100, day 99 is in the window of either file and both emit 0 for
    every day of it: the membership test is on the end date, not on the
    day.  The rule of the specification gives 5 on day 99. *)
Theorem earnings_diff_ignores_window_dates :
  StockBot.earning_diffs Examples.one_earning "AAPL" 100 3
    (<["earning diffs" := StockBot.mkScaler (Num.of_Z 0) (Num.of_Z 1)]> ∅)
  = Ok [Finite 0; Finite 0; Finite 0]
  ∧ ModelsPy.all_dates 100 = [DateStr 99; DateStr 98; DateStr 97]
  ∧ ModelsPy.earnings_diff_column Examples.one_earning "AAPL" 100
    = Ok [Finite 0; Finite 0; Finite 0]
  ∧ Spec.earnings_diff_by_date [99]%Z [Num.of_Z 5] [99; 98; 97]%Z
    = [Num.of_Z 5; Finite 0; Finite 0].
Proof. repeat split; by_evaluation. Qed.

(* ================================================================== *)
(** * The rolling cache *)
(* ================================================================== *)

Section CacheFacts.

Context (excluded_values : list string) (is_floats : colval → bool)
        (process_flips : Series → Series → list num)
        (get_liquidity_spikes : Series → option bool → option num → Series)
        (calculate_momentum_oscillator : Series → Series)
        (get_earnings_history : string → list pydate * list num)
        (yf_history : string → Z → Z → DataFrame)
        (nyse_schedule : Z → Z → list Z)
        (info_json : string → option StockBot.snapshot).

Local Abbreviation update_cached_offline :=
  (StockBot.update_cached_offline excluded_values info_json).
Local Abbreviation get_info_today :=
  (StockBot.get_info_today excluded_values is_floats process_flips get_liquidity_spikes
     calculate_momentum_oscillator get_earnings_history yf_history nyse_schedule info_json).
Local Abbreviation online_attempt :=
  (StockBot.online_attempt excluded_values is_floats process_flips get_liquidity_spikes
     calculate_momentum_oscillator get_earnings_history yf_history).
Local Abbreviation offline_fallback := (StockBot.offline_fallback excluded_values info_json).
Local Abbreviation predict :=
  (StockBot.predict excluded_values is_floats process_flips get_liquidity_spikes
     calculate_momentum_oscillator get_earnings_history yf_history nyse_schedule info_json).

(** The online attempt stops at the call of [update_cached_info_online]:
    nothing is fetched and the instance is as it was. *)
Lemma online_attempt_type_error (w : StockBot.world) :
  online_attempt w = (Raise TypeError, w).
Proof. reflexivity. Qed.

(** Had the online attempt raised [ConnectionError], the handler would run
    the offline update on the state the attempt left. *)
Lemma connection_error_runs_fallback (body : StockBot.M unit) (w w' : StockBot.world) :
  body w = (Raise ConnectionError, w') →
  StockBot.try_except body ConnectionError offline_fallback w = offline_fallback w'.
Proof. intros Hbody. unfold StockBot.try_except. by rewrite Hbody. Qed.

(** C3.  On a trading day [get_info_today] raises [TypeError] from the
    call [self.update_cached_info_online(self.information_keys)]: the
    handler catches [ConnectionError] only, so the offline update is not
    attempted (its warning is not issued, the snapshot is not read) and
    the instance is left as it was. *)
Theorem get_info_today_never_falls_back (w : StockBot.world) :
  StockBot.end_date (StockBot.self w)
    ∈ nyse_schedule (StockBot.end_date (StockBot.self w) - 1)%Z
                    (StockBot.end_date (StockBot.self w) + 2)%Z →
  get_info_today w
  = (Raise TypeError,
     StockBot.mkWorld (StockBot.self w)
       (StockBot.warnings w
        ++ ["It is better to do this in your own code so online and offline are split"])).
Proof.
  intros Hday. unfold StockBot.get_info_today, StockBot.bind at 1. simpl.
  unfold StockBot.bind at 1. simpl.
  rewrite (py_in_true _ _ Hday). simpl.
  unfold StockBot.bind at 1, StockBot.try_except.
  rewrite online_attempt_type_error. simpl. reflexivity.
Qed.

(** With no model loaded, [predict] of [models.py] on a given [info]
    raises [LookupError] and changes nothing; with a model it returns the
    model's prediction on that [info]. *)
Lemma predict_given_info (info : ndarray) (w : StockBot.world) :
  predict (Some info) w
  = (match StockBot.model (StockBot.self w) with
     | Some net => Ok (net info)
     | None => Raise LookupError
     end, w).
Proof.
  unfold StockBot.predict, StockBot.bind, StockBot.ret, StockBot.get_self. simpl.
  by destruct (StockBot.model (StockBot.self w)).
Qed.

(** C2.  On a populated offline window (a snapshot in [cached_info], the
    [num_days] rows of [cached], [num_days] positive) a successful
    [update_cached_offline] drops the oldest row and appends the row the
    snapshot has for the end date, so the window keeps its [num_days] rows
    and every other attribute stays; a call that raises leaves the instance
    as it was; and when the end date is not among the snapshot's ['Dates']
    the call does raise, with [ValueError]. *)
Theorem update_cached_offline_atomic (w : StockBot.world)
    (d : StockBot.snapshot) (c : nat) (rows : list (list num)) :
  StockBot.cached_info (StockBot.self w) = StockBot.Offline d →
  StockBot.cached (StockBot.self w) = Some (Arr2 c rows) →
  length rows = StockBot.num_days (StockBot.self w) →
  (0 < StockBot.num_days (StockBot.self w))%nat →
  (∀ w', update_cached_offline w = (Ok (), w') →
     ∃ i_end day_data,
       py_index (StockBot.end_date (StockBot.self w)) (StockBot.Dates d) = Ok i_end
       ∧ StockBot.snapshot_row d (StockBot.information_keys (StockBot.self w)) i_end
         = Ok day_data
       ∧ StockBot.self w'
         = StockBot.set_cached (Some (Arr2 c (tail rows ++ [day_data]))) (StockBot.self w)
       ∧ length (tail rows ++ [day_data]) = StockBot.num_days (StockBot.self w))
  ∧ (∀ e w', update_cached_offline w = (Raise e, w') →
       StockBot.self w' = StockBot.self w)
  ∧ (StockBot.end_date (StockBot.self w) ∉ StockBot.Dates d →
     ∃ w', update_cached_offline w = (Raise ValueError, w')
           ∧ StockBot.self w' = StockBot.self w).
Proof.
  destruct w as [s ws]. simpl. intros Hinfo Hcached Hlen Hpos.
  assert (Hnz : np_len (Arr2 c rows) ≠ 0%nat) by (simpl; lia).
  unfold StockBot.update_cached_offline, StockBot.advance_offline.
  cbv [StockBot.bind StockBot.warn StockBot.get_self StockBot.lift StockBot.ret
       StockBot.raise StockBot.modify_self StockBot.self StockBot.warnings].
  rewrite Hinfo. cbv [StockBot.not_cached_info]. rewrite Hcached, Hinfo.
  rewrite decide_False by exact Hnz.
  split; [|split].
  - intros w'.
    destruct (py_index _ _) as [i_end|e]; [|discriminate].
    destruct (StockBot.snapshot_row _ _ _) as [day_data|e] eqn:Hrow; [|discriminate].
    unfold np_drop_first_append. case_decide as Hc; [|discriminate].
    intros [= <-]. exists i_end, day_data. do 3 (split; [done|]).
    rewrite length_app. simpl. destruct rows; simpl in *; lia.
  - intros e w'.
    destruct (py_index _ _) as [i_end|e1]; [|by intros [= _ <-]].
    destruct (StockBot.snapshot_row _ _ _) as [day_data|e2]; [|by intros [= _ <-]].
    unfold np_drop_first_append. case_decide as Hc; [discriminate|].
    by intros [= _ <-].
  - intros Habsent. rewrite (py_index_absent _ _ Habsent).
    eexists. split; reflexivity.
Qed.

(** A cache with no row is not a window to advance: with a snapshot in
    place the update returns without reading the end date. *)
Lemma update_cached_offline_empty_cache (w : StockBot.world)
    (d : StockBot.snapshot) (arr : ndarray) :
  StockBot.cached_info (StockBot.self w) = StockBot.Offline d →
  StockBot.cached (StockBot.self w) = Some arr →
  np_len arr = 0%nat →
  update_cached_offline w
  = (Ok (), StockBot.mkWorld (StockBot.self w) (StockBot.warnings w ++ ["For Testing"])).
Proof.
  destruct w as [s ws]. simpl. intros Hinfo Hcached Hlen.
  unfold StockBot.update_cached_offline, StockBot.advance_offline.
  cbv [StockBot.bind StockBot.warn StockBot.get_self StockBot.lift StockBot.ret
       StockBot.raise StockBot.modify_self StockBot.self StockBot.warnings].
  rewrite Hinfo. cbv [StockBot.not_cached_info]. rewrite Hcached.
  by rewrite decide_True by exact Hlen.
Qed.

(** When the snapshot has the end date and, under every information key,
    a value at its position, and the window has one column per key, the
    advance succeeds. *)
Lemma update_cached_offline_succeeds (w : StockBot.world)
    (d : StockBot.snapshot) (c : nat) (rows : list (list num))
    (i_end : nat) (day_data : list num) :
  StockBot.cached_info (StockBot.self w) = StockBot.Offline d →
  StockBot.cached (StockBot.self w) = Some (Arr2 c rows) →
  rows ≠ [] →
  py_index (StockBot.end_date (StockBot.self w)) (StockBot.Dates d) = Ok i_end →
  StockBot.snapshot_row d (StockBot.information_keys (StockBot.self w)) i_end = Ok day_data →
  c = length day_data →
  update_cached_offline w
  = (Ok (),
     StockBot.mkWorld
       (StockBot.set_cached (Some (Arr2 c (tail rows ++ [day_data]))) (StockBot.self w))
       (StockBot.warnings w ++ ["For Testing"])).
Proof.
  destruct w as [s ws]. simpl. intros Hinfo Hcached Hrows Hidx Hrow Hc.
  assert (Hnz : np_len (Arr2 c rows) ≠ 0%nat) by (destruct rows; simpl; [done|lia]).
  unfold StockBot.update_cached_offline, StockBot.advance_offline.
  cbv [StockBot.bind StockBot.warn StockBot.get_self StockBot.lift StockBot.ret
       StockBot.raise StockBot.modify_self StockBot.self StockBot.warnings].
  rewrite Hinfo. cbv [StockBot.not_cached_info]. rewrite Hcached, Hinfo.
  rewrite decide_False by exact Hnz. rewrite Hidx, Hrow.
  unfold np_drop_first_append. by rewrite decide_True by exact Hc.
Qed.

(** The offline update never reads [scaler_data]: with other parameters
    it returns the same and leaves the same window. *)
Lemma update_cached_offline_ignores_scaler_data
    (sc : gmap string StockBot.scaler_entry) (w : StockBot.world) :
  let w_sc := StockBot.mkWorld (StockBot.set_scaler_data sc (StockBot.self w))
                               (StockBot.warnings w) in
  let r := update_cached_offline w in
  let r_sc := update_cached_offline w_sc in
  r_sc.1 = r.1
  ∧ StockBot.cached (StockBot.self r_sc.2) = StockBot.cached (StockBot.self r.2).
Proof.
  destruct w as [[sd ed sym keys nd net scaler c ci] ws]. simpl.
  unfold StockBot.update_cached_offline, StockBot.populate_offline,
    StockBot.advance_offline, StockBot.set_scaler_data.
  cbv [StockBot.bind StockBot.warn StockBot.get_self StockBot.lift StockBot.ret
       StockBot.raise StockBot.modify_self StockBot.self StockBot.warnings
       StockBot.cached_info StockBot.cached StockBot.stock_symbol StockBot.start_date
       StockBot.end_date StockBot.information_keys StockBot.num_days
       StockBot.set_cached StockBot.set_cached_info StockBot.model StockBot.scaler_data].
  destruct ci as [|df|d]; cbv [StockBot.not_cached_info]; [|done|]; cbn.
  - destruct (info_json sym) as [d|]; [|done]; cbn.
    destruct (negb (py_in sd (StockBot.Dates d))); [done|]; cbn.
    destruct (negb (py_in ed (StockBot.Dates d))); [done|]; cbn.
    destruct (py_index ed (StockBot.Dates d)) as [i|e] eqn:Hi; [|done]; cbn.
    destruct (StockBot.snapshot_window _ _ _ _ _) as [cols|e]; [|done]; cbn.
    destruct (np_transpose cols) as [arr|e]; [|done]; cbn.
    destruct (decide (np_len arr = 0%nat)) as [|Hnz]; [done|]; cbn.
    rewrite !decide_False by done. rewrite !Hi.
    destruct (StockBot.snapshot_row _ _ _) as [row|e]; [|done]; cbn.
    destruct (np_drop_first_append arr row); done.
  - destruct c as [arr|]; [|done]; cbn.
    destruct (decide (np_len arr = 0%nat)); [done|]; cbn.
    destruct (py_index ed (StockBot.Dates d)) as [i|e]; [|done]; cbn.
    destruct (StockBot.snapshot_row _ _ _) as [row|e]; [|done]; cbn.
    destruct (np_drop_first_append arr row); done.
Qed.

End CacheFacts.

Lemma update_cached_offline_atomic_witness :
  let w := Examples.world_of Examples.populated_model in
  let r := StockBot.update_cached_offline [] Examples.flat_snapshot w in
  r.1 = Ok ()
  ∧ ∃ day_data,
      StockBot.cached (StockBot.self r.2)
      = Some (Arr2 1 (tail [[Num.of_Z 15]; [Num.of_Z 15]] ++ [day_data]))
      ∧ length (tail [[Num.of_Z 15]; [Num.of_Z 15]] ++ [day_data]) = 2%nat.
Proof.
  intros w r.
  assert (Hr : r.1 = Ok ()) by reflexivity.
  split; [exact Hr|].
  destruct (update_cached_offline_atomic [] Examples.flat_snapshot w
              (Spec.close_snapshot Examples.flat_days) 1
              [[Num.of_Z 15]; [Num.of_Z 15]] eq_refl eq_refl eq_refl) as [Hok _].
  { simpl. lia. }
  destruct (Hok r.2) as (i_end & day_data & _ & _ & Hself & Hlen).
  { reflexivity. }
  exists day_data. split; [by rewrite Hself | exact Hlen].
Defined.

Lemma get_info_today_never_falls_back_witness :
  let w := Examples.world_of Examples.fresh_model in
  (StockBot.get_info_today [] Examples.all_floats Examples.no_flips Examples.no_spikes
     Examples.no_oscillator Examples.no_earnings Examples.no_history Examples.every_day
     Examples.flat_snapshot w).1 = Raise TypeError
  ∧ (StockBot.update_cached_offline [] Examples.flat_snapshot w).1 = Ok ().
Proof.
  intros w. split; [|reflexivity].
  rewrite (get_info_today_never_falls_back [] Examples.all_floats Examples.no_flips
             Examples.no_spikes Examples.no_oscillator Examples.no_earnings
             Examples.no_history Examples.every_day Examples.flat_snapshot w).
  - reflexivity.
  - by_evaluation.
Defined.

(** C1.  One model on ['Close'], stored scaler (min 10, range 10), three
    days at the price 15, window of two days.  The online update, from the
    frame of those days, and the offline update, from their snapshot, both
    succeed; the online window holds 0.5 and the offline window holds 15:
    the offline path does not scale.  With the scaler (min 0, range 1) the
    online window changes and the offline window does not. *)
Theorem online_and_offline_windows_differ :
  let online s :=
    StockBot.update_cached_online [] Examples.all_floats Examples.no_flips
      Examples.no_spikes Examples.no_oscillator Examples.no_earnings
      (Examples.world_of s) in
  let offline s :=
    StockBot.update_cached_offline [] Examples.flat_snapshot (Examples.world_of s) in
  let on1 := online Examples.online_model in
  let off1 := offline Examples.fresh_model in
  let on2 := online (StockBot.set_scaler_data Examples.unit_scaler Examples.online_model) in
  let off2 := offline (StockBot.set_scaler_data Examples.unit_scaler Examples.fresh_model) in
  on1.1 = Ok () ∧ off1.1 = Ok () ∧ on2.1 = Ok () ∧ off2.1 = Ok ()
  ∧ StockBot.cached (StockBot.self on1.2)
    = Some (Arr2 1 [[Finite (Q2Qc 0.5)]; [Finite (Q2Qc 0.5)]])
  ∧ StockBot.cached (StockBot.self off1.2)
    = Some (Arr2 1 [[Num.of_Z 15]; [Num.of_Z 15]])
  ∧ StockBot.cached (StockBot.self on1.2) ≠ StockBot.cached (StockBot.self off1.2)
  ∧ StockBot.cached (StockBot.self on2.2)
    = Some (Arr2 1 [[Num.of_Z 15]; [Num.of_Z 15]])
  ∧ StockBot.cached (StockBot.self off2.2) = StockBot.cached (StockBot.self off1.2).
Proof.
  intros online offline on1 off1 on2 off2.
  do 4 (split; [reflexivity|]).
  repeat split; by_evaluation.
Qed.

(* ================================================================== *)
(** * The offline window: population *)
(* ================================================================== *)

Section PopulationFacts.

Context (excluded_values : list string)
        (info_json : string → option StockBot.snapshot).

Local Abbreviation update_cached_offline :=
  (StockBot.update_cached_offline excluded_values info_json).
Local Abbreviation snapshot_window := (StockBot.snapshot_window excluded_values).

Lemma index_from_present {A} `{EqDecision A} (x : A) (l : list A) (i : nat) :
  x ∈ l → ∃ j, index_from x l i = Ok j.
Proof.
  revert i. induction l as [|y l IH]; intros i Hx; [by apply elem_of_nil in Hx|].
  simpl. case_decide; [by eexists|].
  apply elem_of_cons in Hx as [->|Hx]; [done|]. by apply IH.
Qed.

(** X1.  The first offline update reads [info.json] before it assigns
    anything: with no such file it raises [FileNotFoundError], with a start
    date or an end date that is not among the snapshot's ['Dates'] it
    raises [ValueError], and in both cases the instance is as it was (only
    the warning has been issued). *)
Theorem offline_population_checks_dates (w : StockBot.world) :
  StockBot.cached_info (StockBot.self w) = StockBot.NoInfo →
  let unchanged :=
    StockBot.mkWorld (StockBot.self w) (StockBot.warnings w ++ ["For Testing"]) in
  (info_json (StockBot.stock_symbol (StockBot.self w)) = None →
   update_cached_offline w = (Raise FileNotFoundError, unchanged))
  ∧ (∀ d, info_json (StockBot.stock_symbol (StockBot.self w)) = Some d →
       StockBot.start_date (StockBot.self w) ∉ StockBot.Dates d
       ∨ StockBot.end_date (StockBot.self w) ∉ StockBot.Dates d →
       update_cached_offline w = (Raise ValueError, unchanged)).
Proof.
  destruct w as [s ws]. simpl. intros Hinfo.
  unfold StockBot.update_cached_offline, StockBot.populate_offline.
  cbv [StockBot.bind StockBot.warn StockBot.get_self StockBot.lift StockBot.ret
       StockBot.raise StockBot.modify_self StockBot.self StockBot.warnings].
  rewrite Hinfo. cbv [StockBot.not_cached_info]. split.
  - intros ->. done.
  - intros d -> Hdates.
    destruct (decide (StockBot.start_date s ∈ StockBot.Dates d)) as [Hs|Hs].
    + destruct Hdates as [?|He]; [done|].
      rewrite (py_in_true _ _ Hs), (py_in_false _ _ He). done.
    + rewrite (py_in_false _ _ Hs). done.
Qed.

Lemma snapshot_window_length (d : StockBot.snapshot) (keys : list string)
    (e n : nat) (cols : list (list num)) :
  snapshot_window d keys e n = Ok cols →
  (length cols ≤ length keys)%nat
  ∧ ((∃ k, k ∈ keys ∧ k ∈ excluded_values) → (length cols < length keys)%nat).
Proof.
  revert cols. induction keys as [|k keys IH]; intros cols; simpl.
  - intros [= <-]. split; [done|]. intros (k & Hk & _). by apply elem_of_nil in Hk.
  - unfold has_key. case_bool_decide as Hex.
    + intros Hw. destruct (IH _ Hw) as [Hle _]. split; [lia|]. intros _. lia.
    + destruct (py_dict_get _ k) as [col|]; [|done]. simpl.
      destruct (snapshot_window d keys e n) as [cols'|] eqn:Hw; [|done]. simpl.
      intros [= <-]. destruct (IH _ eq_refl) as [Hle Hlt]. simpl. split; [lia|].
      intros (k' & Hk' & Hex'). apply elem_of_cons in Hk' as [->|Hk']; [done|].
      assert (length cols' < length keys)%nat by (apply Hlt; by exists k'). lia.
Qed.

Lemma snapshot_row_length (d : StockBot.snapshot) (keys : list string)
    (i : nat) (row : list num) :
  StockBot.snapshot_row d keys i = Ok row → length row = length keys.
Proof.
  revert row. induction keys as [|k keys IH]; intros row; simpl.
  - by intros [= <-].
  - destruct (py_dict_get _ k) as [col|]; [|done]. simpl.
    destruct (py_getitem col i) as [v|]; [|done]. simpl.
    destruct (StockBot.snapshot_row d keys i) as [row'|]; [|done]. simpl.
    intros [= <-]. simpl. f_equal. by apply IH.
Qed.

Lemma np_transpose_shape (cols : list (list num)) (arr : ndarray) :
  np_transpose cols = Ok arr →
  (cols = [] ∧ arr = Arr1 []) ∨ ∃ rows, arr = Arr2 (length cols) rows.
Proof.
  unfold np_transpose. destruct cols as [|c0 cols]; [intros [= <-]; by left|].
  destruct (same_lengths _ _); [|done]. intros [= <-]. right. by eexists.
Qed.

(** X2.  A population that produces no row (no key that is not excluded,
    or [num_days = 0]) raises [RuntimeError] only after it has stored the
    empty array and the snapshot in the instance; a second call then
    returns normally and leaves the empty cache in place. *)
Theorem offline_population_empty_window (w : StockBot.world)
    (d : StockBot.snapshot) (e : nat) (cols : list (list num)) (arr : ndarray) :
  StockBot.cached_info (StockBot.self w) = StockBot.NoInfo →
  info_json (StockBot.stock_symbol (StockBot.self w)) = Some d →
  StockBot.start_date (StockBot.self w) ∈ StockBot.Dates d →
  py_index (StockBot.end_date (StockBot.self w)) (StockBot.Dates d) = Ok e →
  snapshot_window d (StockBot.information_keys (StockBot.self w)) e
                  (StockBot.num_days (StockBot.self w)) = Ok cols →
  np_transpose cols = Ok arr →
  np_len arr = 0%nat →
  let stored :=
    StockBot.set_cached_info (StockBot.Offline d)
      (StockBot.set_cached (Some arr) (StockBot.self w)) in
  let w1 := StockBot.mkWorld stored (StockBot.warnings w ++ ["For Testing"]) in
  update_cached_offline w = (Raise RuntimeError, w1)
  ∧ update_cached_offline w1
    = (Ok (), StockBot.mkWorld stored (StockBot.warnings w1 ++ ["For Testing"])).
Proof.
  destruct w as [[sd ed sym keys nd net scaler c ci] ws]. simpl.
  intros -> Hjson Hstart Hidx Hwin Htr Hlen.
  assert (Hend : ed ∈ StockBot.Dates d).
  { destruct (decide (ed ∈ StockBot.Dates d)) as [|Hn]; [done|].
    by rewrite (py_index_absent _ _ Hn) in Hidx. }
  split.
  - unfold StockBot.update_cached_offline, StockBot.populate_offline.
    cbv [StockBot.bind StockBot.warn StockBot.get_self StockBot.lift StockBot.ret
         StockBot.raise StockBot.modify_self StockBot.self StockBot.warnings
         StockBot.cached_info StockBot.cached StockBot.stock_symbol StockBot.start_date
         StockBot.end_date StockBot.information_keys StockBot.num_days
         StockBot.not_cached_info].
    rewrite Hjson, (py_in_true _ _ Hstart), (py_in_true _ _ Hend). cbn.
    rewrite Hidx. cbn. rewrite Hwin. cbn. rewrite Htr. cbn.
    by rewrite decide_True by exact Hlen.
  - by apply update_cached_offline_empty_cache with (d := d) (arr := arr).
Qed.

(** X3.  When one of the information keys is excluded, the first offline
    update cannot succeed: the populated window has one column per key
    that is not excluded, the appended row one value per key, so the row
    never fits the window. *)
Theorem offline_update_fails_with_excluded_key (w : StockBot.world) (k : string) :
  StockBot.cached_info (StockBot.self w) = StockBot.NoInfo →
  k ∈ StockBot.information_keys (StockBot.self w) →
  k ∈ excluded_values →
  ∀ w', update_cached_offline w ≠ (Ok (), w').
Proof.
  destruct w as [[sd ed sym keys nd net scaler c ci] ws]. simpl.
  intros -> Hk Hex w'.
  unfold StockBot.update_cached_offline, StockBot.populate_offline,
    StockBot.advance_offline.
  cbv [StockBot.bind StockBot.warn StockBot.get_self StockBot.lift StockBot.ret
       StockBot.raise StockBot.modify_self StockBot.self StockBot.warnings
       StockBot.cached_info StockBot.cached StockBot.stock_symbol StockBot.start_date
       StockBot.end_date StockBot.information_keys StockBot.num_days
       StockBot.set_cached StockBot.set_cached_info StockBot.model StockBot.scaler_data
       StockBot.not_cached_info].
  destruct (info_json sym) as [d|]; [|done]; cbn.
  destruct (negb (py_in sd (StockBot.Dates d))); [done|]; cbn.
  destruct (negb (py_in ed (StockBot.Dates d))); [done|]; cbn.
  destruct (py_index ed (StockBot.Dates d)) as [i|e] eqn:Hi; [|done]; cbn.
  destruct (snapshot_window d keys i nd) as [cols|e] eqn:Hwin; [|done]; cbn.
  destruct (np_transpose cols) as [arr|e] eqn:Htr; [|done]; cbn.
  destruct (decide (np_len arr = 0%nat)) as [|Hnz]; [done|]; cbn.
  rewrite !decide_False by done. rewrite !Hi.
  destruct (StockBot.snapshot_row d keys i) as [row|e] eqn:Hrow; [|done]; cbn.
  destruct (np_transpose_shape _ _ Htr) as [[_ ->]|[rows ->]]; [done|].
  unfold np_drop_first_append.
  apply snapshot_row_length in Hrow.
  destruct (snapshot_window_length _ _ _ _ _ Hwin) as [_ Hlt].
  rewrite decide_False; [done|].
  rewrite Hrow. assert (length cols < length keys)%nat by (apply Hlt; by exists k). lia.
Qed.

Lemma snapshot_window_all (d : StockBot.snapshot) (keys : list string) (e n : nat) :
  (∀ k, k ∈ keys → (k ∉ excluded_values) ∧ is_Some (StockBot.columns d !! k)) →
  snapshot_window d keys e n
  = Ok ((λ k, py_slice (default [] (StockBot.columns d !! k))
                       (Z.of_nat e - Z.of_nat n) (Z.of_nat e)) <$> keys).
Proof.
  induction keys as [|k keys IH]; intros Hall; [done|]. simpl.
  destruct (Hall k) as [Hex [col Hcol]]; [apply list_elem_of_here|].
  unfold has_key. rewrite bool_decide_eq_false_2 by done.
  unfold py_dict_get. rewrite Hcol. simpl.
  rewrite IH; [done|]. intros k' Hk'. by apply Hall, list_elem_of_further.
Qed.

Lemma snapshot_row_all (d : StockBot.snapshot) (keys : list string) (i : nat) :
  (∀ k, k ∈ keys → ∃ col, StockBot.columns d !! k = Some col ∧ (i < length col)%nat) →
  StockBot.snapshot_row d keys i
  = Ok ((λ k, default NaN (default [] (StockBot.columns d !! k) !! i)) <$> keys).
Proof.
  induction keys as [|k keys IH]; intros Hall; [done|]. simpl.
  destruct (Hall k) as (col & Hcol & Hi); [apply list_elem_of_here|].
  unfold py_dict_get, py_getitem. rewrite Hcol. simpl.
  destruct (lookup_lt_is_Some_2 col i Hi) as [v Hv]. rewrite Hv. simpl.
  rewrite IH; [done|]. intros k' Hk'. by apply Hall, list_elem_of_further.
Qed.

Lemma py_slice_window {A} (l : list A) (e n : nat) :
  (n ≤ e ≤ length l)%nat →
  py_slice l (Z.of_nat e - Z.of_nat n) (Z.of_nat e) = take n (drop (e - n) l).
Proof.
  intros Hb. unfold py_slice, slice_bound.
  destruct (Z.ltb_spec (Z.of_nat e - Z.of_nat n) 0); [lia|].
  destruct (Z.ltb_spec (Z.of_nat e) 0); [lia|].
  f_equal; [lia|]. f_equal. lia.
Qed.

(** X4.  The first offline update on a snapshot that has, under every
    information key, a value for the end date and for the [num_days] days
    before it: the call succeeds and leaves a window of [num_days] rows,
    one column per key, whose rows are the snapshot rows of the
    [num_days - 1] days before the end date followed by the row of the
    end date itself. *)
Theorem offline_first_window (w : StockBot.world) (d : StockBot.snapshot) (e : nat) :
  let s := StockBot.self w in
  StockBot.cached_info s = StockBot.NoInfo →
  info_json (StockBot.stock_symbol s) = Some d →
  StockBot.start_date s ∈ StockBot.Dates d →
  py_index (StockBot.end_date s) (StockBot.Dates d) = Ok e →
  StockBot.information_keys s ≠ [] →
  (∀ k, k ∈ StockBot.information_keys s →
     (k ∉ excluded_values)
     ∧ ∃ col, StockBot.columns d !! k = Some col ∧ (e < length col)%nat) →
  (1 ≤ StockBot.num_days s ≤ e)%nat →
  ∃ rows,
    update_cached_offline w
    = (Ok (),
       StockBot.mkWorld
         (StockBot.set_cached
            (Some (Arr2 (length (StockBot.information_keys s)) rows))
            (StockBot.set_cached_info (StockBot.Offline d) s))
         (StockBot.warnings w ++ ["For Testing"]))
    ∧ length rows = StockBot.num_days s
    ∧ ∀ j, (j < StockBot.num_days s)%nat →
        ∃ row, StockBot.snapshot_row d (StockBot.information_keys s)
                 (e - StockBot.num_days s + 1 + j) = Ok row
               ∧ rows !! j = Some row.
Proof.
  destruct w as [[sd ed sym keys nd net scaler c ci] ws]. simpl.
  intros -> Hjson Hstart Hidx Hkeys Hall Hnd.
  assert (Hend : ed ∈ StockBot.Dates d).
  { destruct (decide (ed ∈ StockBot.Dates d)) as [|Hn]; [done|].
    by rewrite (py_index_absent _ _ Hn) in Hidx. }
  set (col_of := λ k, default [] (StockBot.columns d !! k)).
  set (row_of := λ i, (λ k, default NaN (col_of k !! i)) <$> keys).
  assert (Hrow : ∀ i, (i ≤ e)%nat → StockBot.snapshot_row d keys i = Ok (row_of i)).
  { intros i Hi. apply snapshot_row_all. intros k Hk.
    destruct (Hall k Hk) as (_ & col & Hcol & Hlen). exists col. split; [done|lia]. }
  assert (Hwin : snapshot_window d keys e nd
                 = Ok ((λ k, take nd (drop (e - nd) (col_of k))) <$> keys)).
  { rewrite snapshot_window_all.
    - f_equal. apply Forall_fmap_ext_1, list.Forall_forall. intros k Hk.
      apply py_slice_window.
      destruct (Hall k Hk) as (_ & col & Hcol & Hlen).
      unfold col_of. rewrite Hcol. simpl. lia.
    - intros k Hk. destruct (Hall k Hk) as (Hex & col & Hcol & _).
      split; [done|]. by exists col. }
  set (cols := (λ k, take nd (drop (e - nd) (col_of k))) <$> keys) in *.
  assert (Hlens : ∀ col, col ∈ cols → length col = nd).
  { intros col Hcol. unfold cols in Hcol. apply list_elem_of_fmap in Hcol as (k & -> & Hk).
    destruct (Hall k Hk) as (_ & col & Hcol & Hlen).
    rewrite length_take, length_drop. unfold col_of. rewrite Hcol. simpl. lia. }
  set (R := (λ i, (λ c, default NaN (c !! i)) <$> cols) <$> seq 0 nd).
  assert (Htr : np_transpose cols = Ok (Arr2 (length keys) R)).
  { unfold np_transpose. destruct cols as [|c0 cols'] eqn:Hc.
    - destruct keys; [done|discriminate].
    - assert (Hc0 : length c0 = nd) by (apply Hlens, list_elem_of_here).
      replace (same_lengths (length c0) (c0 :: cols')) with true.
      + rewrite Hc0. f_equal. f_equal.
        rewrite <- Hc. unfold cols. by rewrite length_fmap.
      + symmetry. unfold same_lengths. apply forallb_forall. intros c' Hc'.
        apply Nat.eqb_eq. rewrite Hc0. apply Hlens. by apply list_elem_of_In. }
  assert (HR : ∀ i, (i < nd)%nat → R !! i = Some (row_of (e - nd + i)%nat)).
  { intros i Hi. unfold R. rewrite list_lookup_fmap, lookup_seq_lt by done. simpl.
    f_equal. unfold cols, row_of. rewrite <- list_fmap_compose.
    apply Forall_fmap_ext_1, list.Forall_forall. intros k Hk. simpl.
    rewrite lookup_take_lt by done. by rewrite lookup_drop. }
  assert (HRlen : length R = nd) by (unfold R; by rewrite length_fmap, length_seq).
  exists (tail R ++ [row_of e]). split; [|split].
  - unfold StockBot.update_cached_offline, StockBot.populate_offline,
      StockBot.advance_offline.
    cbv [StockBot.bind StockBot.warn StockBot.get_self StockBot.lift StockBot.ret
         StockBot.raise StockBot.modify_self StockBot.self StockBot.warnings
         StockBot.cached_info StockBot.cached StockBot.stock_symbol StockBot.start_date
         StockBot.end_date StockBot.information_keys StockBot.num_days
         StockBot.set_cached StockBot.set_cached_info StockBot.model
         StockBot.scaler_data StockBot.not_cached_info].
    rewrite Hjson, (py_in_true _ _ Hstart), (py_in_true _ _ Hend). cbn.
    rewrite Hidx. cbn. rewrite Hwin. cbn. rewrite Htr. cbn.
    rewrite decide_False by (rewrite HRlen; lia). cbn.
    rewrite decide_False by (rewrite HRlen; lia).
    rewrite Hidx. cbn. rewrite (Hrow e) by lia. cbn.
    rewrite decide_True; [done|]. unfold row_of. by rewrite length_fmap.
  - rewrite length_app. simpl. destruct R; simpl in *; lia.
  - intros j Hj. exists (row_of (e - nd + 1 + j)%nat). split; [apply Hrow; lia|].
    destruct (decide (j < nd - 1)%nat) as [Hlt|Hge].
    + rewrite lookup_app_l by (destruct R; simpl in *; lia).
      rewrite lookup_tail, HR by lia. do 2 f_equal. lia.
    + rewrite lookup_app_r by (destruct R; simpl in *; lia).
      replace (j - length (tail R))%nat with 0%nat by (destruct R; simpl in *; lia).
      simpl. do 2 f_equal. lia.
Qed.

End PopulationFacts.

(* ================================================================== *)
(** * Acquisition: the frame, the online window, predict without info *)
(* ================================================================== *)

Section AcquisitionFacts.

Context (excluded_values : list string) (is_floats : colval → bool)
        (process_flips : Series → Series → list num)
        (get_liquidity_spikes : Series → option bool → option num → Series)
        (calculate_momentum_oscillator : Series → Series)
        (get_earnings_history : string → list pydate * list num)
        (yf_history : string → Z → Z → DataFrame)
        (nyse_schedule : Z → Z → list Z)
        (info_json : string → option StockBot.snapshot).

Local Abbreviation get_info_today :=
  (StockBot.get_info_today excluded_values is_floats process_flips get_liquidity_spikes
     calculate_momentum_oscillator get_earnings_history yf_history nyse_schedule info_json).
Local Abbreviation predict :=
  (StockBot.predict excluded_values is_floats process_flips get_liquidity_spikes
     calculate_momentum_oscillator get_earnings_history yf_history nyse_schedule info_json).
Local Abbreviation update_cached_info_online :=
  (StockBot.update_cached_info_online yf_history).
Local Abbreviation update_cached_online :=
  (StockBot.update_cached_online excluded_values is_floats process_flips
     get_liquidity_spikes calculate_momentum_oscillator get_earnings_history).

(** [get_info_today] in full: [None] on a day that is not in the NYSE
    schedule, [TypeError] on a trading day; the instance is untouched. *)
Lemma get_info_today_outcome (w : StockBot.world) :
  let s := StockBot.self w in
  let trading :=
    py_in (StockBot.end_date s)
          (nyse_schedule (StockBot.end_date s - 1)%Z (StockBot.end_date s + 2)%Z) in
  get_info_today w
  = (if trading then Raise TypeError else Ok None,
     StockBot.mkWorld s
       (StockBot.warnings w
        ++ ["It is better to do this in your own code so online and offline are split"])).
Proof.
  destruct w as [s ws]. simpl.
  unfold StockBot.get_info_today, StockBot.bind at 1. simpl.
  unfold StockBot.bind at 1. simpl.
  destruct (py_in _ _); simpl; [|done].
  unfold StockBot.bind at 1, StockBot.try_except.
  rewrite online_attempt_type_error. simpl. reflexivity.
Qed.

(** X5.  [predict()] without [info] never returns a prediction, model or
    no model: on a day outside the NYSE schedule [get_info_today] returns
    [None] and [predict] raises [RuntimeError]; on a trading day the
    [TypeError] of [get_info_today] passes through.  Either way the only
    trace is the warning of [get_info_today]. *)
Theorem predict_without_info_never_predicts (w : StockBot.world) :
  let s := StockBot.self w in
  let trading :=
    py_in (StockBot.end_date s)
          (nyse_schedule (StockBot.end_date s - 1)%Z (StockBot.end_date s + 2)%Z) in
  predict None w
  = (Raise (if trading then TypeError else RuntimeError),
     StockBot.mkWorld s
       (StockBot.warnings w
        ++ ["It is better to do this in your own code so online and offline are split"])).
Proof.
  simpl. unfold StockBot.predict, StockBot.bind at 1.
  unfold StockBot.call_method. rewrite decide_True by done.
  rewrite get_info_today_outcome. simpl.
  by destruct (py_in _ _).
Qed.

Lemma filter_ne_notin (df : list bar) (t : Z) :
  t ∉ bar_date <$> df → filter (λ b, bar_date b ≠ t) df = df.
Proof.
  induction df as [|b df IH]; [done|]. rewrite fmap_cons. intros Hn.
  apply not_elem_of_cons in Hn as [Hne Hn].
  rewrite filter_cons_True by done. f_equal. by apply IH.
Qed.

(** X6.  The rolling fetch of [update_cached_info_online].  With a frame
    in [cached_info] whose dates are distinct, a day fetch that returns
    rows yields the old frame without its first row followed by the
    fetched rows (so one fetched row keeps the length); a fetch that
    returns nothing raises [ConnectionError].  The method itself assigns
    nothing. *)
Theorem online_info_rolls_one_day (w : StockBot.world) (b0 : bar) (df : DataFrame) :
  let s := StockBot.self w in
  let day_info := yf_history (StockBot.stock_symbol s)
                    (StockBot.end_date s - 1)%Z (StockBot.end_date s) in
  StockBot.cached_info s = StockBot.Frame (b0 :: df) →
  NoDup (bar_date <$> b0 :: df) →
  (day_info = [] → update_cached_info_online w = (Raise ConnectionError, w))
  ∧ (day_info ≠ [] →
     update_cached_info_online w = (Ok (StockBot.Frame (df ++ day_info)), w)
     ∧ length (df ++ day_info) = (length (b0 :: df) - 1 + length day_info)%nat).
Proof.
  destruct w as [s ws]. simpl. intros Hinfo Hnd.
  unfold StockBot.update_cached_info_online.
  cbv [StockBot.bind StockBot.get_self StockBot.lift StockBot.ret StockBot.raise
       StockBot.self].
  rewrite Hinfo. split.
  - intros ->. done.
  - intros Hne. rewrite decide_False by (by destruct (yf_history _ _ _)).
    split; [|rewrite length_app; simpl; lia].
    unfold StockBot.drop_first_label, DataFrame.
    rewrite filter_cons_False by (intros H; by apply H).
    rewrite ?fmap_cons in Hnd. apply list.NoDup_cons in Hnd as [Hn _].
    by rewrite filter_ne_notin.
Qed.

End AcquisitionFacts.

(* ================================================================== *)
(** * The scaling loop: what it needs and what it preserves *)
(* ================================================================== *)

Section ScalingNeeds.

Context (excluded_values : list string)
        (process_flips : Series → Series → list num)
        (get_liquidity_spikes : Series → option bool → option num → Series)
        (calculate_momentum_oscillator : Series → Series)
        (get_earnings_history : string → list pydate * list num).

Local Abbreviation indicators_past_num_days :=
  (StockBot.indicators_past_num_days excluded_values process_flips get_liquidity_spikes
     calculate_momentum_oscillator get_earnings_history).
Local Abbreviation unscaled_indicators :=
  (StockBot.unscaled_indicators process_flips get_liquidity_spikes
     calculate_momentum_oscillator).

(** A loop that ends normally found, for every requested key that is not
    excluded, a scaler entry and a column. *)
Lemma scale_columns_needs (scaler_data : gmap string StockBot.scaler_entry)
    (keys : list string) :
  ∀ sd0 sd, StockBot.scale_columns excluded_values scaler_data keys sd0 = Ok sd →
    ∀ k, k ∈ keys → k ∉ excluded_values →
      is_Some (scaler_data !! k) ∧ is_Some (sd0 !! k).
Proof.
  induction keys as [|k0 keys IH]; intros sd0 sd Hrun k Hk Hex.
  - by apply elem_of_nil in Hk.
  - rewrite scale_columns_cons in Hrun.
    destruct (StockBot.scale_column excluded_values scaler_data sd0 k0) as [sd1|e] eqn:H0;
      [|done].
    destruct (decide (k = k0)) as [->|Hne].
    + destruct (scale_column_self _ _ _ _ _ H0 Hex) as (e & s & He & Hs & _).
      split; by eexists.
    + apply elem_of_cons in Hk as [?|Hk]; [done|].
      destruct (IH sd1 sd Hrun k Hk Hex) as [Hsc Hsd]. split; [done|].
      by rewrite <- (scale_column_other _ _ _ _ _ _ H0 (not_eq_sym Hne)).
Qed.

Lemma unscaled_indicators_unassigned (keys : list string) (df : DataFrame)
    (num_days : nat) (k : string) :
  k ∉ Classes.assigned_keys → unscaled_indicators keys df num_days !! k = None.
Proof.
  intros Hk. unfold Classes.assigned_keys in Hk.
  repeat (apply not_elem_of_cons in Hk as [? Hk]).
  unfold StockBot.unscaled_indicators.
  repeat (rewrite lookup_put_if_ne by done).
  rewrite lookup_insert_ne by done. apply lookup_empty.
Qed.

(** X7.  [indicators_past_num_days] cannot return when one requested key
    that is not excluded has no entry in [scaler_data], or is not a key the
    method assigns (['Bollinger Middle'] of [BreakoutModel], say): the
    scaling loop looks both up and raises. *)
Theorem indicators_need_scaler_and_assigned_key (symbol : string) (end_date : Z)
    (keys : list string) (scaler_data : gmap string StockBot.scaler_entry)
    (df : DataFrame) (num_days : nat) (k : string) :
  k ∈ keys → k ∉ excluded_values →
  scaler_data !! k = None ∨ k ∉ Classes.assigned_keys →
  ∀ sd, indicators_past_num_days symbol end_date keys scaler_data df num_days ≠ Ok sd.
Proof.
  intros Hk Hex Hwhy sd Hrun. unfold StockBot.indicators_past_num_days in Hrun.
  destruct Hwhy as [Hsc|Hun].
  - destruct (has_key "earning diffs" keys).
    + destruct (StockBot.earning_diffs _ _ _ _ _) as [l|e]; [|done]. simpl in Hrun.
      destruct (scale_columns_needs _ _ _ _ Hrun k Hk Hex) as [[e He] _]. congruence.
    + simpl in Hrun.
      destruct (scale_columns_needs _ _ _ _ Hrun k Hk Hex) as [[e He] _]. congruence.
  - pose proof (unscaled_indicators_unassigned keys df num_days k Hun) as Hnone.
    assert (Hne1 : k ≠ "earning diffs").
    { intros ->. apply Hun. unfold Classes.assigned_keys.
      apply (bool_decide_unpack _). by vm_compute. }
    assert (Hne2 : k ≠ "earnings dates").
    { intros ->. apply Hun. unfold Classes.assigned_keys.
      apply (bool_decide_unpack _). by vm_compute. }
    destruct (has_key "earning diffs" keys).
    + destruct (StockBot.earning_diffs _ _ _ _ _) as [l|e]; [|done]. simpl in Hrun.
      destruct (scale_columns_needs _ _ _ _ Hrun k Hk Hex) as [_ [c Hc]].
      rewrite !lookup_insert_ne in Hc by done. congruence.
    + simpl in Hrun.
      destruct (scale_columns_needs _ _ _ _ Hrun k Hk Hex) as [_ [c Hc]]. congruence.
Qed.

Lemma div_zero_not_finite (a : num) (q : Qc) : (a / Finite 0)%num ≠ Finite q.
Proof.
  destruct a as [y| | |]; unfold Num.div; [|by case_decide..|done].
  case_decide; [by destruct (y ?= 0)|done].
Qed.

(** X9.  A zero range in [scaler_data] is not an error for the scaling
    loop: the column is scaled without any exception, and no value of the
    scaled column is a finite number (each is NaN or an infinity). *)
Theorem zero_range_scales_to_non_finite
    (scaler_data : gmap string StockBot.scaler_entry)
    (stock_data : gmap string colval) (column : string)
    (e : StockBot.scaler_entry) (s : Series) :
  column ∉ excluded_values →
  scaler_data !! column = Some e →
  StockBot.s_diff e = Finite 0 →
  stock_data !! column = Some (ColSeries s) →
  ∃ s', StockBot.scale_column excluded_values scaler_data stock_data column
        = Ok (<[column := ColSeries s']> stock_data)
        ∧ slen s' = slen s
        ∧ ∀ v q, v ∈ svals s' → v ≠ Finite q.
Proof.
  intros Hex He Hd Hs. eexists. split; [by apply scale_column_series|].
  split; [unfold slen; simpl; by rewrite length_fmap|].
  simpl. intros v q Hv. apply list_elem_of_fmap in Hv as (x & -> & _).
  rewrite Hd. unfold scale_value. apply div_zero_not_finite.
Qed.

End ScalingNeeds.

(* ================================================================== *)
(** * The online window of a model on ['Close'] *)
(* ================================================================== *)

Section OnlineWindow.

Context (excluded_values : list string) (is_floats : colval → bool)
        (process_flips : Series → Series → list num)
        (get_liquidity_spikes : Series → option bool → option num → Series)
        (calculate_momentum_oscillator : Series → Series)
        (get_earnings_history : string → list pydate * list num).

Local Abbreviation update_cached_online :=
  (StockBot.update_cached_online excluded_values is_floats process_flips
     get_liquidity_spikes calculate_momentum_oscillator get_earnings_history).
Local Abbreviation unscaled_indicators :=
  (StockBot.unscaled_indicators process_flips get_liquidity_spikes
     calculate_momentum_oscillator).

Lemma put_if_absent (keys : list string) (k : string) (v : colval)
    (sd : gmap string colval) :
  k ∉ keys → StockBot.put_if keys k v sd = sd.
Proof.
  intros Hk. unfold StockBot.put_if, has_key. by rewrite bool_decide_eq_false_2.
Qed.

Lemma unscaled_indicators_close (df : DataFrame) (num_days : nat) :
  unscaled_indicators ["Close"] df num_days
  = <["Close" := ColSeries (iloc_tail num_days (close_series df))]> ∅.
Proof.
  unfold StockBot.unscaled_indicators.
  by rewrite !put_if_absent by (apply (bool_decide_unpack _); by vm_compute).
Qed.

(** One column transposes to one row per value. *)
Lemma np_transpose_one_column (vals : list num) :
  np_transpose [vals] = Ok (Arr2 1 ((λ v, [v]) <$> vals)).
Proof.
  unfold np_transpose, same_lengths. simpl. rewrite Nat.eqb_refl. simpl.
  do 2 f_equal. apply list_eq. intros i. rewrite !list_lookup_fmap.
  destruct (decide (i < length vals)%nat) as [Hi|Hi].
  - rewrite lookup_seq_lt by done. simpl.
    destruct (lookup_lt_is_Some_2 vals i Hi) as [v Hv]. by rewrite Hv.
  - rewrite lookup_seq_ge by lia. by rewrite lookup_ge_None_2 by lia.
Qed.

(** X8.  [update_cached_online] for the keys of [DayTradeModel]: with a
    frame in [cached_info] and a scaler entry for ['Close'], the window is
    the Close of the last [num_days] rows of the frame (of every row when
    [num_days] is 0 or exceeds the frame), one row per day, each value
    scaled as [(close - min) / diff]; nothing else changes. *)
Theorem online_window_of_close (w : StockBot.world) (df : DataFrame)
    (e : StockBot.scaler_entry) :
  let s := StockBot.self w in
  StockBot.cached_info s = StockBot.Frame df →
  StockBot.information_keys s = ["Close"] →
  "Close" ∉ excluded_values →
  StockBot.scaler_data s !! "Close" = Some e →
  (∀ column, is_floats (ColSeries column) = true) →
  update_cached_online w
  = (Ok (),
     StockBot.mkWorld
       (StockBot.set_cached
          (Some (Arr2 1
             ((λ close, [scale_value (StockBot.s_min e) (StockBot.s_diff e) (Finite close)])
              <$> drop (tail_offset (StockBot.num_days s) (length df)) (col_close df))))
          s)
       (StockBot.warnings w)).
Proof.
  destruct w as [[sd ed sym keys nd net scaler c ci] ws]. simpl.
  intros -> -> Hex He Hfl.
  unfold StockBot.update_cached_online, StockBot.indicators_past_num_days.
  cbv [StockBot.bind StockBot.get_self StockBot.lift StockBot.ret StockBot.raise
       StockBot.modify_self StockBot.self StockBot.warnings
       StockBot.cached_info StockBot.stock_symbol StockBot.end_date
       StockBot.information_keys StockBot.num_days StockBot.scaler_data].
  rewrite unscaled_indicators_close.
  replace (has_key "earning diffs" ["Close"]) with false by (by vm_compute).
  cbn [mbind result_bind rbind].
  rewrite scale_columns_cons.
  rewrite (scale_column_series _ _ _ _ e (iloc_tail nd (close_series df)) Hex He)
    by apply lookup_insert_eq.
  unfold StockBot.scale_columns. cbn [foldl].
  cbn [StockBot.float_columns]. unfold py_dict_get at 1.
  rewrite lookup_insert_eq. cbn [mbind result_bind rbind mret result_ret].
  rewrite Hfl. cbn [col_values svals].
  rewrite np_transpose_one_column. unfold StockBot.set_cached. simpl.
  do 5 f_equal.
  rewrite iloc_tail_unfold, slen_close_series. simpl.
  rewrite <- fmap_drop, <- list_fmap_compose. rewrite <- !list_fmap_compose. done.
Qed.

End OnlineWindow.

(* ================================================================== *)
(** * Models.py: what getInfoToday can return *)
(* ================================================================== *)

Section LegacyOutputs.

Context (process_flips : Series → Series → list num)
        (get_liquidity_spikes : Series → option bool → option num → Series)
        (calculate_momentum_oscillator : Series → Series)
        (get_earnings_history : string → list pydate * list num).

Local Abbreviation getInfoToday :=
  (ModelsPy.getInfoToday process_flips get_liquidity_spikes calculate_momentum_oscillator
                         get_earnings_history).
Local Abbreviation getInfoToday_body :=
  (ModelsPy.getInfoToday_body process_flips get_liquidity_spikes
                              calculate_momentum_oscillator get_earnings_history).
Local Abbreviation legacy_unscaled :=
  (ModelsPy.unscaled_indicators process_flips get_liquidity_spikes
                                calculate_momentum_oscillator).

Lemma legacy_scale_columns_raise (data : option (gmap string (list Qc)))
    (keys : list string) (e : exn) :
  foldl (λ acc column, sd ← acc; ModelsPy.scale_column data sd column) (Raise e) keys
  = Raise e.
Proof. induction keys as [|k keys IH]; simpl; [done | exact IH]. Qed.

Lemma legacy_scale_columns_cons (data : option (gmap string (list Qc)))
    (k : string) (keys : list string) (sd : gmap string colval) :
  ModelsPy.scale_columns data (k :: keys) sd
  = match ModelsPy.scale_column data sd k with
    | Ok sd1 => ModelsPy.scale_columns data keys sd1
    | Raise e => Raise e
    end.
Proof.
  unfold ModelsPy.scale_columns. simpl.
  destruct (ModelsPy.scale_column data sd k) as [sd1|e]; simpl; [done|].
  apply legacy_scale_columns_raise.
Qed.

(** One pass of the older scaling loop: every entry is as it was, except
    the column of the pass when it is not excluded, which is a Series
    again, of the same length. *)
Lemma legacy_scale_column_effect (data : option (gmap string (list Qc)))
    (sd sd1 : gmap string colval) (k k' : string) :
  ModelsPy.scale_column data sd k = Ok sd1 →
  sd1 !! k' = sd !! k'
  ∨ (k' = k ∧ (k ∉ ModelsPy.excluded_values)
     ∧ ∃ s s1, sd !! k = Some (ColSeries s) ∧ sd1 !! k = Some (ColSeries s1)
               ∧ slen s1 = slen s).
Proof.
  unfold ModelsPy.scale_column, has_key. case_bool_decide as Hex.
  - intros [= <-]. by left.
  - destruct data as [d|]; [|done].
    destruct (py_dict_get d k) as [training|]; [|done]. simpl.
    destruct (py_min training) as [lo|]; [|done]. simpl.
    destruct (py_max training) as [hi|]; [|done]. simpl.
    unfold py_dict_get. destruct (sd !! k) as [[s|l]|] eqn:Hs; simpl; [|done..].
    intros [= <-]. destruct (decide (k' = k)) as [->|Hne].
    + right. split; [done|]. split; [done|]. eexists _, _.
      split; [done|]. split; [apply lookup_insert_eq|].
      unfold slen. by rewrite scale_series_values, length_fmap.
    + left. by rewrite lookup_insert_ne.
Qed.

Lemma legacy_scale_columns_effect (data : option (gmap string (list Qc)))
    (keys : list string) :
  ∀ sd0 sd, ModelsPy.scale_columns data keys sd0 = Ok sd →
    ∀ k,
      (k ∈ ModelsPy.excluded_values → sd !! k = sd0 !! k)
      ∧ (∀ s0, sd0 !! k = Some (ColSeries s0) →
           ∃ s, sd !! k = Some (ColSeries s) ∧ slen s = slen s0).
Proof.
  induction keys as [|k0 keys IH]; intros sd0 sd Hrun k.
  - injection Hrun as <-. split; [done|]. intros s0 Hs0. by exists s0.
  - rewrite legacy_scale_columns_cons in Hrun.
    destruct (ModelsPy.scale_column data sd0 k0) as [sd1|e] eqn:H0; [|done].
    destruct (IH sd1 sd Hrun k) as [IHex IHlen].
    destruct (legacy_scale_column_effect _ _ _ _ k H0)
      as [Hsame|(-> & Hnex & s & s1 & Hs & Hs1 & Hlen)].
    + split.
      * intros Hex. by rewrite IHex, Hsame.
      * intros s0 Hs0. apply IHlen. by rewrite Hsame.
    + split; [done|].
      intros s0 Hs0. rewrite Hs in Hs0. injection Hs0 as <-.
      destruct (IHlen s1 Hs1) as (s' & Hs' & Hlen'). exists s'.
      split; [done|]. by rewrite Hlen'.
Qed.

Lemma values_tolist_lookup (sd : gmap string colval) (keys : list string) :
  ∀ out, ModelsPy.values_tolist sd keys = Ok out →
    ∀ i k, keys !! i = Some k →
      ∃ s, sd !! k = Some (ColSeries s) ∧ out !! i = Some (svals s).
Proof.
  induction keys as [|k0 keys IH]; intros out Hrun i k Hi; [done|].
  simpl in Hrun. unfold py_dict_get in Hrun.
  destruct (sd !! k0) as [[s|l]|] eqn:Hs; simpl in Hrun; [|done..].
  destruct (ModelsPy.values_tolist sd keys) as [cols|] eqn:Hcols; [|done].
  injection Hrun as <-. destruct i as [|i].
  - injection Hi as <-. by exists s.
  - simpl in Hi. by apply (IH cols eq_refl i k).
Qed.

(** X12.  [getInfoToday] of [src/Models.py] cannot return for a model
    whose information keys include ['earnings diff'] or ['earnings dates']
    ([EarningsModel] has both): the first is a Python list, which has no
    [.values], and the second is never put in [stock_data]. *)
Theorem legacy_earnings_keys_never_return
    (yf : option (string → Z → Z → DataFrame)) (period : nat)
    (s : ModelsPy.BaseModel) (k : string) :
  k ∈ ModelsPy.information_keys s →
  k = "earnings diff" ∨ k = "earnings dates" →
  ∀ out, getInfoToday yf period s ≠ Ok out.
Proof.
  intros Hk Hwhich out. unfold ModelsPy.getInfoToday.
  destruct yf as [history|]; [|done].
  destruct (ModelsPy.cached s); [done|].
  unfold ModelsPy.getInfoToday_body.
  destruct (ModelsPy.earnings_diff_column _ _ _) as [earnings|]; [|done].
  cbn [mbind result_bind rbind].
  destruct (ModelsPy.scale_columns _ _ _) as [sd|] eqn:Hsc; [|done].
  cbn [mbind result_bind rbind].
  intros Hout.
  apply list_elem_of_lookup in Hk as [i Hi].
  destruct (values_tolist_lookup _ _ _ Hout i k Hi) as (col & Hcol & _).
  destruct (legacy_scale_columns_effect _ _ _ _ Hsc k) as [Hex _].
  rewrite Hex in Hcol.
  - destruct Hwhich as [-> | ->].
    + by rewrite lookup_insert_eq in Hcol.
    + unfold ModelsPy.unscaled_indicators in Hcol.
      by rewrite !lookup_insert_ne in Hcol by done.
  - unfold ModelsPy.excluded_values.
    destruct Hwhich as [-> | ->]; apply (bool_decide_unpack _); by vm_compute.
Qed.

(** The labels of a series of the window: the last 60 of the frame. *)
Local Abbreviation in_window df s :=
  (sstart s = tail_offset 60 (length df)
   ∧ slen s = Nat.sub (length df) (tail_offset 60 (length df))).

Lemma in_window_iloc_tail (df : DataFrame) (s : Series) :
  sstart s = 0%nat → slen s = length df → in_window df (iloc_tail 60 s).
Proof. intros Hs Hl. rewrite sstart_iloc_tail, slen_iloc_tail, Hs, Hl. done. Qed.

Lemma in_window_iloc_tail_again (df : DataFrame) (s : Series) :
  in_window df s → in_window df (iloc_tail 60 s).
Proof.
  intros [Hs Hl]. rewrite iloc_tail_small; [done|]. rewrite Hl. apply tail_offset_twice.
Qed.

Lemma in_window_rolling (df : DataFrame) (agg : list num → num) (w : nat) (s : Series) :
  in_window df s → in_window df (rolling agg w s).
Proof. intros [Hs Hl]. by rewrite slen_rolling. Qed.

Lemma in_window_smap (df : DataFrame) (f : num → num) (s : Series) :
  in_window df s → in_window df (smap f s).
Proof. intros [Hs Hl]. by rewrite slen_smap. Qed.

Lemma in_window_binop (df : DataFrame) (f : num → num → num) (a b : Series) :
  in_window df a → in_window df b → in_window df (binop f a b).
Proof.
  intros [Hsa Hla] [Hsb Hlb].
  rewrite binop_same_labels by congruence. cbn [sstart]. split; [done|].
  unfold slen in *. cbn [svals]. rewrite length_zip_with. lia.
Qed.

Lemma ewm_series_labels (span : Z) (df : DataFrame) :
  sstart (ewm_series span df) = 0%nat ∧ slen (ewm_series span df) = length df.
Proof.
  unfold ewm_series, of_list, slen, col_close. simpl.
  by rewrite length_fmap, length_ewm_mean, length_fmap.
Qed.

Lemma legacy_change_in_window (df : DataFrame) : in_window df (ModelsPy.change_series df).
Proof.
  apply in_window_iloc_tail; [done|]. by rewrite slen_diff, slen_close_series.
Qed.

Lemma legacy_macd_in_window (df : DataFrame) : in_window df (ModelsPy.macd_series df).
Proof.
  apply in_window_binop; apply in_window_iloc_tail; apply ewm_series_labels.
Qed.

Lemma legacy_columns_in_window (period : nat) (df : DataFrame) :
  in_window df (ModelsPy.macd_series df)
  ∧ in_window df (ModelsPy.histogram_series df)
  ∧ in_window df (iloc_tail 60 (ewm_series 200 df))
  ∧ in_window df (ModelsPy.change_series df)
  ∧ in_window df (ModelsPy.momentum_series df)
  ∧ in_window df (ModelsPy.rsi_series df)
  ∧ in_window df (ModelsPy.trama_series period df).
Proof.
  pose proof (legacy_change_in_window df) as Hch.
  pose proof (legacy_macd_in_window df) as Hmacd.
  split; [done|]. split; [|split; [|split; [done|split; [|split]]]].
  - apply in_window_binop; [done|].
    by apply in_window_iloc_tail_again, in_window_rolling.
  - apply in_window_iloc_tail; apply ewm_series_labels.
  - by apply in_window_iloc_tail_again, in_window_rolling.
  - apply in_window_smap, in_window_binop;
      by apply in_window_iloc_tail_again, in_window_rolling, in_window_smap.
  - apply in_window_binop.
    + apply in_window_iloc_tail; [done|].
      unfold rolling_mean. by rewrite slen_rolling, slen_close_series.
    + apply in_window_smap, in_window_iloc_tail; [done|].
      by rewrite slen_smap, slen_diff, slen_close_series.
Qed.

(** X13.  The lists [getInfoToday] of [src/Models.py] returns are not of
    one length: ['Close'] is the whole fetched history, while MACD,
    Histogram, the 200-day EMA, Change, Momentum, RSI and TRAMA are cut to
    the last 60 rows.  On a history of more than 60 rows the output is
    ragged. *)
Theorem legacy_close_is_not_cut
    (history : string → Z → Z → DataFrame) (period : nat)
    (s : ModelsPy.BaseModel) (out : list (list num)) (i j : nat) (k : string) :
  let df := history (ModelsPy.stock_symbol s)
              (ModelsPy.end_date s - 260)%Z (ModelsPy.end_date s) in
  getInfoToday (Some history) period s = Ok out →
  ModelsPy.information_keys s !! i = Some "Close" →
  ModelsPy.information_keys s !! j = Some k →
  k ∈ ["MACD"; "Histogram"; "200-day EMA"; "Change"; "Momentum"; "RSI"; "TRAMA"] →
  ∃ close other,
    out !! i = Some close ∧ out !! j = Some other
    ∧ length close = length df
    ∧ length other = Nat.min 60 (length df).
Proof.
  intros df. unfold ModelsPy.getInfoToday.
  destruct (ModelsPy.cached s); [done|]. fold df.
  unfold ModelsPy.getInfoToday_body.
  destruct (ModelsPy.earnings_diff_column _ _ _) as [earnings|]; [|done].
  cbn [mbind result_bind rbind].
  destruct (ModelsPy.scale_columns _ _ _) as [sd|] eqn:Hsc; [|done].
  cbn [mbind result_bind rbind].
  intros Hout Hi Hj Hk.
  destruct (values_tolist_lookup _ _ _ Hout i "Close" Hi) as (c & Hc & Hci).
  destruct (values_tolist_lookup _ _ _ Hout j k Hj) as (o & Ho & Hoj).
  exists (svals c), (svals o). split; [done|]. split; [done|].
  assert (Hwin : ∀ key s0,
    (<["earnings diff" := ColList earnings]> (legacy_unscaled (ModelsPy.num_days s) period df))
      !! key = Some (ColSeries s0) →
    ∃ s1, sd !! key = Some (ColSeries s1) ∧ slen s1 = slen s0).
  { intros key s0. apply (legacy_scale_columns_effect _ _ _ _ Hsc key). }
  split.
  - destruct (Hwin "Close" (close_series df)) as (c' & Hc' & Hlen).
    { unfold ModelsPy.unscaled_indicators. by rewrite !lookup_insert_ne by done. }
    rewrite Hc in Hc'. injection Hc' as <-.
    fold (slen c). by rewrite Hlen, slen_close_series.
  - destruct (legacy_columns_in_window period df)
      as (Hmacd & Hhist & H200 & Hch & Hmom & Hrsi & Htrama).
    assert (Hlen : ∃ s0, in_window df s0
              ∧ (<["earnings diff" := ColList earnings]>
                   (legacy_unscaled (ModelsPy.num_days s) period df)) !! k
                = Some (ColSeries s0)).
    { unfold ModelsPy.unscaled_indicators.
      repeat (apply elem_of_cons in Hk as [->|Hk]);
        [..|by apply elem_of_nil in Hk];
        eexists; (split; [|repeat (rewrite lookup_insert_ne by done);
                           apply lookup_insert_eq]); done. }
    destruct Hlen as (s0 & [_ Hl0] & Hs0).
    destruct (Hwin k s0 Hs0) as (o' & Ho' & Hlen).
    rewrite Ho in Ho'. injection Ho' as <-.
    fold (slen o). rewrite Hlen, Hl0.
    assert (Hmin : ∀ n, (n - tail_offset 60 n)%nat = Nat.min 60 n)
      by (intros n; cbn [tail_offset]; lia).
    apply Hmin.
Qed.

End LegacyOutputs.

(* ================================================================== *)
(** * Models.py: the training columns and the scaling that uses them *)
(* ================================================================== *)

Section LegacyTrainingFacts.

Context (process_flips : Series → Series → list num)
        (get_liquidity_spikes : Series → option bool → option num → Series)
        (calculate_momentum_oscillator : Series → Series)
        (get_earnings_history : string → list pydate * list num).

Local Abbreviation getInfoToday :=
  (ModelsPy.getInfoToday process_flips get_liquidity_spikes calculate_momentum_oscillator
                         get_earnings_history).

Lemma training_loop_other (pairs : list (string * list Qc)) :
  ∀ (temp : gmap string (list Qc)) (k : string),
    k ∉ pairs.*1 →
    foldl (λ temp kv, <[kv.1 := kv.2]> temp) temp pairs !! k = temp !! k.
Proof.
  induction pairs as [|[k0 v0] pairs IH]; intros temp k Hk; [done|].
  rewrite fmap_cons in Hk. apply not_elem_of_cons in Hk as [Hne Hk].
  cbn [foldl]. rewrite IH by done. by apply lookup_insert_ne.
Qed.

Lemma training_loop_lookup (information_keys : list string) :
  ∀ (data : list (list Qc)) (temp : gmap string (list Qc)) (i : nat) (k : string),
    NoDup information_keys →
    information_keys !! i = Some k →
    foldl (λ temp kv, <[kv.1 := kv.2]> temp) temp (zip information_keys data) !! k
    = match data !! i with Some row => Some row | None => temp !! k end.
Proof.
  induction information_keys as [|k0 keys IH]; intros data temp i k Hnd Hi; [done|].
  apply list.NoDup_cons in Hnd as [Hk0 Hnd].
  destruct data as [|row data]; [done|].
  cbn [zip zip_with foldl fst snd]. destruct i as [|i].
  - injection Hi as <-. cbn [lookup list_lookup].
    rewrite training_loop_other; [apply lookup_insert_eq|].
    intros Hin. apply list_elem_of_fmap in Hin as ([a b] & -> & Hab).
    by apply elem_of_zip_l in Hab.
  - cbn [lookup list_lookup] in *. rewrite (IH data _ i k Hnd Hi).
    destruct (data !! i); [done|]. apply lookup_insert_ne.
    intros ->. apply Hk0. by eapply list_elem_of_lookup_2.
Qed.

(** X24.  What [train] of [src/Models.py] keeps in [self.data]: the loop
    pairs the keys with the rows of [data], and a row of [data] is a day.
    With distinct keys, the i-th key is given the i-th day (the values of
    all features on that day), not the history of the i-th feature; a key
    beyond the number of days gets nothing. *)
Theorem training_data_is_keyed_by_day (information_keys : list string)
    (data : list (list Qc)) (i : nat) (k : string) :
  NoDup information_keys →
  information_keys !! i = Some k →
  LegacyTraining.training_data information_keys data !! k = data !! i.
Proof.
  intros Hnd Hi. unfold LegacyTraining.training_data.
  rewrite (training_loop_lookup _ _ _ i k Hnd Hi).
  by destruct (data !! i).
Qed.

(** X25.  The consequence for a model on ['Close'] alone ([BaseModel()],
    [DayTradeModel()]): after [train], [self.data['Close']] is the first
    day's single value, so [getInfoToday] scales with a range
    [high - low] of 0, and whenever it returns, its one list has a value
    per row of the history and none of them is a finite number. *)
Theorem legacy_close_model_gets_no_finite_value
    (history : string → Z → Z → DataFrame) (period : nat) (s : ModelsPy.BaseModel)
    (first_close : Qc) (later_days : list (list Qc)) (out : list (list num)) :
  let df := history (ModelsPy.stock_symbol s)
              (ModelsPy.end_date s - 260)%Z (ModelsPy.end_date s) in
  ModelsPy.information_keys s = ["Close"] →
  ModelsPy.data s
  = Some (LegacyTraining.training_data ["Close"] ([first_close] :: later_days)) →
  getInfoToday (Some history) period s = Ok out →
  ∃ column, out = [column] ∧ length column = length df
            ∧ ∀ x q, x ∈ column → x ≠ Finite q.
Proof.
  intros df Hkeys Hdata. unfold ModelsPy.getInfoToday.
  destruct (ModelsPy.cached s); [done|]. fold df.
  unfold ModelsPy.getInfoToday_body.
  destruct (ModelsPy.earnings_diff_column _ _ _) as [earnings|]; [|done].
  cbn [mbind result_bind rbind]. rewrite Hkeys, Hdata.
  rewrite legacy_scale_columns_cons.
  rewrite (legacy_scale_column_series _ _ "Close" [first_close] first_close first_close
             (close_series df)); [|by_evaluation|reflexivity|reflexivity|reflexivity|].
  - unfold ModelsPy.scale_columns. cbn [foldl mbind result_bind rbind].
    cbn [ModelsPy.values_tolist]. unfold py_dict_get. rewrite lookup_insert_eq.
    cbn [mbind result_bind rbind svals]. intros [= <-].
    eexists. split; [done|]. split.
    + rewrite length_fmap. exact (slen_close_series df).
    + intros x q Hx. apply list_elem_of_fmap in Hx as (y & -> & _).
      unfold scale_value. replace (first_close - first_close) with 0 by ring.
      apply div_zero_not_finite.
  - unfold ModelsPy.unscaled_indicators. by rewrite !lookup_insert_ne by done.
Qed.

End LegacyTrainingFacts.

Lemma training_data_is_keyed_by_day_witness :
  LegacyTraining.training_data ["Close"; "RSI"]
    [[Qc_of_Z 10; Qc_of_Z 50]; [Qc_of_Z 11; Qc_of_Z 60]; [Qc_of_Z 9; Qc_of_Z 40]]
    !! "RSI"
  = Some [Qc_of_Z 11; Qc_of_Z 60].
Proof.
  apply (training_data_is_keyed_by_day ["Close"; "RSI"]
           [[Qc_of_Z 10; Qc_of_Z 50]; [Qc_of_Z 11; Qc_of_Z 60]; [Qc_of_Z 9; Qc_of_Z 40]]
           1 "RSI"); [by_evaluation | reflexivity].
Defined.

Lemma legacy_close_model_gets_no_finite_value_witness :
  ∃ out column,
    ModelsPy.getInfoToday Examples.no_flips Examples.no_spikes Examples.no_oscillator
      Examples.no_earnings (Some Scenarios.short_history) 14
      Scenarios.legacy_close_trained = Ok out
    ∧ out = [column] ∧ length column = 3%nat
    ∧ ∀ x q, x ∈ column → x ≠ Finite q.
Proof.
  destruct (ModelsPy.getInfoToday Examples.no_flips Examples.no_spikes
              Examples.no_oscillator Examples.no_earnings (Some Scenarios.short_history)
              14 Scenarios.legacy_close_trained) as [out|e] eqn:Hrun.
  - destruct (legacy_close_model_gets_no_finite_value Examples.no_flips Examples.no_spikes
                Examples.no_oscillator Examples.no_earnings Scenarios.short_history 14
                Scenarios.legacy_close_trained (Qc_of_Z 15) [[Qc_of_Z 16]] out
                eq_refl eq_refl Hrun) as (column & Hout & Hlen & Hnone).
    by exists out, column.
  - exfalso. vm_compute in Hrun. discriminate Hrun.
Defined.

(* ================================================================== *)
(** * The movement score of [test] *)
(* ================================================================== *)

Section MetricsFacts.

Lemma order_lt_irrefl (v : num) : Order.lt v v = false.
Proof.
  destruct v as [x| | |]; simpl; [|done..].
  apply bool_decide_eq_false_2. intros H. by apply (Qclt_not_le _ _ H), Qcle_refl.
Qed.

Lemma Qc_of_Z_nonneg (z : Z) : (0 ≤ z)%Z → 0 ≤ Qc_of_Z z.
Proof. intros Hz. rewrite <- Z2Qc_inj_0. by apply (proj1 (Z2Qc_inj_le 0 z)). Qed.

Lemma Qc_of_Z_pos (z : Z) : (0 < z)%Z → 0 < Qc_of_Z z.
Proof. intros Hz. rewrite <- Z2Qc_inj_0. by apply (proj1 (Z2Qc_inj_lt 0 z)). Qed.

(** A count between 0 and the divisor gives a percentage between 0
    and 100. *)
Lemma percentage_of_bounds (count total : nat) :
  (2 ≤ total)%nat → (count ≤ total - 1)%nat →
  ∃ p, Metrics.percentage_of count total = Ok p ∧ 0 ≤ p ∧ p ≤ Qc_of_Z 100.
Proof.
  intros Ht Hc. unfold Metrics.percentage_of.
  rewrite decide_False by lia. eexists. split; [done|].
  set (n := Qc_of_Z (Z.of_nat total - 1)).
  set (c := Qc_of_Z (Z.of_nat count)).
  assert (Hn : 0 < n) by (apply Qc_of_Z_pos; lia).
  assert (Hne : n ≠ 0) by (intros Hz; rewrite Hz in Hn; by apply (Qclt_not_le _ _ Hn), Qcle_refl).
  assert (Hc0 : 0 ≤ c) by (apply Qc_of_Z_nonneg; lia).
  assert (Hcn : c ≤ n) by (apply (proj1 (Z2Qc_inj_le _ _)); lia).
  assert (H100 : 0 ≤ Qc_of_Z 100) by (apply Qc_of_Z_nonneg; lia).
  assert (Hq0 : 0 ≤ c / n).
  { apply (Qcmult_lt_0_le_reg_r _ _ n Hn).
    replace (0 * n) with 0 by ring. by replace (c / n * n) with c by (field; done). }
  assert (Hq1 : c / n ≤ 1).
  { apply (Qcmult_lt_0_le_reg_r _ _ n Hn).
    replace (1 * n) with n by ring. by replace (c / n * n) with c by (field; done). }
  split.
  - by apply Qcmult_nonneg_nonneg.
  - replace (Qc_of_Z 100) with (1 * Qc_of_Z 100) at 2 by ring.
    by apply Qcmult_le_compat_r.
Qed.

Lemma gt_at_ok (a : list num) (i : nat) (b : list num) (j : nat) :
  (i < length a)%nat → (j < length b)%nat → ∃ r, Metrics.gt_at a i b j = Ok r.
Proof.
  intros Hi Hj. unfold Metrics.gt_at, py_getitem.
  destruct (lookup_lt_is_Some_2 a i Hi) as [x ->].
  destruct (lookup_lt_is_Some_2 b j Hj) as [y ->]. by eexists.
Qed.

Lemma lt_at_ok (a : list num) (i : nat) (b : list num) (j : nat) :
  (i < length a)%nat → (j < length b)%nat → ∃ r, Metrics.lt_at a i b j = Ok r.
Proof.
  intros Hi Hj. unfold Metrics.lt_at, py_getitem.
  destruct (lookup_lt_is_Some_2 a i Hi) as [x ->].
  destruct (lookup_lt_is_Some_2 b j Hj) as [y ->]. by eexists.
Qed.

Lemma py_or_and_ok (a b c d : result bool) :
  (∃ r, a = Ok r) → (∃ r, b = Ok r) → (∃ r, c = Ok r) → (∃ r, d = Ok r) →
  ∃ r, Metrics.py_or (Metrics.py_and a b) (Metrics.py_and c d) = Ok r.
Proof.
  intros [ra ->] [rb ->] [rc ->] [rd ->].
  destruct ra, rb, rc, rd; by eexists.
Qed.

Lemma count_moves_bounds (list1 list2 : list num) (indices : list nat) :
  (∀ i, i ∈ indices → (1 ≤ i < length list1)%nat ∧ (i < length list2)%nat) →
  ∀ d0 s0, ∃ d s,
    Metrics.count_moves list1 list2 indices d0 s0 = Ok (d, s)
    ∧ (d ≤ d0 + length indices)%nat ∧ (s ≤ s0 + length indices)%nat.
Proof.
  induction indices as [|i indices IH]; intros Hall d0 s0.
  - exists d0, s0. simpl. split; [done|]. lia.
  - destruct (Hall i) as [[Hi1 Hi2] Hi3]; [apply list_elem_of_here|].
    assert (Hd : ∃ r, Metrics.same_direction list1 list2 i = Ok r).
    { apply py_or_and_ok; (apply gt_at_ok || apply lt_at_ok); lia. }
    assert (Hs : ∃ r, Metrics.same_space list1 list2 i = Ok r).
    { apply py_or_and_ok; (apply gt_at_ok || apply lt_at_ok); lia. }
    destruct Hd as [rd Hd]. destruct Hs as [rs Hs].
    cbn [Metrics.count_moves]. rewrite Hd, Hs. cbn [rbind].
    destruct (IH (λ j Hj, Hall j (list_elem_of_further _ _ _ Hj))
                 (if rd then S d0 else d0) (if rs then S s0 else s0))
      as (d & s & Hrun & Hdle & Hsle).
    exists d, s. split; [done|]. cbn [length]. destruct rd, rs; lia.
Qed.

(** X14.  [calculate_percentage_movement_together], the score [test]
    prints.  For a truth of one value it raises [ZeroDivisionError]
    (the divisor is [total - 1]).  For a truth of at least two values and
    predictions at least as long it returns two percentages, each between
    0 and 100. *)
Theorem movement_score_range (list1 list2 : list num) :
  (length list1 = 1%nat →
   Metrics.calculate_percentage_movement_together list1 list2 = Raise ZeroDivisionError)
  ∧ ((2 ≤ length list1)%nat → (length list1 ≤ length list2)%nat →
     ∃ percentage percentage2,
       Metrics.calculate_percentage_movement_together list1 list2
       = Ok (percentage, percentage2)
       ∧ 0 ≤ percentage ∧ percentage ≤ Qc_of_Z 100
       ∧ 0 ≤ percentage2 ∧ percentage2 ≤ Qc_of_Z 100).
Proof.
  unfold Metrics.calculate_percentage_movement_together. split.
  - intros ->. reflexivity.
  - intros H2 Hlen.
    destruct (count_moves_bounds list1 list2 (seq 1 (length list1 - 1))) with (d0 := 0%nat) (s0 := 0%nat)
      as (d & s & Hrun & Hd & Hs).
    { intros i Hi. apply elem_of_seq in Hi. lia. }
    rewrite length_seq in Hd, Hs. rewrite Hrun. cbn [rbind fst snd].
    destruct (percentage_of_bounds d (length list1)) as (p & Hp & Hp0 & Hp1); [lia..|].
    destruct (percentage_of_bounds s (length list1)) as (p2 & Hp2 & Hp20 & Hp21); [lia..|].
    rewrite Hp, Hp2. cbn [rbind]. by exists p, p2.
Qed.

Lemma count_moves_flat (v : num) (n : nat) (list2 : list num) (indices : list nat) :
  (∀ i, i ∈ indices → (1 ≤ i < n)%nat) →
  ∀ d0 s0, Metrics.count_moves (replicate n v) list2 indices d0 s0 = Ok (d0, s0).
Proof.
  induction indices as [|i indices IH]; intros Hall d0 s0; [done|].
  destruct (Hall i) as [Hi1 Hi2]; [apply list_elem_of_here|].
  assert (Hgt : ∀ j, (j < n)%nat →
            Metrics.gt_at (replicate n v) i (replicate n v) j = Ok false).
  { intros j Hj. unfold Metrics.gt_at, py_getitem.
    rewrite !lookup_replicate_2 by lia. simpl. unfold Order.gt. by rewrite order_lt_irrefl. }
  assert (Hlt : ∀ j, (j < n)%nat →
            Metrics.lt_at (replicate n v) i (replicate n v) j = Ok false).
  { intros j Hj. unfold Metrics.lt_at, py_getitem.
    rewrite !lookup_replicate_2 by lia. simpl. by rewrite order_lt_irrefl. }
  cbn [Metrics.count_moves]. unfold Metrics.same_direction, Metrics.same_space.
  rewrite Hgt, Hlt by lia. cbn [Metrics.py_and Metrics.py_or rbind].
  apply IH. intros j Hj. by apply Hall, list_elem_of_further.
Qed.

(** X15.  A truth that never moves scores 0 on both counts whatever the
    predictions are, a copy of the truth included: a step counts only
    when the truth rises or falls, and the predictions are not even
    indexed on a flat step (so they may be shorter than the truth). *)
Theorem movement_score_of_flat_truth (v : num) (n : nat) (list2 : list num) :
  (2 ≤ n)%nat →
  Metrics.calculate_percentage_movement_together (replicate n v) list2 = Ok (0, 0).
Proof.
  intros Hn. unfold Metrics.calculate_percentage_movement_together.
  rewrite length_replicate.
  rewrite count_moves_flat by (intros i Hi; apply elem_of_seq in Hi; lia).
  cbn [rbind fst snd]. unfold Metrics.percentage_of.
  rewrite decide_False by lia. cbn [rbind]. do 2 f_equal.
  all: change (Qc_of_Z (Z.of_nat 0)) with 0; unfold Qcdiv; ring.
Qed.

Lemma count_moves_all (l : list Qc) (indices : list nat) :
  (∀ i x y, l !! i = Some x → l !! S i = Some y → x ≠ y) →
  (∀ i, i ∈ indices → (1 ≤ i < length l)%nat) →
  ∀ d0 s0, Metrics.count_moves (Finite <$> l) (Finite <$> l) indices d0 s0
           = Ok ((d0 + length indices)%nat, (s0 + length indices)%nat).
Proof.
  intros Hmove. induction indices as [|i indices IH]; intros Hall d0 s0.
  - simpl. do 2 f_equal; lia.
  - destruct (Hall i) as [Hi1 Hi2]; [apply list_elem_of_here|].
    destruct i as [|i]; [lia|].
    destruct (lookup_lt_is_Some_2 l (S i) Hi2) as [y Hy].
    destruct (lookup_lt_is_Some_2 l i) as [x Hx]; [lia|].
    assert (Hne : x ≠ y) by (by eapply Hmove).
    assert (Hgt : Metrics.gt_at (Finite <$> l) (S i) (Finite <$> l) (S i - 1)
                  = Ok (bool_decide (x < y))).
    { unfold Metrics.gt_at, py_getitem. replace (S i - 1)%nat with i by lia.
      by rewrite !list_lookup_fmap, Hx, Hy. }
    assert (Hlt : Metrics.lt_at (Finite <$> l) (S i) (Finite <$> l) (S i - 1)
                  = Ok (bool_decide (y < x))).
    { unfold Metrics.lt_at, py_getitem. replace (S i - 1)%nat with i by lia.
      by rewrite !list_lookup_fmap, Hx, Hy. }
    cbn [Metrics.count_moves]. unfold Metrics.same_direction, Metrics.same_space.
    rewrite Hgt, Hlt.
    assert (Hcase : bool_decide (x < y) = true ∨
                    (bool_decide (x < y) = false ∧ bool_decide (y < x) = true)).
    { destruct (Qclt_le_dec x y) as [Hxy|Hyx].
      - left. by apply bool_decide_eq_true_2.
      - right. apply Qcle_lt_or_eq in Hyx as [Hyx|Heq]; [|by symmetry in Heq].
        split; [|by apply bool_decide_eq_true_2].
        apply bool_decide_eq_false_2. intros H.
        by apply (Qclt_not_le _ _ H), Qclt_le_weak. }
    destruct Hcase as [-> | [-> ->]]; cbn [Metrics.py_and Metrics.py_or rbind];
      rewrite IH by (intros j Hj; by apply Hall, list_elem_of_further);
      cbn [length]; do 2 f_equal; lia.
Qed.

(** X16.  A truth whose every step is a move, scored against itself:
    with finite prices of which no two consecutive ones are equal, the
    score is (100, 100). *)
Theorem movement_score_of_perfect_prediction (l : list Qc) :
  (2 ≤ length l)%nat →
  (∀ i x y, l !! i = Some x → l !! S i = Some y → x ≠ y) →
  Metrics.calculate_percentage_movement_together (Finite <$> l) (Finite <$> l)
  = Ok (Qc_of_Z 100, Qc_of_Z 100).
Proof.
  intros Hlen Hmove. unfold Metrics.calculate_percentage_movement_together.
  rewrite length_fmap.
  rewrite count_moves_all; [|done|intros i Hi; apply elem_of_seq in Hi; lia].
  rewrite length_seq. cbn [rbind fst snd]. unfold Metrics.percentage_of.
  rewrite decide_False by lia. cbn [rbind].
  replace (Z.of_nat (0 + (length l - 1))) with (Z.of_nat (length l) - 1)%Z by lia.
  assert (Hn : Qc_of_Z (Z.of_nat (length l) - 1) ≠ 0).
  { intros Hz. rewrite <- Z2Qc_inj_0 in Hz. apply Z2Qc_inj in Hz. lia. }
  do 2 f_equal; field; done.
Qed.

End MetricsFacts.

(* ================================================================== *)
(** * The directional penalty of the two losses *)
(* ================================================================== *)

Section LossFacts.

Lemma of_nat_S (n : nat) : Num.of_nat (S n) = Num.of_nat n + 1.
Proof.
  unfold Num.of_nat. rewrite Nat2Z.inj_succ, <- Z.add_1_r, Z2Qc_inj_add.
  by rewrite Z2Qc_inj_1.
Qed.

Lemma of_nat_pos (n : nat) : (0 < n)%nat → 0 < Num.of_nat n.
Proof.
  intros Hn. unfold Num.of_nat. rewrite <- Z2Qc_inj_0.
  apply (proj1 (Z2Qc_inj_lt 0 _)). lia.
Qed.

Lemma steps_short (a b : list Qc) : (length a ≤ 1)%nat → Losses.steps a b = [].
Proof.
  intros Ha. unfold Losses.steps. by rewrite drop_ge.
Qed.

Lemma length_steps (a b : list Qc) :
  length a = length b → length (Losses.steps a b) = (length a - 1)%nat.
Proof.
  intros Hab. unfold Losses.steps.
  rewrite length_zip_with, length_drop, length_take. lia.
Qed.

Lemma sign_difference_bounds (a b : Qc) :
  0 ≤ Losses.qabs (Losses.sign a - Losses.sign b)
  ∧ Losses.qabs (Losses.sign a - Losses.sign b) ≤ 2.
Proof.
  unfold Losses.sign. repeat case_decide; split; by_evaluation.
Qed.

Lemma qsum_bounds (hi : Qc) (l : list Qc) :
  (∀ x, x ∈ l → 0 ≤ x ∧ x ≤ hi) →
  0 ≤ qsum l ∧ qsum l ≤ hi * Num.of_nat (length l).
Proof.
  induction l as [|x l IH]; intros Hall.
  - cbn [length]. unfold Num.of_nat. change (Z.of_nat 0) with 0%Z.
    rewrite Z2Qc_inj_0, Qcmult_0_r. split; apply Qcle_refl.
  - destruct (Hall x) as [Hx0 Hx1]; [apply list_elem_of_here|].
    destruct IH as [IH0 IH1]; [intros y Hy; by apply Hall, list_elem_of_further|].
    change (qsum (x :: l)) with (x + qsum l). cbn [length]. rewrite of_nat_S. split.
    + by apply Qcplus_nonneg_nonneg.
    + replace (hi * (Num.of_nat (length l) + 1)) with (hi + hi * Num.of_nat (length l))
        by ring.
      by apply Qcplus_le_compat.
Qed.

Lemma reduce_mean_bounds (hi : Qc) (l : list Qc) :
  l ≠ [] → (∀ x, x ∈ l → 0 ≤ x ∧ x ≤ hi) →
  ∃ p, Losses.reduce_mean l = Finite p ∧ 0 ≤ p ∧ p ≤ hi.
Proof.
  intros Hne Hall. destruct (qsum_bounds hi l Hall) as [H0 H1].
  destruct l as [|x l]; [done|]. eexists. split; [done|].
  set (N := Num.of_nat (length (x :: l))) in *.
  assert (HN : 0 < N) by (apply of_nat_pos; simpl; lia).
  assert (HNne : N ≠ 0) by (intros Hz; rewrite Hz in HN; by apply (Qclt_not_le _ _ HN), Qcle_refl).
  set (S := qsum (x :: l)) in *.
  assert (Hmul : S / N * N = S) by (field; done).
  split; apply (Qcmult_lt_0_le_reg_r _ _ N HN); rewrite Hmul; [|done].
  by rewrite Qcmult_0_l.
Qed.

(** X17.  The directional penalty and the space penalty of the two
    losses, on a batch of at least two samples: each is a number between
    0 and 2 (the mean of the absolute differences of two signs). *)
Theorem penalties_between_0_and_2 (y_true y_pred : list Qc) :
  length y_true = length y_pred → (2 ≤ length y_true)%nat →
  ∃ direction space,
    Losses.direction_penalty y_true y_pred = Finite direction
    ∧ Losses.space_penalty y_true y_pred = Finite space
    ∧ 0 ≤ direction ∧ direction ≤ 2 ∧ 0 ≤ space ∧ space ≤ 2.
Proof.
  intros Hlen H2.
  assert (Hterms : ∀ A B : list Qc, length A = length B → A ≠ [] →
    ∃ p, Losses.reduce_mean
           (Losses.qabs <$> zip_with Qcminus (Losses.sign <$> A) (Losses.sign <$> B))
         = Finite p ∧ 0 ≤ p ∧ p ≤ 2).
  { intros A B HAB HA. apply reduce_mean_bounds.
    - destruct A as [|a A]; [done|]. destruct B as [|b B]; [done|]. done.
    - intros x Hx. apply list_elem_of_fmap in Hx as (d & -> & Hd).
      apply elem_of_lookup_zip_with in Hd as (i & sa & sb & -> & Hsa & Hsb).
      rewrite list_lookup_fmap in Hsa, Hsb.
      destruct (A !! i) as [a|]; [|done]. destruct (B !! i) as [b|]; [|done].
      injection Hsa as <-. injection Hsb as <-. apply sign_difference_bounds. }
  assert (Hne : Losses.steps y_true y_true ≠ []).
  { intros Hnil. apply (f_equal length) in Hnil.
    rewrite length_steps in Hnil by done. simpl in Hnil. lia. }
  destruct (Hterms (Losses.steps y_true y_true) (Losses.steps y_pred y_pred))
    as (d & Hd & Hd0 & Hd2); [by rewrite !length_steps by done; lia|done|].
  destruct (Hterms (Losses.steps y_true y_true) (Losses.steps y_pred y_true))
    as (sp & Hsp & Hsp0 & Hsp2); [rewrite !length_steps by done; lia|done|].
  by exists d, sp.
Qed.

Lemma steps_shift (c : Qc) (y : list Qc) :
  Losses.steps ((λ v, v + c) <$> y) ((λ v, v + c) <$> y) = Losses.steps y y.
Proof.
  unfold Losses.steps. rewrite length_fmap, <- fmap_drop, <- fmap_take.
  rewrite zip_with_fmap_l, zip_with_fmap_r.
  apply zip_with_ext; [|done..]. intros a b. ring.
Qed.

(** X18.  The directional penalty sees directions only: against a
    prediction that is off by any constant from the target (the target
    itself included, with constant 0) it is 0 on every batch of at least
    two samples. *)
Theorem direction_penalty_ignores_level (y : list Qc) (c : Qc) :
  (2 ≤ length y)%nat →
  Losses.direction_penalty y ((λ v, v + c) <$> y) = Finite 0.
Proof.
  intros H2. unfold Losses.direction_penalty. rewrite steps_shift.
  set (S := Losses.sign <$> Losses.steps y y).
  assert (Hlen : length S = (length y - 1)%nat).
  { unfold S. rewrite length_fmap. by apply length_steps. }
  assert (Hz : Losses.qabs <$> zip_with Qcminus S S = replicate (length S) 0).
  { clear Hlen. induction S as [|s S IH]; [done|].
    cbn [zip_with length replicate]. rewrite fmap_cons, IH. f_equal.
    replace (s - s) with 0 by ring. by_evaluation. }
  rewrite Hz. destruct (length S) as [|n] eqn:Hn; [lia|].
  cbn [replicate Losses.reduce_mean]. f_equal.
  assert (Hsum : ∀ m, qsum (replicate m 0) = 0).
  { induction m as [|m IH]; [done|]. simpl. rewrite IH. ring. }
  change (0 :: replicate n 0) with (replicate (Datatypes.S n) 0).
  rewrite Hsum. unfold Qcdiv. ring.
Qed.

(** X19.  On a batch of fewer than two samples there is no step to
    compare, [reduce_mean] of nothing is NaN, and both losses are NaN
    whatever the Huber and squared-error terms are. *)
Theorem losses_are_nan_on_a_single_sample
    (huber_loss mse_loss : list Qc → list Qc → num) (y_true y_pred : list Qc) :
  (length y_true ≤ 1)%nat →
  Losses.CustomLoss_call huber_loss mse_loss y_true y_pred = NaN
  ∧ Losses.CustomLoss2_call huber_loss mse_loss y_true y_pred = NaN.
Proof.
  intros Hlen. unfold Losses.CustomLoss_call, Losses.CustomLoss2_call,
    Losses.direction_penalty, Losses.space_penalty.
  rewrite (steps_short y_true y_true) by done. by simpl.
Qed.

End LossFacts.

(* ================================================================== *)
(** * save and load *)
(* ================================================================== *)

Section StorageFacts.

Lemma string_append_inv_head (s a b : string) : s +:+ a = s +:+ b → a = b.
Proof. induction s as [|c s IH]; simpl; [done|]. intros [= H]. by apply IH. Qed.

Lemma string_length_append (a b : string) :
  String.length (a +:+ b) = (String.length a + String.length b)%nat.
Proof. induction a as [|c a IH]; simpl; [done|]. by rewrite IH. Qed.

(** [save] writes [data.json]; [load] reads [<class name>_data.json]:
    never the same file. *)
Lemma data_path_is_not_class_data_path (symbol name : string) :
  Storage.data_path symbol ≠ Storage.class_data_path symbol name.
Proof.
  unfold Storage.data_path, Storage.class_data_path. intros H.
  do 2 apply string_append_inv_head in H. simpl in H. injection H as H.
  apply (f_equal String.length) in H. rewrite !string_length_append in H.
  simpl in H. lia.
Qed.

Lemma lookup_items_not_in {A B} (temp : gmap string A) (d : gmap string B) (k : string) :
  Storage.items_not_in temp d !! k
  = match d !! k with Some _ => None | None => temp !! k end.
Proof.
  unfold Storage.items_not_in.
  destruct (d !! k) as [v|] eqn:Hd.
  - apply map_lookup_filter_None. right. intros x _. simpl. by rewrite Hd.
  - destruct (temp !! k) as [x|] eqn:Ht.
    + by apply map_lookup_filter_Some.
    + apply map_lookup_filter_None. by left.
Qed.

Lemma lookup_dict_update {A} (a b : gmap string A) (k : string) :
  Storage.dict_update a b !! k
  = match b !! k with Some v => Some v | None => a !! k end.
Proof.
  unfold Storage.dict_update. rewrite lookup_union.
  destruct (b !! k), (a !! k); done.
Qed.

(** The dictionary [save] leaves in [self.data] and in [data.json], and
    the one it leaves in [self.scaler_data] and in [min_max_data.json]. *)
Local Abbreviation merged_data d old :=
  (match old with
   | Some (Some t) => Storage.dict_update d (Storage.items_not_in t d)
   | _ => d
   end).
Local Abbreviation merged_scaler sc d' old :=
  (match old with
   | Some temp => Storage.dict_update sc (Storage.items_not_in temp d')
   | None => sc
   end).

(** [save] on an instance with a model and a data dictionary, when the
    data file is absent or holds a dictionary: the whole outcome. *)
Lemma save_outcome (w : Storage.world) (net : Storage.network)
    (d : gmap string Storage.jval) :
  let s := Storage.self w in
  let symbol := StockBot.stock_symbol (Storage.attributes s) in
  let name := Classes.class_name (Storage.class_of s) in
  let old := Storage.data_files (Storage.disk w) !! Storage.data_path symbol in
  let old_sc := Storage.scaler_files (Storage.disk w) !! Storage.scaler_path symbol in
  let d' := merged_data d old in
  let sc' := merged_scaler (StockBot.scaler_data (Storage.attributes s)) d' old_sc in
  StockBot.model (Storage.attributes s) = Some net →
  Storage.data s = Some d →
  old ≠ Some None →
  Storage.save w
  = (Ok (),
     Storage.mkWorld
       (Storage.set_scaler_data sc' (Storage.set_data (Some d') s))
       (Storage.write_scaler (Storage.scaler_path symbol) sc'
          (Storage.write_data (Storage.data_path symbol) (Some d')
             (Storage.write_model (Storage.model_path symbol name) net
                (Storage.disk w))))).
Proof.
  destruct w as [[b cls dat] fs]. simpl. intros Hm -> Hold.
  unfold Storage.save.
  cbv [Storage.bind Storage.get_self Storage.get_disk Storage.modify_self
       Storage.modify_disk Storage.ret Storage.raise Storage.self Storage.disk
       Storage.attributes Storage.class_of Storage.data].
  rewrite Hm. cbn.
  destruct (Storage.data_files fs !! Storage.data_path (StockBot.stock_symbol b))
    as [[t|]|] eqn:Hfile; [|done|]; cbn;
    destruct (Storage.scaler_files fs !! Storage.scaler_path (StockBot.stock_symbol b))
      as [temp|] eqn:Hsc; cbn; try reflexivity.
  - destruct b; reflexivity.
  - destruct b; reflexivity.
Qed.

(** X20.  [save] merges with the files it finds.  With a model and a
    data dictionary, and a [data.json] that is absent or holds a
    dictionary, it succeeds, stores the network under the class's model
    path, and leaves in [self.data] and in [data.json] one dictionary:
    every key of [self.data] with its value, and every other key of the
    old file with the file's value. *)
Theorem save_merges_data (w : Storage.world) (net : Storage.network)
    (d : gmap string Storage.jval) :
  let s := Storage.self w in
  let symbol := StockBot.stock_symbol (Storage.attributes s) in
  let name := Classes.class_name (Storage.class_of s) in
  let old := Storage.data_files (Storage.disk w) !! Storage.data_path symbol in
  let t := match old with Some (Some t) => t | _ => ∅ end in
  StockBot.model (Storage.attributes s) = Some net →
  Storage.data s = Some d →
  old ≠ Some None →
  ∃ w' merged,
    Storage.save w = (Ok (), w')
    ∧ Storage.data (Storage.self w') = Some merged
    ∧ Storage.data_files (Storage.disk w') !! Storage.data_path symbol = Some (Some merged)
    ∧ Storage.saved_models (Storage.disk w') !! Storage.model_path symbol name = Some net
    ∧ ∀ k, merged !! k = match d !! k with Some v => Some v | None => t !! k end.
Proof.
  intros s symbol name old t Hm Hd Hold.
  pose proof (save_outcome w net d Hm Hd Hold) as Hout. cbv zeta in Hout.
  fold s symbol name old in Hout.
  eexists _, _. split; [exact Hout|].
  split; [done|]. split; [apply lookup_insert_eq|]. split; [apply lookup_insert_eq|].
  intros k. subst t. destruct old as [[t|]|]; [|done|].
  - rewrite lookup_dict_update, lookup_items_not_in.
    by destruct (d !! k), (t !! k).
  - rewrite lookup_empty. by destruct (d !! k).
Qed.

(** X21.  What [save] does to the scaler entries when
    [min_max_data.json] exists: the filter is on the keys of [self.data]
    (already merged with the old [data.json]), not of [self.scaler_data].
    For a key of [self.data] or of the old [data.json] the entry of the
    instance is kept and the file's entry is dropped, also when the
    instance has none; for any other key the file's entry replaces the
    one of the instance. *)
Theorem save_filters_scaler_by_data_keys (w : Storage.world) (net : Storage.network)
    (d : gmap string Storage.jval) (temp : gmap string StockBot.scaler_entry) :
  let s := Storage.self w in
  let symbol := StockBot.stock_symbol (Storage.attributes s) in
  let sc := StockBot.scaler_data (Storage.attributes s) in
  let old := Storage.data_files (Storage.disk w) !! Storage.data_path symbol in
  let t := match old with Some (Some t) => t | _ => ∅ end in
  StockBot.model (Storage.attributes s) = Some net →
  Storage.data s = Some d →
  old ≠ Some None →
  Storage.scaler_files (Storage.disk w) !! Storage.scaler_path symbol = Some temp →
  ∃ w' sc',
    Storage.save w = (Ok (), w')
    ∧ StockBot.scaler_data (Storage.attributes (Storage.self w')) = sc'
    ∧ Storage.scaler_files (Storage.disk w') !! Storage.scaler_path symbol = Some sc'
    ∧ ∀ k, sc' !! k
           = match d !! k, t !! k with
             | None, None => match temp !! k with Some e => Some e | None => sc !! k end
             | _, _ => sc !! k
             end.
Proof.
  intros s symbol sc old t Hm Hd Hold Htemp.
  pose proof (save_outcome w net d Hm Hd Hold) as Hout. cbv zeta in Hout.
  fold s symbol in Hout. rewrite Htemp in Hout. fold old in Hout.
  eexists _, _. split; [exact Hout|].
  split; [done|]. split; [apply lookup_insert_eq|].
  intros k. cbn -[Storage.dict_update Storage.items_not_in].
  rewrite lookup_dict_update, lookup_items_not_in. subst t.
  destruct old as [[t|]|]; [|done|].
  - rewrite lookup_dict_update, lookup_items_not_in.
    by destruct (d !! k), (t !! k), (temp !! k).
  - rewrite lookup_empty. by destruct (d !! k), (temp !! k).
Qed.

(** X22.  What [save] writes, [load] does not read.  After a successful
    [save] on a disk that had no [<class name>_data.json] for the symbol, a
    new instance of the same class and symbol that calls [load] gets the
    saved network into [self.model] and then [FileNotFoundError]: its
    [data] and [scaler_data] are not loaded, and a second [load] returns
    [None] at once, because a model is now set. *)
Theorem load_does_not_read_what_save_wrote (w w1 : Storage.world)
    (net : Storage.network) (fresh : Storage.instance) (missing_model : exn) :
  let s := Storage.self w in
  let symbol := StockBot.stock_symbol (Storage.attributes s) in
  let name := Classes.class_name (Storage.class_of s) in
  StockBot.model (Storage.attributes s) = Some net →
  Storage.save w = (Ok (), w1) →
  Storage.data_files (Storage.disk w) !! Storage.class_data_path symbol name = None →
  StockBot.stock_symbol (Storage.attributes fresh) = symbol →
  Storage.class_of fresh = Storage.class_of s →
  StockBot.model (Storage.attributes fresh) = None →
  let after := Storage.mkWorld (Storage.set_model (Some net) fresh) (Storage.disk w1) in
  Storage.load missing_model (Storage.mkWorld fresh (Storage.disk w1))
  = (Raise FileNotFoundError, after)
  ∧ Storage.data (Storage.self after) = Storage.data fresh
  ∧ Storage.load missing_model after = (Ok None, after).
Proof.
  destruct w as [[b cls dat] fs], w1 as [s1 fs1], fresh as [fb fcls fdat].
  cbv zeta.
  cbn [Storage.self Storage.disk Storage.attributes Storage.class_of Storage.data].
  intros Hm Hsave Hnofile Hsym Hcls Hnone. subst fcls.
  set (symbol := StockBot.stock_symbol b) in *.
  set (name := Classes.class_name cls) in *.
  assert (Hdisk : Storage.saved_models fs1 !! Storage.model_path symbol name = Some net
                  ∧ Storage.data_files fs1 !! Storage.class_data_path symbol name = None).
  { revert Hsave. unfold Storage.save.
    cbv [Storage.bind Storage.get_self Storage.get_disk Storage.modify_self
         Storage.modify_disk Storage.ret Storage.raise Storage.self Storage.disk
         Storage.attributes Storage.class_of Storage.data].
    rewrite Hm. cbn. fold symbol name.
    assert (Hne := data_path_is_not_class_data_path symbol name).
    destruct (Storage.data_files fs !! Storage.data_path symbol) as [temp|]; cbn.
    - unfold Storage.merge_data.
      cbv [Storage.bind Storage.get_self Storage.modify_self Storage.raise
           Storage.self Storage.data].
      destruct dat as [dd|]; [|done]. destruct temp as [t|]; [|done]. cbn.
      destruct (Storage.scaler_files fs !! _) as [tsc|]; cbn.
      + intros [= <- <-]. cbn. split; [apply lookup_insert_eq|].
        by rewrite lookup_insert_ne.
      + intros [= <- <-]. cbn. split; [apply lookup_insert_eq|].
        by rewrite lookup_insert_ne.
    - destruct (Storage.scaler_files fs !! _) as [tsc|]; cbn.
      + unfold Storage.merge_scaler.
        cbv [Storage.bind Storage.get_self Storage.modify_self Storage.raise
             Storage.ret Storage.self Storage.data].
        destruct dat as [dd|]; cbn.
        * intros [= <- <-]. cbn. split; [apply lookup_insert_eq|].
          by rewrite lookup_insert_ne.
        * case_decide; cbn; [|done]. intros [= <- <-]. cbn.
          split; [apply lookup_insert_eq|]. by rewrite lookup_insert_ne.
      + intros [= <- <-]. cbn. split; [apply lookup_insert_eq|].
        by rewrite lookup_insert_ne. }
  destruct Hdisk as [Hmodel Hdata].
  split; [|split; [done|]].
  - unfold Storage.load.
    cbv [Storage.bind Storage.get_self Storage.get_disk Storage.modify_self
         Storage.ret Storage.raise Storage.self Storage.disk
         Storage.attributes Storage.class_of].
    rewrite Hnone, Hsym. fold name. rewrite Hmodel. by rewrite Hdata.
  - unfold Storage.load, Storage.set_model.
    cbv [Storage.bind Storage.get_self Storage.ret Storage.self Storage.attributes
         StockBot.model]. done.
Qed.

End StorageFacts.

Section LegacyStorageFacts.

(** X23.  In [src/Models.py] the pair [save] / [load] does round-trip:
    both use [<symbol>/model] and [<symbol>/data.json].  After [save] on
    an instance with a model, a new instance with the same symbol that
    calls [load] gets that network and that [data] (whatever was on the
    disk before, and whichever class saved).  [save] without a model
    raises [AttributeError] and writes nothing. *)
Theorem legacy_load_restores_what_save_wrote (w : LegacyStorage.world)
    (fresh : ModelsPy.BaseModel) (missing_model : exn) :
  let s := LegacyStorage.self w in
  (ModelsPy.model s = None → LegacyStorage.save w = (Raise AttributeError, w))
  ∧ (∀ net,
       ModelsPy.model s = Some net →
       ModelsPy.stock_symbol fresh = ModelsPy.stock_symbol s →
       ModelsPy.model fresh = None →
       ∃ fs,
         LegacyStorage.save w = (Ok (), LegacyStorage.mkWorld s fs)
         ∧ LegacyStorage.load missing_model (LegacyStorage.mkWorld fresh fs)
           = (Ok (Some net),
              LegacyStorage.mkWorld
                (LegacyStorage.set_data (ModelsPy.data s)
                   (LegacyStorage.set_model (Some net) fresh))
                fs)).
Proof.
  destruct w as [s fs]. cbv zeta. cbn [LegacyStorage.self]. split.
  - intros Hm. unfold LegacyStorage.save. cbn. by rewrite Hm.
  - intros net Hm Hsym Hnone. eexists. unfold LegacyStorage.save. cbn. rewrite Hm.
    split; [done|].
    unfold LegacyStorage.load. cbn. rewrite Hnone, Hsym.
    by rewrite !lookup_insert_eq.
Qed.

End LegacyStorageFacts.

(* ================================================================== *)
(** * The two scaling loops, column by column *)
(* ================================================================== *)

Section LegacyScalingLoop.

Context (data : option (gmap string (list Qc))).

Lemma legacy_scale_column_other (sd sd1 : gmap string colval) (k k' : string) :
  ModelsPy.scale_column data sd k = Ok sd1 → k ≠ k' → sd1 !! k' = sd !! k'.
Proof.
  intros Hk Hne.
  destruct (legacy_scale_column_effect data sd sd1 k k' Hk) as [H|[-> _]]; done.
Qed.

Lemma legacy_scale_column_self (sd sd1 : gmap string colval) (k : string) :
  ModelsPy.scale_column data sd k = Ok sd1 → k ∉ ModelsPy.excluded_values →
  ∃ d training lo hi s,
    data = Some d ∧ d !! k = Some training
    ∧ py_min training = Ok lo ∧ py_max training = Ok hi
    ∧ sd !! k = Some (ColSeries s)
    ∧ sd1 !! k = Some (ColSeries (scale_series (Finite lo) (Finite (hi - lo)) s)).
Proof.
  unfold ModelsPy.scale_column, has_key. intros Hk Hex.
  rewrite bool_decide_eq_false_2 in Hk by done.
  destruct data as [d|]; [|done].
  unfold py_dict_get in Hk.
  destruct (d !! k) as [training|] eqn:Hd; [|done].
  cbn [mbind result_bind rbind] in Hk.
  destruct (py_min training) as [lo|] eqn:Hlo; [|done].
  cbn [mbind result_bind rbind] in Hk.
  destruct (py_max training) as [hi|] eqn:Hhi; [|done].
  cbn [mbind result_bind rbind] in Hk.
  destruct (sd !! k) as [[s|l]|] eqn:Hs; cbn [mbind result_bind rbind] in Hk; [|done..].
  injection Hk as <-. exists d, training, lo, hi, s.
  by rewrite lookup_insert_eq.
Qed.

Lemma legacy_scale_column_excluded (sd : gmap string colval) (k : string) :
  k ∈ ModelsPy.excluded_values → ModelsPy.scale_column data sd k = Ok sd.
Proof.
  intros Hex. unfold ModelsPy.scale_column, has_key. by rewrite bool_decide_eq_true_2.
Qed.

(** The older scaling loop over distinct keys: a requested column that
    is not excluded ends as the scaled image of what it was, with the
    minimum and the range of its training column; every other entry of
    the dictionary is unchanged. *)
Lemma legacy_scale_columns_lookup (keys : list string) :
  ∀ sd0 sd, NoDup keys → ModelsPy.scale_columns data keys sd0 = Ok sd →
    ∀ k,
      (k ∈ keys → k ∉ ModelsPy.excluded_values →
       ∃ d training lo hi s,
         data = Some d ∧ d !! k = Some training
         ∧ py_min training = Ok lo ∧ py_max training = Ok hi
         ∧ sd0 !! k = Some (ColSeries s)
         ∧ sd !! k = Some (ColSeries (scale_series (Finite lo) (Finite (hi - lo)) s)))
      ∧ (k ∉ keys ∨ k ∈ ModelsPy.excluded_values → sd !! k = sd0 !! k).
Proof.
  induction keys as [|k0 keys IH]; intros sd0 sd Hnd Hrun k.
  - injection Hrun as <-. split; [by intros Hk%elem_of_nil | done].
  - rewrite legacy_scale_columns_cons in Hrun.
    destruct (ModelsPy.scale_column data sd0 k0) as [sd1|e] eqn:H0; [|done].
    apply list.NoDup_cons in Hnd as [Hk0 Hnd].
    destruct (IH sd1 sd Hnd Hrun k) as [IHin IHout].
    split.
    + intros Hk Hex. apply elem_of_cons in Hk as [->|Hk].
      * destruct (legacy_scale_column_self _ _ _ H0 Hex)
          as (d & training & lo & hi & s & Hd & Ht & Hlo & Hhi & Hs & Hs1).
        exists d, training, lo, hi, s. do 5 (split; [done|]).
        rewrite <- Hs1. apply (proj2 (IH sd1 sd Hnd Hrun k0)). by left.
      * destruct (IHin Hk Hex)
          as (d & training & lo & hi & s & Hd & Ht & Hlo & Hhi & Hs & Hsd).
        exists d, training, lo, hi, s. do 4 (split; [done|]). split; [|done].
        rewrite <- Hs. symmetry. eapply legacy_scale_column_other; [exact H0|].
        intros ->. done.
    + intros [Hk|Hex].
      * apply not_elem_of_cons in Hk as [Hne Hk].
        rewrite (IHout (or_introl Hk)). by eapply legacy_scale_column_other.
      * rewrite (IHout (or_intror Hex)).
        destruct (decide (k0 = k)) as [->|Hne]; [|by eapply legacy_scale_column_other].
        rewrite legacy_scale_column_excluded in H0 by done. by injection H0 as <-.
Qed.

End LegacyScalingLoop.

Section ScaledColumn.

(** [(column_values - low) / diff] on a Series, value by value. *)
Lemma scale_series_pointwise (low diff : num) (s : Series) :
  scale_series low diff s
  = mkSeries (sstart s) ((λ v, ((v - low) / diff)%num) <$> svals s).
Proof.
  unfold scale_series, series_div_scalar, series_sub_scalar, smap. cbn [sstart svals].
  f_equal. by rewrite <- list_fmap_compose.
Qed.

Lemma scaled_finite (lo range v : Qc) :
  range ≠ 0 → ((Finite v - Finite lo) / Finite range)%num = Finite ((v - lo) / range).
Proof. intros Hr. apply (scale_value_finite lo range v Hr). Qed.

End ScaledColumn.

(** C8.  Scaling is [(value - min) / range], and both scaling loops apply
    it.  Take a column that is not excluded, with parameters fitted on a
    training column: its minimum [lo] and its range [hi - lo], not zero,
    which [getInfoToday] computes from [self.data] and
    [indicators_past_num_days] reads from [scaler_data].  One pass of
    either loop replaces the Series of the column by the Series, on the
    same labels, of the values [(v - lo) / (hi - lo)], and leaves the other
    entries alone; the whole loop over distinct keys leaves that Series
    under the column.  A value equal to the minimum becomes 0 and a value
    equal to the maximum becomes 1.  With min 10 and range 10 the values
    15, 10 and 20 become 0.5, 0 and 1 in both files. *)
Theorem scaling_min_to_0_max_to_1
    (excluded_values : list string)
    (scaler_data : gmap string StockBot.scaler_entry)
    (data : gmap string (list Qc))
    (keys : list string) (stock_data : gmap string colval)
    (column : string) (s : Series) (training : list Qc) (lo hi : Qc) :
  column ∉ excluded_values →
  column ∉ ModelsPy.excluded_values →
  scaler_data !! column = Some (StockBot.mkScaler (Finite lo) (Finite (hi - lo))) →
  data !! column = Some training →
  py_min training = Ok lo →
  py_max training = Ok hi →
  hi - lo ≠ 0 →
  stock_data !! column = Some (ColSeries s) →
  let scaled :=
    mkSeries (sstart s) ((λ v, ((v - Finite lo) / Finite (hi - lo))%num) <$> svals s) in
  let three :=
    <["Close" := ColSeries (of_list [Finite (Q2Qc 0.5); Finite 0; Finite 1])]>
      Examples.three_prices in
  (lo ∈ training ∧ hi ∈ training ∧ ∀ x, x ∈ training → lo ≤ x ∧ x ≤ hi)
  ∧ StockBot.scale_column excluded_values scaler_data stock_data column
    = Ok (<[column := ColSeries scaled]> stock_data)
  ∧ ModelsPy.scale_column (Some data) stock_data column
    = Ok (<[column := ColSeries scaled]> stock_data)
  ∧ (NoDup keys → column ∈ keys →
     (∀ sd, StockBot.scale_columns excluded_values scaler_data keys stock_data = Ok sd →
            sd !! column = Some (ColSeries scaled))
     ∧ (∀ sd, ModelsPy.scale_columns (Some data) keys stock_data = Ok sd →
              sd !! column = Some (ColSeries scaled)))
  ∧ (∀ i v, svals s !! i = Some (Finite v) →
            svals scaled !! i = Some (Finite ((v - lo) / (hi - lo))))
  ∧ (∀ i, svals s !! i = Some (Finite lo) → svals scaled !! i = Some (Finite 0))
  ∧ (∀ i, svals s !! i = Some (Finite hi) → svals scaled !! i = Some (Finite 1))
  ∧ StockBot.scale_column [] Examples.close_scaler Examples.three_prices "Close" = Ok three
  ∧ ModelsPy.scale_column (Some Examples.close_training) Examples.three_prices "Close"
    = Ok three.
Proof.
  intros Hex Hlex Hsc Hd Hlo Hhi Hr Hs scaled three.
  assert (Hscaled : scale_series (Finite lo) (Finite (hi - lo)) s = scaled)
    by apply scale_series_pointwise.
  assert (Hval : ∀ i v, svals s !! i = Some (Finite v) →
            svals scaled !! i = Some (Finite ((v - lo) / (hi - lo)))).
  { intros i v Hi. subst scaled. cbn [svals].
    rewrite list_lookup_fmap, Hi. cbn [fmap option_fmap option_map].
    by rewrite scaled_finite. }
  destruct (py_min_spec _ _ Hlo) as [Hlo_in Hle].
  destruct (py_max_spec _ _ Hhi) as [Hhi_in Hge].
  split; [|split; [|split; [|split; [|split; [|split; [|split; [|split]]]]]]].
  - split; [done|]. split; [done|]. intros x Hx. split; [by apply Hle | by apply Hge].
  - rewrite (scale_column_series excluded_values scaler_data stock_data column _ s Hex Hsc Hs).
    cbn [StockBot.s_min StockBot.s_diff]. reflexivity.
  - rewrite (legacy_scale_column_series data stock_data column training lo hi s
               Hlex Hd Hlo Hhi Hs).
    reflexivity.
  - intros Hnd Hin. split.
    + intros sd Hrun.
      destruct (scale_columns_lookup excluded_values scaler_data keys stock_data sd
                  Hnd Hrun column) as [Hcol _].
      destruct (Hcol Hin Hex) as (e & s' & He & Hs' & Hsd).
      rewrite Hsc in He. injection He as <-.
      rewrite Hs in Hs'. injection Hs' as <-.
      by rewrite Hsd, <- Hscaled.
    + intros sd Hrun.
      destruct (legacy_scale_columns_lookup (Some data) keys stock_data sd
                  Hnd Hrun column) as [Hcol _].
      destruct (Hcol Hin Hlex)
        as (d & training' & lo' & hi' & s' & Hd' & Ht' & Hlo' & Hhi' & Hs' & Hsd).
      injection Hd' as <-.
      rewrite Hd in Ht'. injection Ht' as <-.
      rewrite Hlo in Hlo'. injection Hlo' as <-.
      rewrite Hhi in Hhi'. injection Hhi' as <-.
      rewrite Hs in Hs'. injection Hs' as <-.
      by rewrite Hsd, <- Hscaled.
  - exact Hval.
  - intros i Hi. rewrite (Hval i lo Hi). do 2 f_equal. field. done.
  - intros i Hi. rewrite (Hval i hi Hi). do 2 f_equal. field. done.
  - by_evaluation.
  - by_evaluation.
Qed.

(* ================================================================== *)
(** * The EMA columns *)
(* ================================================================== *)

Section EmaColumns.

Context (excluded_values : list string)
        (process_flips : Series → Series → list num)
        (get_liquidity_spikes : Series → option bool → option num → Series)
        (calculate_momentum_oscillator : Series → Series)
        (get_earnings_history : string → list pydate * list num).

Local Abbreviation unscaled_indicators :=
  (StockBot.unscaled_indicators process_flips get_liquidity_spikes
     calculate_momentum_oscillator).
Local Abbreviation legacy_unscaled :=
  (ModelsPy.unscaled_indicators process_flips get_liquidity_spikes
     calculate_momentum_oscillator).

(** The filter on the prices themselves. *)
Lemma ewm_mean_recurrence (span : Z) (close : list Qc) :
  let ema := ewm_mean span close in
  let a := 2 / (Qc_of_Z span + 1) in
  length ema = length close
  ∧ ema !! 0%nat = close !! 0%nat
  ∧ ∀ t, (1 ≤ t < length close)%nat →
      ∃ x y, close !! t = Some x
             ∧ ema !! (t - 1)%nat = Some y
             ∧ ema !! t = Some (a * x + (1 - a) * y).
Proof.
  intros ema a. subst ema. split; [apply length_ewm_mean|]. split.
  - by destruct close.
  - intros t [Ht1 Ht2]. destruct t as [|t]; [lia|].
    destruct (lookup_lt_is_Some_2 close (S t) Ht2) as [x Hx].
    destruct (ewm_mean_step span close t x Hx) as (y & Hy & Hs).
    exists x, y. split; [done|].
    replace (S t - 1)%nat with t by lia. done.
Qed.

(** The entries of the older dictionary under the three EMA keys. *)
Lemma legacy_unscaled_ema_columns (num_days period : nat) (df : DataFrame)
    (span : Z) (key : string) :
  (span, key) ∈ [(12%Z, "12-day EMA"); (26%Z, "26-day EMA"); (200%Z, "200-day EMA")] →
  legacy_unscaled num_days period df !! key
  = Some (ColSeries (iloc_tail 60 (ewm_series span df))).
Proof.
  intros Hk. unfold ModelsPy.unscaled_indicators.
  repeat (apply elem_of_cons in Hk as [[= -> ->]|Hk]);
    [..|by apply elem_of_nil in Hk];
    repeat (rewrite lookup_insert_ne by done); apply lookup_insert_eq.
Qed.

Lemma unscaled_ema_columns (keys : list string) (num_days : nat) (df : DataFrame)
    (span : Z) (key : string) :
  (span, key) ∈ [(12%Z, "12-day EMA"); (26%Z, "26-day EMA"); (200%Z, "200-day EMA")] →
  key ∈ keys →
  unscaled_indicators keys df num_days !! key
  = Some (ColSeries (iloc_tail num_days (ewm_series span df))).
Proof.
  intros Hk Hin.
  destruct (unscaled_indicators_columns process_flips get_liquidity_spikes
              calculate_momentum_oscillator keys df num_days)
    as (H12 & H26 & H200 & _).
  repeat (apply elem_of_cons in Hk as [[= -> ->]|Hk]);
    [by apply H12 | by apply H26 | by apply H200 | by apply elem_of_nil in Hk].
Qed.

Lemma ema_key_not_special (span : Z) (key : string) :
  (span, key) ∈ [(12%Z, "12-day EMA"); (26%Z, "26-day EMA"); (200%Z, "200-day EMA")] →
  (key ∉ ModelsPy.excluded_values)
  ∧ key ≠ "earning diffs" ∧ key ≠ "earnings dates" ∧ key ≠ "earnings diff".
Proof.
  intros Hk.
  repeat (apply elem_of_cons in Hk as [[= -> ->]|Hk]);
    [..|by apply elem_of_nil in Hk];
    (split; [apply (bool_decide_unpack _); by vm_compute | done]).
Qed.

End EmaColumns.

(** C5.  For each of the spans 12, 26 and 200 and every non-empty frame
    there is a series [ema] with one value per Close, [ema[0] = close[0]]
    and [ema[t] = alpha*close[t] + (1-alpha)*ema[t-1]], [alpha = 2/(s+1)],
    for every [t >= 1], and it is the EMA of the code: what
    [indicators_past_num_days] puts under the key of the span (when the
    key is requested) is the last [num_days] labels of [ema], what
    [getInfoToday] puts there its last 60 labels; and what the two return
    for the key is that window of [ema] scaled with the parameters of the
    key, the information keys being distinct. *)
Theorem ema_recurrence
    (excluded_values : list string)
    (process_flips : Series → Series → list num)
    (get_liquidity_spikes : Series → option bool → option num → Series)
    (calculate_momentum_oscillator : Series → Series)
    (get_earnings_history : string → list pydate * list num)
    (span : Z) (key : string) (keys : list string)
    (num_days legacy_num_days period : nat) (df : DataFrame) :
  df ≠ [] →
  (span, key) ∈ [(12%Z, "12-day EMA"); (26%Z, "26-day EMA"); (200%Z, "200-day EMA")] →
  let close := col_close df in
  let a := 2 / (Qc_of_Z span + 1) in
  ∃ ema : list Qc,
    length ema = length close
    ∧ ema !! 0%nat = close !! 0%nat
    ∧ (∀ t, (1 ≤ t < length close)%nat →
         ∃ x y, close !! t = Some x
                ∧ ema !! (t - 1)%nat = Some y
                ∧ ema !! t = Some (a * x + (1 - a) * y))
    ∧ (key ∈ keys →
       StockBot.unscaled_indicators process_flips get_liquidity_spikes
         calculate_momentum_oscillator keys df num_days !! key
       = Some (ColSeries (iloc_tail num_days (of_list (Finite <$> ema)))))
    ∧ ModelsPy.unscaled_indicators process_flips get_liquidity_spikes
        calculate_momentum_oscillator legacy_num_days period df !! key
      = Some (ColSeries (iloc_tail 60 (of_list (Finite <$> ema))))
    ∧ (∀ symbol end_date scaler_data sd,
         NoDup keys → key ∈ keys → key ∉ excluded_values →
         StockBot.indicators_past_num_days excluded_values process_flips
           get_liquidity_spikes calculate_momentum_oscillator get_earnings_history
           symbol end_date keys scaler_data df num_days = Ok sd →
         ∃ e, scaler_data !! key = Some e
              ∧ sd !! key
                = Some (ColSeries (scale_series (StockBot.s_min e) (StockBot.s_diff e)
                          (iloc_tail num_days (of_list (Finite <$> ema))))))
    ∧ (∀ history (s : ModelsPy.BaseModel) rows i,
         history (ModelsPy.stock_symbol s) (ModelsPy.end_date s - 260)%Z
                 (ModelsPy.end_date s) = df →
         NoDup (ModelsPy.information_keys s) →
         ModelsPy.information_keys s !! i = Some key →
         ModelsPy.getInfoToday process_flips get_liquidity_spikes
           calculate_momentum_oscillator get_earnings_history (Some history) period s
         = Ok rows →
         ∃ d training lo hi,
           ModelsPy.data s = Some d ∧ d !! key = Some training
           ∧ py_min training = Ok lo ∧ py_max training = Ok hi
           ∧ rows !! i
             = Some (svals (scale_series (Finite lo) (Finite (hi - lo))
                              (iloc_tail 60 (of_list (Finite <$> ema)))))).
Proof.
  intros Hne Hkey close a.
  destruct (ewm_mean_recurrence span close) as (Hlen & H0 & Hstep).
  destruct (ema_key_not_special span key Hkey) as (Hlex & Hne1 & Hne2 & Hne3).
  exists (ewm_mean span close).
  change (of_list (Finite <$> ewm_mean span close)) with (ewm_series span df).
  split; [exact Hlen|]. split; [exact H0|]. split; [exact Hstep|].
  split; [|split; [|split]].
  - intros Hin. by apply unscaled_ema_columns.
  - by apply legacy_unscaled_ema_columns.
  - intros symbol end_date scaler_data sd Hnd Hin Hex Hrun.
    destruct (indicators_past_num_days_column excluded_values process_flips
                get_liquidity_spikes calculate_momentum_oscillator get_earnings_history
                symbol end_date keys scaler_data df num_days sd key
                Hnd Hrun Hin Hex Hne1 Hne2) as (e & s0 & He & Hs0 & Hsd).
    rewrite (unscaled_ema_columns process_flips get_liquidity_spikes
               calculate_momentum_oscillator keys num_days df span key Hkey Hin) in Hs0.
    injection Hs0 as <-. by exists e.
  - intros history s rows i Hdf Hnd Hi. unfold ModelsPy.getInfoToday.
    destruct (ModelsPy.cached s); [done|]. rewrite Hdf.
    unfold ModelsPy.getInfoToday_body.
    destruct (ModelsPy.earnings_diff_column _ _ _) as [earnings|]; [|done].
    cbn [mbind result_bind rbind].
    destruct (ModelsPy.scale_columns _ _ _) as [sd|] eqn:Hsc; [|done].
    cbn [mbind result_bind rbind].
    intros Hout.
    destruct (values_tolist_lookup _ _ _ Hout i key Hi) as (col & Hcol & Hrow).
    destruct (legacy_scale_columns_lookup _ _ _ _ Hnd Hsc key) as [Hin _].
    destruct (Hin (list_elem_of_lookup_2 _ _ _ Hi) Hlex)
      as (d & training & lo & hi & s0 & Hd & Ht & Hlo & Hhi & Hs0 & Hsd).
    rewrite lookup_insert_ne in Hs0 by done.
    rewrite (legacy_unscaled_ema_columns process_flips get_liquidity_spikes
               calculate_momentum_oscillator (ModelsPy.num_days s) period df span key Hkey)
      in Hs0.
    injection Hs0 as <-.
    rewrite Hsd in Hcol. injection Hcol as <-.
    by exists d, training, lo, hi.
Qed.

(* ================================================================== *)
(** * TRAMA on every label of the window *)
(* ================================================================== *)

(** C7, amended.  In both files the TRAMA of a day of the window is the
    14-period rolling mean of Close (NaN until the window holds 14 prices)
    plus 0.1 times the absolute first difference of that one day,
    [|close[t] - close[t-1]|] (NaN on the frame's first day): the volatility
    term is pointwise.  The window of [indicators_past_num_days] is the
    last [num_days] labels of the frame (the whole frame for [num_days]
    0 or beyond its length), the window of [getInfoToday] the last 60; the
    TRAMA series has a value on exactly those labels, it is the series
    stored under ['TRAMA'], and the equation holds on each of them. *)
Theorem trama_is_rolling_mean_plus_pointwise_volatility
    (num_days : nat) (df : DataFrame) (t : nat) :
  (t < length df)%nat →
  let close := Finite <$> col_close df in
  let change := match t with
                | O => NaN
                | S t' => (default NaN (close !! t) - default NaN (close !! t'))%num
                end in
  let value := (mean_of 14 (window_at 14 t close)
                + Num.abs change * Finite (Q2Qc 0.1))%num in
  let trama := StockBot.trama_series num_days df in
  let legacy_trama := ModelsPy.trama_series 14 df in
  (covers trama t ↔ (tail_offset num_days (length df) ≤ t)%nat)
  ∧ ((tail_offset num_days (length df) ≤ t)%nat → at_label trama t = value)
  ∧ (covers legacy_trama t ↔ (tail_offset 60 (length df) ≤ t)%nat)
  ∧ ((tail_offset 60 (length df) ≤ t)%nat → at_label legacy_trama t = value)
  ∧ (∀ process_flips get_liquidity_spikes calculate_momentum_oscillator keys,
       "TRAMA" ∈ keys →
       StockBot.unscaled_indicators process_flips get_liquidity_spikes
         calculate_momentum_oscillator keys df num_days !! "TRAMA"
       = Some (ColSeries trama))
  ∧ (∀ process_flips get_liquidity_spikes calculate_momentum_oscillator legacy_num_days,
       ModelsPy.unscaled_indicators process_flips get_liquidity_spikes
         calculate_momentum_oscillator legacy_num_days 14 df !! "TRAMA"
       = Some (ColSeries legacy_trama)).
Proof.
  intros Ht close change value trama legacy_trama.
  assert (Hd : default NaN (diff_list close !! t) = change).
  { rewrite diff_list_lookup; [done|]. unfold close, col_close. rewrite !length_fmap. lia. }
  destruct (trama_shape 14 num_days df t) as [Hcov Hval].
  destruct (trama_shape 14 60 df t) as [Hcov60 Hval60].
  subst value. rewrite <- Hd.
  split; [|split; [|split; [|split; [|split]]]].
  - split; [intros Hc; by apply Hcov in Hc as [? _] | intros Hle; by apply Hcov].
  - intros Hle. by apply Hval, Hcov.
  - split; [intros Hc; by apply Hcov60 in Hc as [? _] | intros Hle; by apply Hcov60].
  - intros Hle. by apply Hval60, Hcov60.
  - intros process_flips get_liquidity_spikes calculate_momentum_oscillator keys Hin.
    by apply (unscaled_indicators_columns process_flips get_liquidity_spikes
                calculate_momentum_oscillator keys df num_days).
  - intros process_flips get_liquidity_spikes calculate_momentum_oscillator legacy_num_days.
    unfold ModelsPy.unscaled_indicators.
    repeat (rewrite lookup_insert_ne by done). apply lookup_insert_eq.
Qed.

(* ================================================================== *)
(** * predict with a given info *)
(* ================================================================== *)

Section LegacyPredict.

Context (process_flips : Series → Series → list num)
        (get_liquidity_spikes : Series → option bool → option num → Series)
        (calculate_momentum_oscillator : Series → Series)
        (get_earnings_history : string → list pydate * list num)
        (yf : option (string → Z → Z → DataFrame))
        (np_empty_truth : result bool).

Local Abbreviation legacy_predict :=
  (ModelsPy.predict process_flips get_liquidity_spikes calculate_momentum_oscillator
                    get_earnings_history yf np_empty_truth).

(** An array of two or more elements has no truth value. *)
Lemma np_bool_ambiguous (a : ndarray) :
  (2 ≤ length (np_flat a))%nat → np_bool np_empty_truth a = Raise ValueError.
Proof.
  unfold np_bool. destruct (np_flat a) as [|x [|y l]]; simpl; [lia | lia | done].
Qed.

(** The older [predict] on an array that has no truth value: the test
    [if not info:] raises before the model is looked at. *)
Lemma legacy_predict_ambiguous (a : ndarray) (s : ModelsPy.BaseModel) :
  (2 ≤ length (np_flat a))%nat →
  legacy_predict (Some (ModelsPy.InfoArray a)) s = Raise ValueError.
Proof.
  intros Ha. unfold ModelsPy.predict, ModelsPy.not_info.
  by rewrite np_bool_ambiguous.
Qed.

(** The older [predict] on an [info] whose truth value is false: the
    given [info] is dropped and [getInfoToday] is called, as for [None]. *)
Lemma legacy_predict_falsy (given : ModelsPy.pyinfo) (s : ModelsPy.BaseModel) :
  ModelsPy.not_info np_empty_truth given = Ok true →
  legacy_predict (Some given) s = legacy_predict None s.
Proof. intros Hn. unfold ModelsPy.predict. by rewrite Hn. Qed.

(** The older [predict] on an [info] whose truth value is true. *)
Lemma legacy_predict_truthy (given : ModelsPy.pyinfo) (s : ModelsPy.BaseModel) :
  ModelsPy.not_info np_empty_truth given = Ok false →
  legacy_predict (Some given) s
  = match ModelsPy.model s with
    | Some net => Ok (net given)
    | None => Raise LookupError
    end.
Proof. intros Hn. unfold ModelsPy.predict. by rewrite Hn. Qed.

End LegacyPredict.

(** C10 holds in [models.py] and fails in [src/Models.py].  [models.py]
    tests [info is None]: on every given [info] its [predict] raises
    [LookupError] without a model, changing neither the instance nor the
    warnings, and returns the model's prediction on that [info] with one.
    [src/Models.py] tests [if not info:], the truth value of [info].  On
    [np.array([[1.0, 2.0]])], as on every array of two or more elements,
    the test itself raises [ValueError]: with no model there is no
    [LookupError], with a model no prediction.  On the empty list and on
    the array of one zero the test holds, and [predict] drops the given
    [info] and calls [getInfoToday] as if none were given: on [BaseModel()]
    that ends in [NameError] as the file stands.  Only on an [info] whose
    truth value is true does the older [predict] do what the claim says. *)
Theorem legacy_predict_tests_truth_of_info :
  let given := ModelsPy.InfoArray (Arr2 2 [[Num.of_Z 1; Num.of_Z 2]]) in
  let loaded net :=
    ModelsPy.mkBaseModel 0 100 "AAPL" ["Close"] 60 None (Some net) None in
  (∀ excluded_values is_floats process_flips get_liquidity_spikes
     calculate_momentum_oscillator get_earnings_history yf_history nyse_schedule
     info_json (info : ndarray) (w : StockBot.world),
     StockBot.predict excluded_values is_floats process_flips get_liquidity_spikes
       calculate_momentum_oscillator get_earnings_history yf_history nyse_schedule
       info_json (Some info) w
     = (match StockBot.model (StockBot.self w) with
        | Some net => Ok (net info)
        | None => Raise LookupError
        end, w))
  ∧ (∀ process_flips get_liquidity_spikes calculate_momentum_oscillator
       get_earnings_history yf np_empty_truth,
       let predict :=
         ModelsPy.predict process_flips get_liquidity_spikes
           calculate_momentum_oscillator get_earnings_history yf np_empty_truth in
       ModelsPy.model Examples.legacy_fresh = None
       ∧ predict (Some given) Examples.legacy_fresh = Raise ValueError
       ∧ predict (Some given) Examples.legacy_fresh ≠ Raise LookupError
       ∧ (∀ net, predict (Some given) (loaded net) = Raise ValueError
                 ∧ predict (Some given) (loaded net) ≠ Ok (net given))
       ∧ (∀ a s, (2 ≤ length (np_flat a))%nat →
                 predict (Some (ModelsPy.InfoArray a)) s = Raise ValueError)
       ∧ (∀ s, predict (Some (ModelsPy.InfoList [])) s = predict None s)
       ∧ (∀ s, predict (Some (ModelsPy.InfoArray (Arr1 [Finite 0]))) s = predict None s)
       ∧ (∀ info s, ModelsPy.not_info np_empty_truth info = Ok false →
                    predict (Some info) s
                    = match ModelsPy.model s with
                      | Some net => Ok (net info)
                      | None => Raise LookupError
                      end))
  ∧ (∀ process_flips get_liquidity_spikes calculate_momentum_oscillator
       get_earnings_history np_empty_truth,
       ModelsPy.predict process_flips get_liquidity_spikes calculate_momentum_oscillator
         get_earnings_history None np_empty_truth
         (Some (ModelsPy.InfoList [])) Examples.legacy_fresh
       = Raise NameError).
Proof.
  intros given loaded. split; [|split].
  - intros. unfold StockBot.predict, StockBot.bind, StockBot.ret, StockBot.get_self.
    simpl. by destruct (StockBot.model (StockBot.self w)).
  - intros process_flips get_liquidity_spikes calculate_momentum_oscillator
      get_earnings_history yf np_empty_truth predict.
    assert (Hgiven : ∀ s, predict (Some given) s = Raise ValueError).
    { intros s. apply legacy_predict_ambiguous. simpl. lia. }
    split; [reflexivity|]. split; [apply Hgiven|].
    split; [by rewrite Hgiven|].
    split; [intros net; by rewrite Hgiven|].
    split; [intros a s Ha; by apply legacy_predict_ambiguous|].
    split; [intros s; by apply legacy_predict_falsy|].
    split; [intros s; apply legacy_predict_falsy; by_evaluation|].
    intros info s Hn. by apply legacy_predict_truthy.
  - intros. reflexivity.
Qed.

(* ================================================================== *)
(** * The theorems above on concrete inputs *)
(* ================================================================== *)

Lemma offline_population_checks_dates_witness :
  StockBot.update_cached_offline [] Scenarios.no_file
    (Examples.world_of Examples.fresh_model)
  = (Raise FileNotFoundError, StockBot.mkWorld Examples.fresh_model ["For Testing"])
  ∧ StockBot.update_cached_offline [] Examples.flat_snapshot
      (Examples.world_of Scenarios.late_model)
    = (Raise ValueError, StockBot.mkWorld Scenarios.late_model ["For Testing"]).
Proof.
  split.
  - apply (offline_population_checks_dates [] Scenarios.no_file
             (Examples.world_of Examples.fresh_model)); reflexivity.
  - apply (proj2 (offline_population_checks_dates [] Examples.flat_snapshot
                    (Examples.world_of Scenarios.late_model) eq_refl)
                 (Spec.close_snapshot Examples.flat_days)); [reflexivity|].
    right. by_evaluation.
Defined.

Lemma offline_population_empty_window_witness :
  let w := Examples.world_of Scenarios.keyless_model in
  let stored :=
    StockBot.set_cached_info (StockBot.Offline (Spec.close_snapshot Examples.flat_days))
      (StockBot.set_cached (Some (Arr1 [])) Scenarios.keyless_model) in
  StockBot.update_cached_offline [] Examples.flat_snapshot w
  = (Raise RuntimeError, StockBot.mkWorld stored ["For Testing"])
  ∧ StockBot.update_cached_offline [] Examples.flat_snapshot
      (StockBot.mkWorld stored ["For Testing"])
    = (Ok (), StockBot.mkWorld stored ["For Testing"; "For Testing"]).
Proof.
  apply (offline_population_empty_window [] Examples.flat_snapshot
           (Examples.world_of Scenarios.keyless_model)
           (Spec.close_snapshot Examples.flat_days) 2 [] (Arr1 []));
    try reflexivity.
  by_evaluation.
Defined.

Lemma offline_update_fails_with_excluded_key_witness :
  ∃ e w', StockBot.update_cached_offline ["earnings dates"] Examples.flat_snapshot
            (Examples.world_of Scenarios.dated_model) = (Raise e, w').
Proof.
  destruct (StockBot.update_cached_offline ["earnings dates"] Examples.flat_snapshot
              (Examples.world_of Scenarios.dated_model)) as [[[]|e] w'] eqn:Hrun.
  - exfalso.
    apply (offline_update_fails_with_excluded_key ["earnings dates"] Examples.flat_snapshot
             (Examples.world_of Scenarios.dated_model) "earnings dates"
             eq_refl) with (w' := w'); [by_evaluation | by_evaluation | exact Hrun].
  - by exists e, w'.
Defined.

Lemma offline_first_window_witness :
  ∃ rows,
    StockBot.update_cached_offline [] Examples.flat_snapshot
      (Examples.world_of Examples.fresh_model)
    = (Ok (),
       StockBot.mkWorld
         (StockBot.set_cached (Some (Arr2 1 rows))
            (StockBot.set_cached_info
               (StockBot.Offline (Spec.close_snapshot Examples.flat_days))
               Examples.fresh_model))
         ["For Testing"])
    ∧ length rows = 2%nat
    ∧ rows !! 1%nat = Some [Num.of_Z 15].
Proof.
  destruct (offline_first_window [] Examples.flat_snapshot
              (Examples.world_of Examples.fresh_model)
              (Spec.close_snapshot Examples.flat_days) 2)
    as (rows & Hrun & Hlen & Hrows); try reflexivity.
  - by_evaluation.
  - discriminate.
  - intros k Hk. apply list_elem_of_singleton in Hk as ->.
    split; [by_evaluation|]. exists [Num.of_Z 15; Num.of_Z 15; Num.of_Z 15].
    split; [by_evaluation | simpl; lia].
  - simpl. lia.
  - exists rows. split; [exact Hrun|]. split; [exact Hlen|].
    destruct (Hrows 1%nat) as (row & Hrow & Hat); [simpl; lia|].
    rewrite Hat. f_equal.
    assert (Hval : StockBot.snapshot_row (Spec.close_snapshot Examples.flat_days)
                     ["Close"] 2 = Ok [Num.of_Z 15]) by by_evaluation.
    assert (Heq : Ok row = Ok [Num.of_Z 15]) by (rewrite <- Hrow; exact Hval).
    by injection Heq.
Defined.

Lemma online_info_rolls_one_day_witness :
  let w := Examples.world_of Scenarios.next_day_model in
  StockBot.update_cached_info_online Scenarios.one_day w
  = (Ok (StockBot.Frame
           (tail Examples.flat_days ++ [mkBar 3 (Qc_of_Z 16) (Qc_of_Z 0)])), w).
Proof.
  destruct (online_info_rolls_one_day Scenarios.one_day
              (Examples.world_of Scenarios.next_day_model)
              (mkBar 0 (Qc_of_Z 15) (Qc_of_Z 0)) (tail Examples.flat_days))
    as [_ Hroll].
  - reflexivity.
  - by_evaluation.
  - destruct Hroll as [Hrun _]; [discriminate | exact Hrun].
Defined.

Lemma indicators_need_scaler_and_assigned_key_witness :
  ∃ e, StockBot.indicators_past_num_days [] Examples.no_flips Examples.no_spikes
         Examples.no_oscillator Examples.no_earnings "AAPL" 2
         (Classes.class_information_keys Classes.BreakoutModel)
         Examples.close_scaler Examples.flat_days 2 = Raise e.
Proof.
  destruct (StockBot.indicators_past_num_days [] Examples.no_flips Examples.no_spikes
              Examples.no_oscillator Examples.no_earnings "AAPL" 2
              (Classes.class_information_keys Classes.BreakoutModel)
              Examples.close_scaler Examples.flat_days 2) as [sd|e] eqn:Hrun;
    [exfalso | by exists e].
  apply (indicators_need_scaler_and_assigned_key [] Examples.no_flips Examples.no_spikes
           Examples.no_oscillator Examples.no_earnings "AAPL" 2
           (Classes.class_information_keys Classes.BreakoutModel)
           Examples.close_scaler Examples.flat_days 2 "Bollinger Middle")
    with (sd := sd); [by_evaluation | by_evaluation | right; by_evaluation | exact Hrun].
Defined.

Lemma online_window_of_close_witness :
  StockBot.update_cached_online [] Examples.all_floats Examples.no_flips
    Examples.no_spikes Examples.no_oscillator Examples.no_earnings
    (Examples.world_of Examples.online_model)
  = (Ok (),
     StockBot.mkWorld
       (StockBot.set_cached
          (Some (Arr2 1
             ((λ close, [scale_value (Num.of_Z 10) (Num.of_Z 10) (Finite close)])
              <$> [Qc_of_Z 15; Qc_of_Z 15])))
          Examples.online_model)
       []).
Proof.
  apply (online_window_of_close [] Examples.all_floats Examples.no_flips
           Examples.no_spikes Examples.no_oscillator Examples.no_earnings
           (Examples.world_of Examples.online_model) Examples.flat_days
           (StockBot.mkScaler (Num.of_Z 10) (Num.of_Z 10))); try reflexivity.
  by_evaluation.
Defined.


Lemma zero_range_scales_to_non_finite_witness :
  ∃ s', StockBot.scale_column [] Scenarios.zero_range_scaler Scenarios.one_close "Close"
        = Ok (<["Close" := ColSeries s']> Scenarios.one_close)
        ∧ slen s' = 1%nat
        ∧ ∀ v q, v ∈ svals s' → v ≠ Finite q.
Proof.
  apply (zero_range_scales_to_non_finite [] Scenarios.zero_range_scaler
           Scenarios.one_close "Close"
           (StockBot.mkScaler (Num.of_Z 10) (Finite 0)) (of_list [Num.of_Z 15]));
    try reflexivity.
  by_evaluation.
Defined.


Lemma legacy_earnings_keys_never_return_witness :
  ∃ e, ModelsPy.getInfoToday Examples.no_flips Examples.no_spikes Examples.no_oscillator
         Examples.no_earnings (Some Examples.no_history) 14
         Scenarios.legacy_earnings_model = Raise e.
Proof.
  destruct (ModelsPy.getInfoToday Examples.no_flips Examples.no_spikes
              Examples.no_oscillator Examples.no_earnings (Some Examples.no_history) 14
              Scenarios.legacy_earnings_model) as [out|e] eqn:Hrun;
    [exfalso | by exists e].
  apply (legacy_earnings_keys_never_return Examples.no_flips Examples.no_spikes
           Examples.no_oscillator Examples.no_earnings (Some Examples.no_history) 14
           Scenarios.legacy_earnings_model "earnings diff")
    with (out := out); [by_evaluation | by left | exact Hrun].
Defined.

Lemma legacy_close_is_not_cut_witness :
  ∃ out close other,
    ModelsPy.getInfoToday Examples.no_flips Examples.no_spikes Examples.no_oscillator
      Examples.no_earnings (Some Scenarios.long_history) 14 Scenarios.legacy_trained
    = Ok out
    ∧ out !! 0%nat = Some close ∧ out !! 1%nat = Some other
    ∧ length close = 61%nat ∧ length other = 60%nat.
Proof.
  destruct (ModelsPy.getInfoToday Examples.no_flips Examples.no_spikes
              Examples.no_oscillator Examples.no_earnings (Some Scenarios.long_history)
              14 Scenarios.legacy_trained) as [out|e] eqn:Hrun.
  - destruct (legacy_close_is_not_cut Examples.no_flips Examples.no_spikes
                Examples.no_oscillator Examples.no_earnings Scenarios.long_history 14
                Scenarios.legacy_trained out 0 1 "Change" Hrun)
      as (close & other & H0 & H1 & Hc & Ho); [reflexivity | reflexivity | by_evaluation |].
    exists out, close, other. split; [done|]. split; [done|]. split; [done|].
    split; [exact Hc | exact Ho].
  - exfalso. vm_compute in Hrun. discriminate Hrun.
Defined.

Lemma movement_score_range_witness :
  Metrics.calculate_percentage_movement_together [Num.of_Z 10] []
  = Raise ZeroDivisionError
  ∧ ∃ percentage percentage2,
      Metrics.calculate_percentage_movement_together
        [Num.of_Z 10; Num.of_Z 11; Num.of_Z 9] [Num.of_Z 10; Num.of_Z 12; Num.of_Z 8]
      = Ok (percentage, percentage2)
      ∧ 0 ≤ percentage ∧ percentage ≤ Qc_of_Z 100
      ∧ 0 ≤ percentage2 ∧ percentage2 ≤ Qc_of_Z 100.
Proof.
  split.
  - apply (proj1 (movement_score_range [Num.of_Z 10] [])). reflexivity.
  - apply (proj2 (movement_score_range
                    [Num.of_Z 10; Num.of_Z 11; Num.of_Z 9]
                    [Num.of_Z 10; Num.of_Z 12; Num.of_Z 8])); simpl; lia.
Defined.

Lemma movement_score_of_flat_truth_witness :
  Metrics.calculate_percentage_movement_together (replicate 3 (Num.of_Z 15)) []
  = Ok (0, 0).
Proof. apply (movement_score_of_flat_truth (Num.of_Z 15) 3 []). lia. Defined.

Lemma movement_score_of_perfect_prediction_witness :
  Metrics.calculate_percentage_movement_together
    (Finite <$> [Qc_of_Z 10; Qc_of_Z 11; Qc_of_Z 9])
    (Finite <$> [Qc_of_Z 10; Qc_of_Z 11; Qc_of_Z 9])
  = Ok (Qc_of_Z 100, Qc_of_Z 100).
Proof.
  apply (movement_score_of_perfect_prediction [Qc_of_Z 10; Qc_of_Z 11; Qc_of_Z 9]).
  - simpl. lia.
  - intros i x y Hx Hy. destruct i as [|[|i]]; simpl in Hx, Hy.
    + injection Hx as <-. injection Hy as <-. by_evaluation.
    + injection Hx as <-. injection Hy as <-. by_evaluation.
    + destruct i; discriminate.
Defined.

Lemma penalties_between_0_and_2_witness :
  ∃ direction space,
    Losses.direction_penalty [Qc_of_Z 1; Qc_of_Z 2; Qc_of_Z 3]
                             [Qc_of_Z 1; Qc_of_Z 0; Qc_of_Z 5] = Finite direction
    ∧ Losses.space_penalty [Qc_of_Z 1; Qc_of_Z 2; Qc_of_Z 3]
                           [Qc_of_Z 1; Qc_of_Z 0; Qc_of_Z 5] = Finite space
    ∧ 0 ≤ direction ∧ direction ≤ 2 ∧ 0 ≤ space ∧ space ≤ 2.
Proof.
  apply (penalties_between_0_and_2 [Qc_of_Z 1; Qc_of_Z 2; Qc_of_Z 3]
                                   [Qc_of_Z 1; Qc_of_Z 0; Qc_of_Z 5]);
    [reflexivity | simpl; lia].
Defined.

Lemma direction_penalty_ignores_level_witness :
  Losses.direction_penalty [Qc_of_Z 1; Qc_of_Z 2]
                           ((λ v, v + Qc_of_Z 5) <$> [Qc_of_Z 1; Qc_of_Z 2])
  = Finite 0.
Proof.
  apply (direction_penalty_ignores_level [Qc_of_Z 1; Qc_of_Z 2] (Qc_of_Z 5)).
  simpl. lia.
Defined.

Lemma losses_are_nan_on_a_single_sample_witness :
  Losses.CustomLoss_call (λ _ _, Finite 0) (λ _ _, Finite 0) [Qc_of_Z 1] [Qc_of_Z 2] = NaN
  ∧ Losses.CustomLoss2_call (λ _ _, Finite 0) (λ _ _, Finite 0) [Qc_of_Z 1] [Qc_of_Z 2]
    = NaN.
Proof.
  apply (losses_are_nan_on_a_single_sample (λ _ _, Finite 0) (λ _ _, Finite 0)
           [Qc_of_Z 1] [Qc_of_Z 2]).
  simpl. lia.
Defined.

Lemma older_data_file :
  Storage.data_files Scenarios.older_files !! Storage.data_path "AAPL"
  = Some (Some (<["Dates" := Storage.JDates [0; 1]%Z]>
                  (<["Close" := Storage.JNums [Num.of_Z 14]]> ∅))).
Proof. apply lookup_insert_eq. Defined.

Lemma save_merges_data_witness :
  ∃ w' merged,
    Storage.save (Storage.mkWorld Scenarios.trained Scenarios.older_files) = (Ok (), w')
    ∧ Storage.data (Storage.self w') = Some merged
    ∧ merged !! "Close" = Some (Storage.JNums [Num.of_Z 15])
    ∧ merged !! "Dates" = Some (Storage.JDates [0; 1]%Z).
Proof.
  destruct (save_merges_data (Storage.mkWorld Scenarios.trained Scenarios.older_files)
              Scenarios.identity_network
              (<["Close" := Storage.JNums [Num.of_Z 15]]> ∅))
    as (w' & merged & Hrun & Hdata & _ & _ & Hk); [reflexivity | reflexivity | |].
  - intros Hnull.
    change (Storage.data_files Scenarios.older_files !! Storage.data_path "AAPL"
            = Some None) in Hnull.
    rewrite older_data_file in Hnull. discriminate Hnull.
  - exists w', merged. split; [exact Hrun|]. split; [exact Hdata|].
    split; rewrite Hk; reflexivity.
Defined.

Lemma save_filters_scaler_by_data_keys_witness :
  ∃ w' sc',
    Storage.save (Storage.mkWorld Scenarios.trained Scenarios.older_files) = (Ok (), w')
    ∧ StockBot.scaler_data (Storage.attributes (Storage.self w')) = sc'
    ∧ sc' !! "Close" = Some (StockBot.mkScaler (Num.of_Z 10) (Num.of_Z 10))
    ∧ sc' !! "MACD" = Some (StockBot.mkScaler (Num.of_Z 0) (Num.of_Z 1)).
Proof.
  destruct (save_filters_scaler_by_data_keys
              (Storage.mkWorld Scenarios.trained Scenarios.older_files)
              Scenarios.identity_network
              (<["Close" := Storage.JNums [Num.of_Z 15]]> ∅)
              (<["MACD" := StockBot.mkScaler (Num.of_Z 0) (Num.of_Z 1)]>
                 (<["Close" := StockBot.mkScaler (Num.of_Z 0) (Num.of_Z 1)]> ∅)))
    as (w' & sc' & Hrun & Hsc & _ & Hk);
    [reflexivity | reflexivity | | reflexivity |].
  - intros Hnull.
    change (Storage.data_files Scenarios.older_files !! Storage.data_path "AAPL"
            = Some None) in Hnull.
    rewrite older_data_file in Hnull. discriminate Hnull.
  - exists w', sc'. split; [exact Hrun|]. split; [exact Hsc|].
    split; rewrite Hk; reflexivity.
Defined.

Lemma load_does_not_read_what_save_wrote_witness :
  let w := Storage.mkWorld Scenarios.trained (Storage.mkFiles ∅ ∅ ∅) in
  let disk1 := Storage.disk (Storage.save w).2 in
  let after :=
    Storage.mkWorld (Storage.set_model (Some Scenarios.identity_network)
                       Scenarios.untrained) disk1 in
  Storage.load FileNotFoundError (Storage.mkWorld Scenarios.untrained disk1)
  = (Raise FileNotFoundError, after)
  ∧ Storage.data (Storage.self after) = None
  ∧ Storage.load FileNotFoundError after = (Ok None, after).
Proof.
  apply (load_does_not_read_what_save_wrote
           (Storage.mkWorld Scenarios.trained (Storage.mkFiles ∅ ∅ ∅))
           (Storage.save (Storage.mkWorld Scenarios.trained (Storage.mkFiles ∅ ∅ ∅))).2
           Scenarios.identity_network Scenarios.untrained FileNotFoundError);
    reflexivity.
Defined.

Lemma legacy_load_restores_what_save_wrote_witness :
  ∃ fs,
    LegacyStorage.save (LegacyStorage.mkWorld Scenarios.legacy_saved Scenarios.no_files)
    = (Ok (), LegacyStorage.mkWorld Scenarios.legacy_saved fs)
    ∧ LegacyStorage.load FileNotFoundError
        (LegacyStorage.mkWorld Examples.legacy_fresh fs)
      = (Ok (Some Scenarios.legacy_network),
         LegacyStorage.mkWorld
           (LegacyStorage.set_data (ModelsPy.data Scenarios.legacy_saved)
              (LegacyStorage.set_model (Some Scenarios.legacy_network)
                 Examples.legacy_fresh))
           fs).
Proof.
  apply (proj2 (legacy_load_restores_what_save_wrote
                  (LegacyStorage.mkWorld Scenarios.legacy_saved Scenarios.no_files)
                  Examples.legacy_fresh FileNotFoundError)
               Scenarios.legacy_network); reflexivity.
Defined.

Lemma scaling_min_to_0_max_to_1_witness :
  let s := of_list [Num.of_Z 15; Num.of_Z 10; Num.of_Z 20] in
  let scaled :=
    mkSeries 0 ((λ v, ((v - Num.of_Z 10) / Finite (Qc_of_Z 20 - Qc_of_Z 10))%num)
                <$> svals s) in
  StockBot.scale_column [] Examples.close_scaler Examples.three_prices "Close"
  = Ok (<["Close" := ColSeries scaled]> Examples.three_prices)
  ∧ ModelsPy.scale_column (Some Examples.close_training) Examples.three_prices "Close"
    = Ok (<["Close" := ColSeries scaled]> Examples.three_prices)
  ∧ (∃ sd, StockBot.scale_columns [] Examples.close_scaler ["Close"] Examples.three_prices
           = Ok sd
           ∧ sd !! "Close" = Some (ColSeries scaled))
  ∧ (∃ sd, ModelsPy.scale_columns (Some Examples.close_training) ["Close"]
             Examples.three_prices = Ok sd
           ∧ sd !! "Close" = Some (ColSeries scaled))
  ∧ svals scaled !! 1%nat = Some (Finite 0)
  ∧ svals scaled !! 2%nat = Some (Finite 1).
Proof.
  intros s scaled.
  assert (Hsc : Examples.close_scaler !! "Close"
                = Some (StockBot.mkScaler (Finite (Qc_of_Z 10))
                                          (Finite (Qc_of_Z 20 - Qc_of_Z 10)))).
  { unfold Examples.close_scaler. rewrite lookup_insert_eq. unfold Num.of_Z.
    do 3 f_equal. by_evaluation. }
  destruct (scaling_min_to_0_max_to_1 [] Examples.close_scaler Examples.close_training
              ["Close"] Examples.three_prices "Close" s
              [Qc_of_Z 10; Qc_of_Z 15; Qc_of_Z 20] (Qc_of_Z 10) (Qc_of_Z 20))
    as (_ & Hnew & Hold & Hloop & _ & Hmin & Hmax & _).
  - apply not_elem_of_nil.
  - by_evaluation.
  - exact Hsc.
  - apply lookup_insert_eq.
  - by_evaluation.
  - by_evaluation.
  - by_evaluation.
  - apply lookup_insert_eq.
  - destruct Hloop as [Hloop_new Hloop_old].
    + apply list.NoDup_cons. split; [apply not_elem_of_nil | apply NoDup_nil_2].
    + apply list_elem_of_here.
    + split; [exact Hnew|]. split; [exact Hold|].
      split; [|split; [|split]].
      * eexists. split; [|apply Hloop_new];
          unfold StockBot.scale_columns; cbn [foldl mbind result_bind rbind]; exact Hnew.
      * eexists. split; [|apply Hloop_old];
          unfold ModelsPy.scale_columns; cbn [foldl mbind result_bind rbind]; exact Hold.
      * apply (Hmin 1%nat). reflexivity.
      * apply (Hmax 2%nat). reflexivity.
Defined.

Lemma ema_recurrence_witness :
  ∃ ema : list Qc,
    ema !! 0%nat = Some (Qc_of_Z 10)
    ∧ (∃ x y, col_close Examples.six_days !! 1%nat = Some x
              ∧ ema !! 0%nat = Some y
              ∧ ema !! 1%nat
                = Some (2 / (Qc_of_Z 12 + 1) * x + (1 - 2 / (Qc_of_Z 12 + 1)) * y))
    ∧ StockBot.unscaled_indicators Examples.no_flips Examples.no_spikes
        Examples.no_oscillator Scenarios.ema_keys Examples.six_days 3 !! "12-day EMA"
      = Some (ColSeries (iloc_tail 3 (of_list (Finite <$> ema))))
    ∧ ModelsPy.unscaled_indicators Examples.no_flips Examples.no_spikes
        Examples.no_oscillator 60 14 Examples.six_days !! "12-day EMA"
      = Some (ColSeries (iloc_tail 60 (of_list (Finite <$> ema))))
    ∧ (∃ sd, StockBot.indicators_past_num_days [] Examples.no_flips Examples.no_spikes
               Examples.no_oscillator Examples.no_earnings "AAPL" 5 Scenarios.ema_keys
               Scenarios.ema_scaler Examples.six_days 3 = Ok sd
             ∧ sd !! "12-day EMA"
               = Some (ColSeries (scale_series (Num.of_Z 10) (Num.of_Z 10)
                         (iloc_tail 3 (of_list (Finite <$> ema))))))
    ∧ (∃ rows, ModelsPy.getInfoToday Examples.no_flips Examples.no_spikes
                 Examples.no_oscillator Examples.no_earnings
                 (Some Scenarios.six_day_history) 14 Scenarios.legacy_ema_model = Ok rows
               ∧ rows !! 0%nat
                 = Some (svals (scale_series (Finite (Qc_of_Z 10))
                                  (Finite (Qc_of_Z 20 - Qc_of_Z 10))
                                  (iloc_tail 60 (of_list (Finite <$> ema)))))).
Proof.
  destruct (ema_recurrence [] Examples.no_flips Examples.no_spikes Examples.no_oscillator
              Examples.no_earnings 12 "12-day EMA" Scenarios.ema_keys 3 60 14
              Examples.six_days)
    as (ema & _ & H0 & Hstep & Hnew & Hold & Hreturned & Hlegacy).
  - discriminate.
  - apply list_elem_of_here.
  - exists ema. split; [exact H0|].
    split; [apply (Hstep 1%nat); simpl; lia|].
    split; [apply Hnew; by_evaluation|]. split; [exact Hold|]. split.
    + assert (Hok : match StockBot.indicators_past_num_days [] Examples.no_flips
                            Examples.no_spikes Examples.no_oscillator Examples.no_earnings
                            "AAPL" 5 Scenarios.ema_keys Scenarios.ema_scaler
                            Examples.six_days 3 with
                    | Ok _ => True
                    | Raise _ => False
                    end) by (vm_compute; exact I).
      destruct (StockBot.indicators_past_num_days [] Examples.no_flips Examples.no_spikes
                  Examples.no_oscillator Examples.no_earnings "AAPL" 5 Scenarios.ema_keys
                  Scenarios.ema_scaler Examples.six_days 3) as [sd|e] eqn:Hrun.
      * exists sd. split; [done|].
        destruct (Hreturned "AAPL" 5%Z Scenarios.ema_scaler sd) as (e & He & Hsd);
          [by_evaluation | by_evaluation | apply not_elem_of_nil | exact Hrun |].
        unfold Scenarios.ema_scaler in He. rewrite lookup_insert_eq in He.
        injection He as <-. exact Hsd.
      * exfalso. exact Hok.
    + assert (Hok : match ModelsPy.getInfoToday Examples.no_flips Examples.no_spikes
                            Examples.no_oscillator Examples.no_earnings
                            (Some Scenarios.six_day_history) 14
                            Scenarios.legacy_ema_model with
                    | Ok _ => True
                    | Raise _ => False
                    end) by (vm_compute; exact I).
      destruct (ModelsPy.getInfoToday Examples.no_flips Examples.no_spikes
                  Examples.no_oscillator Examples.no_earnings
                  (Some Scenarios.six_day_history) 14 Scenarios.legacy_ema_model)
        as [rows|e] eqn:Hrun.
      * exists rows. split; [done|].
        destruct (Hlegacy Scenarios.six_day_history Scenarios.legacy_ema_model rows 0%nat)
          as (d & training & lo & hi & Hd & Ht & Hlo & Hhi & Hrow);
          [reflexivity | by_evaluation | reflexivity | exact Hrun |].
        injection Hd as <-. rewrite lookup_insert_eq in Ht. injection Ht as <-.
        assert (Hlo' : py_min [Qc_of_Z 10; Qc_of_Z 20] = Ok (Qc_of_Z 10)) by by_evaluation.
        assert (Hhi' : py_max [Qc_of_Z 10; Qc_of_Z 20] = Ok (Qc_of_Z 20)) by by_evaluation.
        rewrite Hlo' in Hlo. injection Hlo as <-.
        rewrite Hhi' in Hhi. injection Hhi as <-.
        exact Hrow.
      * exfalso. exact Hok.
Defined.

Lemma trama_is_rolling_mean_plus_pointwise_volatility_witness :
  let d := Examples.fifteen_days in
  let value := (mean_of 14 (window_at 14 14 (Finite <$> col_close d))
                + Num.abs (Num.of_Z 3 - Num.of_Z 1) * Finite (Q2Qc 0.1))%num in
  at_label (StockBot.trama_series 15 d) 14 = value
  ∧ at_label (StockBot.trama_series 0 d) 14 = value
  ∧ at_label (StockBot.trama_series 61 d) 14 = value
  ∧ at_label (ModelsPy.trama_series 14 d) 14 = value.
Proof.
  intros d value.
  assert (Ht : (14 < length d)%nat) by (simpl; lia).
  destruct (trama_is_rolling_mean_plus_pointwise_volatility 15 d 14 Ht)
    as (_ & H15 & _ & H60 & _).
  destruct (trama_is_rolling_mean_plus_pointwise_volatility 0 d 14 Ht)
    as (_ & H0 & _).
  destruct (trama_is_rolling_mean_plus_pointwise_volatility 61 d 14 Ht)
    as (_ & H61 & _).
  split; [apply H15; simpl; lia|]. split; [apply H0; simpl; lia|].
  split; [apply H61; simpl; lia | apply H60; simpl; lia].
Defined.
